(** * Grad-CAM heatmaps, heatmap overlays and report texts

    A shallow embedding of the numeric core of the diabetic-retinopathy
    report generator:

    - [get_gradcam_heatmap] and [overlay_heatmap] of
      [src/explanation_utils.py],
    - [explain_prediction_simple] of [src/explanation_utils.py] and
      [get_recommendation] of [src/model_utils.py].

    Modelling conventions.

    - A tensor or numpy array is a shape with its elements in row-major
      order ([ndarray]), as the libraries store them.
    - Numbers are exact rationals: rounding and overflow of the 32 and
      64 bit floats are not modelled.  The values a division can create
      out of finite ones (the infinities and NaN) are part of the
      element type [fp] of TensorFlow tensors, so that an unguarded
      division shows.  The zero of [fp] carries no sign.
    - The classifier is opaque: a record of its layers, its activations,
      its probabilities and the gradient of a class score with respect to
      a layer ([Model]).  What it returns is finite.
    - Python exceptions are values of [exn]; a function that may raise
      returns a [result].
    - numpy arrays live in a store and are passed by reference
      ([Py], [overlay_heatmap]), so that what a call writes is visible. *)

From Stdlib Require Import QArith ZArith List Lia Lqa.
From stdpp Require Import gmap strings pretty.

Open Scope Q_scope.

(** ** Exceptions and results *)

Inductive exn : Type :=
| LayerNotFound                      (* the condition of the specification; nothing in the source raises it *)
| ValueError (msg : string)
| IndexError (msg : string)
| KeyError (msg : string)
| InvalidArgumentError (msg : string) (* tf.errors.InvalidArgumentError *)
| cv2_error (msg : string).

Inductive result (A : Type) : Type :=
| Ok (a : A)
| Error (e : exn).

Arguments Ok {A} a.
Arguments Error {A} e.

Definition bind {A B : Type} (r : result A) (k : A -> result B) : result B :=
  match r with
  | Ok a => k a
  | Error e => Error e
  end.

Notation "x <- e ;; k" := (bind e (fun x => k))
  (at level 100, e at next level, right associativity).

(** ** Tensor elements *)

Inductive fp : Type :=
| Fin (q : Q)
| PInf
| NInf
| NaN.

Definition Qsign (q : Q) : comparison := (Qnum q ?= 0)%Z.

Arguments Qsign : simpl never.

Definition fadd (x y : fp) : fp :=
  match x, y with
  | NaN, _ | _, NaN => NaN
  | Fin a, Fin b => Fin (a + b)
  | PInf, NInf | NInf, PInf => NaN
  | PInf, _ | _, PInf => PInf
  | NInf, _ | _, NInf => NInf
  end.

Definition finf_scale (pos : bool) (q : Q) : fp :=
  match Qsign q with
  | Eq => NaN
  | Gt => if pos then PInf else NInf
  | Lt => if pos then NInf else PInf
  end.

Definition fmul (x y : fp) : fp :=
  match x, y with
  | NaN, _ | _, NaN => NaN
  | Fin a, Fin b => Fin (a * b)
  | PInf, Fin a | Fin a, PInf => finf_scale true a
  | NInf, Fin a | Fin a, NInf => finf_scale false a
  | PInf, PInf | NInf, NInf => PInf
  | PInf, NInf | NInf, PInf => NInf
  end.

(** Division as the tensors do it: no exception, [0/0] is NaN and a
    non-zero value over zero is an infinity. *)
Definition fdiv (x y : fp) : fp :=
  match x, y with
  | NaN, _ | _, NaN => NaN
  | Fin a, Fin b =>
      match Qsign b with
      | Eq => match Qsign a with Eq => NaN | Gt => PInf | Lt => NInf end
      | _ => Fin (a / b)
      end
  | Fin _, PInf | Fin _, NInf => Fin 0
  | PInf, Fin b => match Qsign b with Lt => NInf | _ => PInf end
  | NInf, Fin b => match Qsign b with Lt => PInf | _ => NInf end
  | PInf, PInf | PInf, NInf | NInf, PInf | NInf, NInf => NaN
  end.

Definition fmax (x y : fp) : fp :=
  match x, y with
  | NaN, _ | _, NaN => NaN
  | PInf, _ | _, PInf => PInf
  | NInf, z | z, NInf => z
  | Fin a, Fin b => if Qle_bool a b then Fin b else Fin a
  end.

Definition fltb (x y : fp) : bool :=
  match x, y with
  | NaN, _ | _, NaN => false
  | Fin a, Fin b => negb (Qle_bool b a)
  | NInf, NInf | PInf, _ => false
  | NInf, _ => true
  | Fin _, PInf => true
  | Fin _, NInf => false
  end.

Definition fsum (l : list fp) : fp := fold_right fadd (Fin 0) l.

(** Reading an [fp]: it is the finite number [q]; it lies in [[0,1]]. *)
Definition fp_is (q : Q) (x : fp) : Prop :=
  match x with Fin a => a == q | _ => False end.

Definition in_unit (x : fp) : Prop :=
  match x with Fin a => 0 <= a /\ a <= 1 | _ => False end.

Definition fp_isb (q : Q) (x : fp) : bool :=
  match x with Fin a => Qeq_bool a q | _ => false end.

(** ** Arrays *)

Record ndarray (A : Type) : Type := mk_ndarray {
  shape : list nat;
  data : list A
}.

Arguments mk_ndarray {A} shape data.
Arguments shape {A} n.
Arguments data {A} n.

Definition size_of (s : list nat) : nat := fold_right Nat.mul 1%nat s.

Definition well_shaped {A : Type} (a : ndarray A) : Prop :=
  length (data a) = size_of (shape a).

Definition full {A : Type} (s : list nat) (v : A) : ndarray A :=
  {| shape := s; data := repeat v (size_of s) |}.

Definition tensor : Type := ndarray fp.

Definition as_tensor (a : ndarray Q) : tensor :=
  {| shape := shape a; data := map Fin (data a) |}.

(** ** TensorFlow operations used by Grad-CAM *)

(** [t[0]] *)
Definition tf_index0 (t : tensor) : result tensor :=
  match shape t with
  | [] => Error (InvalidArgumentError "Index out of range using input dim 0")
  | O :: _ => Error (InvalidArgumentError "slice index 0 of dimension 0 out of bounds")
  | S _ :: rest => Ok {| shape := rest; data := take (size_of rest) (data t) |}
  end.

(** [tf.argmax] of a vector: the first index that holds the maximum. *)
Fixpoint argmax_from (best_i : nat) (best : fp) (i : nat) (l : list fp) : nat :=
  match l with
  | [] => best_i
  | x :: l' =>
      if fltb best x then argmax_from i x (S i) l'
      else argmax_from best_i best (S i) l'
  end.

Definition tf_argmax (t : tensor) : result nat :=
  match data t with
  | [] => Error (InvalidArgumentError "Reduction axis 0 is empty")
  | x :: l => Ok (argmax_from 0 x 1 l)
  end.

(** The column index of [predictions[:, pred_class]]: negative indices
    count from the end, anything else out of range is an error. *)
Definition tf_column (predictions : tensor) (pred_class : Z) : result nat :=
  match shape predictions with
  | [_; n] =>
      let c := (if pred_class <? 0 then pred_class + Z.of_nat n else pred_class)%Z in
      if ((0 <=? c) && (c <? Z.of_nat n))%Z then Ok (Z.to_nat c)
      else Error (InvalidArgumentError "slice index out of bounds")
  | _ => Error (InvalidArgumentError "Index out of range using input dim 1")
  end.

(** [tf.reduce_mean(t, axis=(0, 1, 2))] *)
Definition tf_reduce_mean_012 (t : tensor) : result tensor :=
  match shape t with
  | d0 :: d1 :: d2 :: rest =>
      let n := (d0 * d1 * d2)%nat in
      let k := size_of rest in
      Ok {| shape := rest;
            data := map (fun j =>
                      fdiv (fsum (map (fun i => nth (i * k + j) (data t) NaN) (seq 0 n)))
                           (Fin (inject_Z (Z.of_nat n))))
                    (seq 0 k) |}
  | _ => Error (InvalidArgumentError "Invalid reduction dimension")
  end.

(** [t[..., tf.newaxis]] *)
Definition tf_newaxis (t : tensor) : tensor :=
  {| shape := shape t ++ [1%nat]; data := data t |}.

(** [a @ b] for a matrix [b]: every [n] by [k] matrix of [a] is
    multiplied by the [k] by [m] matrix [b].  Right operands of a higher
    rank (stacks of matrices) are left out: the source builds [b] as a
    column of weights. *)
Definition tf_matmul (a b : tensor) : result tensor :=
  match rev (shape a), shape b with
  | k :: n :: rbatch, [k'; m] =>
      if (k =? k')%nat then
        let rows := (size_of (rev rbatch) * n)%nat in
        Ok {| shape := rev rbatch ++ [n; m];
              data := flat_map (fun i =>
                        map (fun j =>
                          fsum (map (fun l => fmul (nth (i * k + l) (data a) NaN)
                                                   (nth (l * m + j) (data b) NaN))
                                    (seq 0 k)))
                        (seq 0 m))
                      (seq 0 rows) |}
      else Error (InvalidArgumentError "Matrix size-incompatible")
  | _, _ => Error (InvalidArgumentError "In[0] and In[1] ndims must be >= 2")
  end.

(** [tf.squeeze]: every axis of size one goes. *)
Definition tf_squeeze (t : tensor) : tensor :=
  {| shape := filter (fun d => negb (d =? 1)%nat) (shape t); data := data t |}.

(** [tf.maximum(t, c)] for a scalar [c] *)
Definition tf_maximum (t : tensor) (c : fp) : tensor :=
  {| shape := shape t; data := map (fun x => fmax x c) (data t) |}.

(** [tf.math.reduce_max(t)]: the maximum of all elements, minus infinity
    for none. *)
Definition tf_reduce_max (t : tensor) : fp := fold_right fmax NInf (data t).

(** [t / c] for a scalar [c] *)
Definition tf_div (t : tensor) (c : fp) : tensor :=
  {| shape := shape t; data := map (fun x => fdiv x c) (data t) |}.

(** ** The classifier *)

Record Layer : Type := {
  layer_name : string;
  output_shape : list (option nat)      (* [None] is the batch axis *)
}.

Record Model : Type := {
  layers : list Layer;
  (* the activations of the named layer on an image batch *)
  layer_output : string -> ndarray Q -> ndarray Q;
  (* model.output: the probabilities, one row per image *)
  model_output : ndarray Q -> ndarray Q;
  (* the gradient of column [c] of the probabilities with respect to the
     activations of the named layer; [None] when no path connects them *)
  output_gradient : string -> ndarray Q -> nat -> option (ndarray Q)
}.

(** [model.get_layer(name)] *)
Definition get_layer (model : Model) (name : option string) : result Layer :=
  match name with
  | None => Error (ValueError "Provide either a layer name or layer index.")
  | Some n =>
      match find (fun l => String.eqb (layer_name l) n) (layers model) with
      | Some l => Ok l
      | None => Error (ValueError ("No such layer: " +:+ n))
      end
  end.

(** Lines 27-31: the name of the last layer whose output has four axes. *)
Definition find_last_conv_layer (model : Model) (last_conv_layer_name : option string)
  : option string :=
  match last_conv_layer_name with
  | Some n => Some n
  | None =>
      match find (fun layer => (length (output_shape layer) =? 4)%nat) (rev (layers model)) with
      | Some layer => Some (layer_name layer)
      | None => None
      end
  end.

(** Lines 42-43: the target class, the first maximum of the first row of
    the probabilities when the caller gives none. *)
Definition target_class (predictions : tensor) (pred_class : option Z) : result Z :=
  match pred_class with
  | None =>
      row <- tf_index0 predictions ;;
      i <- tf_argmax row ;;
      Ok (Z.of_nat i)
  | Some c => Ok c
  end.

(** Lines 27-47: the feature map of the chosen layer and the gradient of
    the class score with respect to it. *)
Definition grad_model_outputs (model : Model) (image : ndarray Q)
    (pred_class : option Z) (last_conv_layer_name : option string)
  : result (tensor * tensor) :=
  let last_conv_layer_name := find_last_conv_layer model last_conv_layer_name in
  layer <- get_layer model last_conv_layer_name ;;
  let conv_outputs := as_tensor (layer_output model (layer_name layer) image) in
  let predictions := as_tensor (model_output model image) in
  pred_class <- target_class predictions pred_class ;;
  class_channel <- tf_column predictions pred_class ;;
  match output_gradient model (layer_name layer) image class_channel with
  | None => Error (ValueError "Attempt to convert a value (None) to a Tensor.")
  | Some grads => Ok (conv_outputs, as_tensor grads)
  end.

(** Line 50: the channel importance vector. *)
Definition pooled_gradients (grads : tensor) : result tensor :=
  tf_reduce_mean_012 grads.

(** Lines 53-55: every pixel of the feature map times the channel
    importance vector. *)
Definition channel_weighted_sum (conv_outputs pooled_grads : tensor) : result tensor :=
  conv_outputs <- tf_index0 conv_outputs ;;
  heatmap <- tf_matmul conv_outputs (tf_newaxis pooled_grads) ;;
  Ok (tf_squeeze heatmap).

(** Lines 50-55 *)
Definition weighted_feature_sum (conv_outputs grads : tensor) : result tensor :=
  pooled_grads <- pooled_gradients grads ;;
  channel_weighted_sum conv_outputs pooled_grads.

(** Line 58: [tf.maximum(heatmap, 0) / tf.math.reduce_max(heatmap)].  The
    divisor is the maximum of the heatmap before clipping. *)
Definition normalize_heatmap (heatmap : tensor) : tensor :=
  tf_div (tf_maximum heatmap (Fin 0)) (tf_reduce_max heatmap).

Definition get_gradcam_heatmap (model : Model) (image : ndarray Q)
    (pred_class : option Z) (last_conv_layer_name : option string)
  : result tensor :=
  outputs <- grad_model_outputs model image pred_class last_conv_layer_name ;;
  let '(conv_outputs, grads) := outputs in
  heatmap <- weighted_feature_sum conv_outputs grads ;;
  Ok (normalize_heatmap heatmap).

(** Lines 47-58 for a layer and a column of the probabilities that are
    settled: the heatmap made of the activations of the layer [name] and
    of the gradient of column [c] with respect to them. *)
Definition class_heatmap (model : Model) (image : ndarray Q) (name : string) (c : nat)
  : result tensor :=
  match output_gradient model name image c with
  | None => Error (ValueError "Attempt to convert a value (None) to a Tensor.")
  | Some grads =>
      heatmap <- weighted_feature_sum (as_tensor (layer_output model name image))
                                      (as_tensor grads) ;;
      Ok (normalize_heatmap heatmap)
  end.

(** The probabilities of the first image of the batch. *)
Definition first_row (a : ndarray Q) : list Q :=
  take (size_of (tail (shape a))) (data a).

(** A classifier none of whose layers has an output of four axes. *)
Definition no_four_axis_layer (model : Model) : Prop :=
  Forall (fun layer => length (output_shape layer) <> 4%nat) (layers model).

(** [l] has its first maximum [q] at index [i]. *)
Definition first_max (l : list Q) (i : nat) (q : Q) : Prop :=
  l !! i = Some q /\
  forall j pj, l !! j = Some pj -> pj <= q /\ ((j < i)%nat -> pj < q).

(** Checks that evaluate: an element is at most zero; a tensor has the
    shape [s] and holds [q] everywhere. *)
Definition fp_nonpos (x : fp) : Prop :=
  match x with Fin a => a <= 0 | _ => False end.

Definition fp_nonposb (x : fp) : bool :=
  match x with Fin a => Qle_bool a 0 | _ => false end.

Definition uniformb (s : list nat) (q : Q) (t : tensor) : bool :=
  bool_decide (shape t = s) && (length (data t) =? size_of s)%nat && forallb (fp_isb q) (data t).

(** ** numpy and OpenCV operations used by the overlay *)

(** The conversion of a float to an integer drops the fraction. *)
Definition Qtrunc (q : Q) : Z := Z.quot (Qnum q) (Zpos (Qden q)).

(** [a * c] and [c * a] for a scalar [c], [a / c] *)
Definition np_mul (a : ndarray Q) (c : Q) : ndarray Q :=
  {| shape := shape a; data := map (fun x => x * c) (data a) |}.

Definition np_rmul (c : Q) (a : ndarray Q) : ndarray Q :=
  {| shape := shape a; data := map (fun x => c * x) (data a) |}.

Definition np_div (a : ndarray Q) (c : Q) : ndarray Q :=
  {| shape := shape a; data := map (fun x => x / c) (data a) |}.

(** [np.uint8(a)]: the fraction is dropped and the integer wraps into a
    byte.  A byte array is an array of integral rationals. *)
Definition np_uint8 (a : ndarray Q) : ndarray Q :=
  {| shape := shape a; data := map (fun x => inject_Z (Qtrunc x mod 256)) (data a) |}.

(** [a.max()] *)
Definition np_max (a : ndarray Q) : result Q :=
  match data a with
  | [] => Error (ValueError "zero-size array to reduction operation maximum which has no identity")
  | x :: l => Ok (fold_right (fun y m => if Qle_bool m y then y else m) x l)
  end.

(** [t[i]] on a shape tuple *)
Definition tuple_index (t : list nat) (i : nat) : result nat :=
  match t !! i with
  | Some d => Ok d
  | None => Error (IndexError "tuple index out of range")
  end.

(** Broadcasting.  Shapes are aligned at their last axis; two axes go
    together when they are equal or one of them is one. *)
Definition pad_shape (n : nat) (s : list nat) : list nat :=
  replicate (n - length s) 1%nat ++ s.

Fixpoint broadcast_dims (s t : list nat) : option (list nat) :=
  match s, t with
  | [], [] => Some []
  | a :: s', b :: t' =>
      match broadcast_dims s' t' with
      | None => None
      | Some r =>
          if (a =? b)%nat then Some (a :: r)
          else if (a =? 1)%nat then Some (b :: r)
          else if (b =? 1)%nat then Some (a :: r)
          else None
      end
  | _, _ => None
  end.

Definition np_broadcast_shapes (s t : list nat) : option (list nat) :=
  let n := Nat.max (length s) (length t) in
  broadcast_dims (pad_shape n s) (pad_shape n t).

(** The elements of an array of (padded) shape [s] seen at shape [t]. *)
Fixpoint broadcast_data (s t : list nat) (d : list Q) : list Q :=
  match s, t with
  | a :: s', b :: t' =>
      let k := size_of s' in
      if (a =? b)%nat
      then flat_map (fun i => broadcast_data s' t' (take k (drop (i * k) d))) (seq 0 a)
      else concat (replicate b (broadcast_data s' t' d))
  | _, _ => d
  end.

(** [a + b] *)
Definition np_add (a b : ndarray Q) : result (ndarray Q) :=
  match np_broadcast_shapes (shape a) (shape b) with
  | None => Error (ValueError "operands could not be broadcast together")
  | Some s =>
      let n := length s in
      Ok {| shape := s;
            data := zip_with Qplus (broadcast_data (pad_shape n (shape a)) s (data a))
                                   (broadcast_data (pad_shape n (shape b)) s (data b)) |}
  end.

(** A colormap is the table that its OpenCV identifier selects: for each
    byte the blue, green and red bytes. *)
Definition colormap_table : Type := Z -> Z * Z * Z.

(** [cv2.applyColorMap(a, colormap)] on a single-channel byte image.
    Sources with several channels are left out. *)
Definition cv2_applyColorMap (a : ndarray Q) (colormap : colormap_table)
  : result (ndarray Q) :=
  match shape a with
  | [h; w] =>
      Ok {| shape := [h; w; 3%nat];
            data := flat_map (fun v => let '(b, g, r) := colormap (Qtrunc v) in
                                       [inject_Z b; inject_Z g; inject_Z r]) (data a) |}
  | _ => Error (cv2_error "applyColorMap: unsupported source")
  end.

Fixpoint swap_channels (l : list Q) : list Q :=
  match l with
  | b :: g :: r :: l' => r :: g :: b :: swap_channels l'
  | _ => []
  end.

(** [cv2.cvtColor(a, cv2.COLOR_BGR2RGB)] *)
Definition cv2_cvtColor_BGR2RGB (a : ndarray Q) : result (ndarray Q) :=
  match shape a with
  | [h; w; 3%nat] => Ok {| shape := [h; w; 3%nat]; data := swap_channels (data a) |}
  | _ => Error (cv2_error "cvtColor: invalid number of channels in input image")
  end.

(** ** The store of arrays *)

Definition ref : Type := nat.
Definition heap : Type := list (ndarray Q).
Definition Py (A : Type) : Type := heap -> result A * heap.

Definition py_ret {A : Type} (a : A) : Py A := fun h => (Ok a, h).

Definition py_bind {A B : Type} (m : Py A) (k : A -> Py B) : Py B :=
  fun h => match m h with
           | (Ok a, h') => k a h'
           | (Error e, h') => (Error e, h')
           end.

Notation "x <~ e ;; k" := (py_bind e (fun x => k))
  (at level 100, e at next level, right associativity).

Definition py_lift {A : Type} (r : result A) : Py A := fun h => (r, h).

(** A new array: the store grows by one cell, no cell is written. *)
Definition alloc (a : ndarray Q) : Py ref := fun h => (Ok (length h), h ++ [a]).

Definition deref (r : ref) : Py (ndarray Q) :=
  fun h => match h !! r with
           | Some a => (Ok a, h)
           | None => (Error (ValueError "no such object"), h)
           end.

(** A library call with one, or two, array arguments that returns a new
    array. *)
Definition call1 (f : ndarray Q -> result (ndarray Q)) (r : ref) : Py ref :=
  a <~ deref r ;;
  b <~ py_lift (f a) ;;
  alloc b.

Definition call2 (f : ndarray Q -> ndarray Q -> result (ndarray Q)) (r1 r2 : ref) : Py ref :=
  a <~ deref r1 ;;
  b <~ deref r2 ;;
  c <~ py_lift (f a b) ;;
  alloc c.

(** [cv2.resize(src, (width, height))] is OpenCV's own: it is a parameter
    of the overlay, a function of the source and the requested size that
    returns a new image. *)
Definition resize_fn : Type := ndarray Q -> nat -> nat -> result (ndarray Q).

Definition overlay_heatmap (cv2_resize : resize_fn)
    (image heatmap : ref) (alpha : Q) (colormap : colormap_table) : Py ref :=
  (* Resize heatmap to match image size *)
  img <~ deref image ;;
  width <~ py_lift (tuple_index (shape img) 1) ;;
  height <~ py_lift (tuple_index (shape img) 0) ;;
  heatmap <~ call1 (fun a => cv2_resize a width height) heatmap ;;
  (* Convert heatmap to RGB *)
  scaled <~ call1 (fun a => Ok (np_rmul 255 a)) heatmap ;;
  heatmap <~ call1 (fun a => Ok (np_uint8 a)) scaled ;;
  heatmap <~ call1 (fun a => cv2_applyColorMap a colormap) heatmap ;;
  heatmap <~ call1 cv2_cvtColor_BGR2RGB heatmap ;;
  heatmap <~ call1 (fun a => Ok (np_div a 255)) heatmap ;;
  (* Convert image to 0-1 range if needed *)
  img <~ deref image ;;
  image_max <~ py_lift (np_max img) ;;
  image <~ (if negb (Qle_bool image_max 1)
            then call1 (fun a => Ok (np_div a 255)) image
            else py_ret image) ;;
  (* Overlay *)
  colored <~ call1 (fun a => Ok (np_mul a alpha)) heatmap ;;
  faded <~ call1 (fun a => Ok (np_mul a (1 - alpha))) image ;;
  overlaid_image <~ call2 np_add colored faded ;;
  py_ret overlaid_image.

(** The array a call returns, read from the store it leaves. *)
Definition returned (out : result ref * heap) : result (ndarray Q) :=
  match out with
  | (Ok r, h) =>
      match h !! r with
      | Some a => Ok a
      | None => Error (ValueError "no such object")
      end
  | (Error e, _) => Error e
  end.

(** The image after line 86-87, and the false-colour rendering of a
    resized heatmap after lines 80-83. *)
Definition normalized_image (img : ndarray Q) : result (ndarray Q) :=
  image_max <- np_max img ;;
  Ok (if negb (Qle_bool image_max 1) then np_div img 255 else img).

Definition colormap_rendering (resized : ndarray Q) (colormap : colormap_table)
  : result (ndarray Q) :=
  bgr <- cv2_applyColorMap (np_uint8 (np_rmul 255 resized)) colormap ;;
  rgb <- cv2_cvtColor_BGR2RGB bgr ;;
  Ok (np_div rgb 255).

(** What the overlay computes from the contents of its two arrays. *)
Definition overlay_value (cv2_resize : resize_fn)
    (img hm : ndarray Q) (alpha : Q) (colormap : colormap_table) : result (ndarray Q) :=
  width <- tuple_index (shape img) 1 ;;
  height <- tuple_index (shape img) 0 ;;
  resized <- cv2_resize hm width height ;;
  rendering <- colormap_rendering resized colormap ;;
  image <- normalized_image img ;;
  np_add (np_mul rendering alpha) (np_mul image (1 - alpha)).

(** What the overlay relies on from [cv2.resize]: a non-empty
    single-channel source and a non-empty size give an image of that
    size. *)
Definition resize_contract (cv2_resize : resize_fn) : Prop :=
  forall (src : ndarray Q) (w h sh sw : nat),
    shape src = [sh; sw] -> well_shaped src ->
    (0 < sh)%nat -> (0 < sw)%nat -> (0 < w)%nat -> (0 < h)%nat ->
    exists dst, cv2_resize src w h = Ok dst /\ shape dst = [h; w] /\ well_shaped dst.

(** An RGB image of [h] rows and [w] columns. *)
Definition rgb_image (img : ndarray Q) (h w : nat) : Prop :=
  shape img = [h; w; 3%nat] /\ well_shaped img /\ (0 < h)%nat /\ (0 < w)%nat.

Definition heatmap_2d (hm : ndarray Q) : Prop :=
  exists sh sw, shape hm = [sh; sw] /\ well_shaped hm /\ (0 < sh)%nat /\ (0 < sw)%nat.

(** Two arrays of the same shape whose elements are equal as numbers. *)
Definition array_eq (a b : ndarray Q) : Prop :=
  shape a = shape b /\ Forall2 Qeq (data a) (data b).

(** A call leaves the store it got, with new cells after it. *)
Definition extends_heap {A : Type} (m : Py A) : Prop :=
  forall h, exists fresh, snd (m h) = h ++ fresh.

(** ** Report texts *)

Definition newline : string := String (Ascii.ascii_of_nat 10) EmptyString.

(** [d[k]] and [d.get(k, default)] *)
Definition dict_item {V : Type} (d : gmap Z V) (k : Z) : result V :=
  match d !! k with
  | Some v => Ok v
  | None => Error (KeyError (pretty k))
  end.

Definition dict_get {V : Type} (d : gmap Z V) (k : Z) (dflt : V) : V :=
  default dflt (d !! k).

Definition class_explanations : gmap Z string :=
  <[0%Z := "The computer looked at your eye photo and did not find any signs of disease. Your blood vessels look clear and healthy."]>
  (<[1%Z := "The computer found some early changes in your eye. These are small signs that need to be watched."]>
  (<[2%Z := "The computer found changes in your eye that need attention. There are signs of blood vessel damage."]>
  (<[3%Z := "The computer found serious changes in your eye. The blood vessels show significant damage that needs treatment."]>
  (<[4%Z := "The computer found advanced changes in your eye. There is serious blood vessel damage that needs immediate treatment."]>
   ∅)))).

Definition explain_prediction_simple (predicted_class : Z) (confidence : Q)
    (heatmap_focus : string) : result string :=
  class0 <- dict_item class_explanations 0 ;;
  let explanation := dict_get class_explanations predicted_class class0 in
  (* Add confidence note *)
  let confidence_pct := Qtrunc (confidence * 100) in
  Ok (explanation +:+ newline +:+ newline +:+ "The computer is "
        +:+ pretty confidence_pct +:+ "% confident about this finding.").

Definition recommendation_entry (nurse patient urgency : string) : gmap string string :=
  <["nurse" := nurse]> (<["patient" := patient]> (<["urgency" := urgency]> ∅)).

Definition recommendations : gmap Z (gmap string string) :=
  <[0%Z := recommendation_entry
     "Result indicates no diabetic retinopathy. Routine follow-up recommended."
     "Your eyes look healthy. Come back for another screening in 1 year."
     "routine"]>
  (<[1%Z := recommendation_entry
     "Mild diabetic retinopathy detected. Recommend follow-up in 6-12 months."
     "Early signs detected. See an eye doctor within 6-12 months to monitor your eyes."
     "monitor"]>
  (<[2%Z := recommendation_entry
     "Moderate diabetic retinopathy. Refer to eye specialist within 3-6 months."
     "Your eyes need attention. See an eye doctor within 3-6 months for treatment."
     "refer"]>
  (<[3%Z := recommendation_entry
     "Severe diabetic retinopathy. Urgent referral to eye specialist within 1-2 months."
     "Your eyes need urgent care. See an eye doctor within 1-2 months. Treatment can protect your vision."
     "urgent"]>
  (<[4%Z := recommendation_entry
     "Proliferative diabetic retinopathy. Immediate referral to eye specialist (within 2 weeks)."
     "Your eyes need immediate attention. See an eye doctor within 2 weeks. Early treatment is very important."
     "immediate"]>
   ∅)))).

Definition confidence_note (confidence : Q) : string :=
  if negb (Qle_bool (7 # 10) confidence)
  then "Low confidence - recommend manual review by specialist"
  else if negb (Qle_bool (85 # 100) confidence)
  then "Medium confidence - consider additional screening"
  else "High confidence result".

Definition get_recommendation (predicted_class : Z) (confidence : Q)
  : result (gmap string string) :=
  class0 <- dict_item recommendations 0 ;;
  let recommendation := dict_get recommendations predicted_class class0 in
  (* Add confidence note *)
  Ok (<["note" := confidence_note confidence]> recommendation).

(** ** Concrete classifiers, images and stores *)

(** An image batch; the classifiers below do not look at it. *)
Definition small_image : ndarray Q := full [1; 2; 2; 3]%nat (1 # 2).

(** The scenario of the specification: five classes, a last convolutional
    layer of shape (7,7,32) with activations of one and a gradient of 0.5
    everywhere. *)
Definition scenario_model : Model := {|
  layers := [ {| layer_name := "conv2d"; output_shape := [None; Some 14; Some 14; Some 16]%nat |};
              {| layer_name := "last_conv"; output_shape := [None; Some 7; Some 7; Some 32]%nat |};
              {| layer_name := "flatten"; output_shape := [None; Some 1568%nat] |};
              {| layer_name := "dense"; output_shape := [None; Some 5%nat] |} ];
  layer_output := fun _ _ => full [1; 7; 7; 32]%nat 1;
  model_output := fun _ => {| shape := [1; 5]%nat; data := [1 # 10; 2 # 10; 4 # 10; 2 # 10; 1 # 10] |};
  output_gradient := fun _ _ _ => Some (full [1; 7; 7; 32]%nat (1 # 2))
|}.

(** A classifier whose class score does not react to its feature map:
    activations of one, a gradient of zero. *)
Definition saturated_model : Model := {|
  layers := [ {| layer_name := "conv"; output_shape := [None; Some 2; Some 2; Some 2]%nat |};
              {| layer_name := "dense"; output_shape := [None; Some 5%nat] |} ];
  layer_output := fun _ _ => full [1; 2; 2; 2]%nat 1;
  model_output := fun _ => {| shape := [1; 5]%nat; data := [1; 0; 0; 0; 0] |};
  output_gradient := fun _ _ _ => Some (full [1; 2; 2; 2]%nat 0)
|}.

(** A classifier of dense layers only. *)
Definition dense_model : Model := {|
  layers := [ {| layer_name := "hidden"; output_shape := [None; Some 16%nat] |};
              {| layer_name := "dense"; output_shape := [None; Some 5%nat] |} ];
  layer_output := fun _ _ => full [1; 16]%nat 1;
  model_output := fun _ => {| shape := [1; 5]%nat; data := [1 # 5; 1 # 5; 1 # 5; 1 # 5; 1 # 5] |};
  output_gradient := fun _ _ _ => Some (full [1; 16]%nat 0)
|}.

(** A layer of 2 by 2 pixels and one channel whose class score grows with
    every activation. *)
Definition tiny_model : Model := {|
  layers := [ {| layer_name := "conv"; output_shape := [None; Some 2; Some 2; Some 1]%nat |};
              {| layer_name := "dense"; output_shape := [None; Some 2%nat] |} ];
  layer_output := fun _ _ => {| shape := [1; 2; 2; 1]%nat; data := [1; 2; 3; 4] |};
  model_output := fun _ => {| shape := [1; 2]%nat; data := [1 # 4; 3 # 4] |};
  output_gradient := fun _ _ _ => Some (full [1; 2; 2; 1]%nat 1)
|}.

(** Three classes, the two last of which tie for the maximum, and two
    convolutional layers with activations of their own.  The score of
    class 1 grows with the activations of the last one and the scores of
    the others fall; every score grows with those of the first. *)
Definition two_peak_model : Model := {|
  layers := [ {| layer_name := "conv1"; output_shape := [None; Some 2; Some 2; Some 1]%nat |};
              {| layer_name := "conv2"; output_shape := [None; Some 2; Some 2; Some 1]%nat |};
              {| layer_name := "dense"; output_shape := [None; Some 3%nat] |} ];
  layer_output := fun name _ =>
    if String.eqb name "conv2" then {| shape := [1; 2; 2; 1]%nat; data := [1; 2; 3; 4] |}
    else if String.eqb name "conv1" then {| shape := [1; 2; 2; 1]%nat; data := [4; 3; 2; 1] |}
    else full [1; 3]%nat 0;
  model_output := fun _ => {| shape := [1; 3]%nat; data := [2 # 10; 4 # 10; 4 # 10] |};
  output_gradient := fun name _ c =>
    if String.eqb name "conv2"
    then Some (full [1; 2; 2; 1]%nat (if (c =? 1)%nat then 1 else -1))
    else if String.eqb name "conv1" then Some (full [1; 2; 2; 1]%nat 1)
    else None
|}.

(** A resize that repeats the nearest source pixel; it meets
    [resize_contract]. *)
Definition nearest_resize : resize_fn :=
  fun src w h =>
    match shape src with
    | [sh; sw] =>
        if ((0 <? sh) && (0 <? sw) && (0 <? w) && (0 <? h))%nat then
          Ok {| shape := [h; w];
                data := flat_map (fun y =>
                          map (fun x => nth ((y * sh / h) * sw + x * sw / w) (data src) 0)
                              (seq 0 w))
                        (seq 0 h) |}
        else Error (cv2_error "resize: empty source or size")
    | _ => Error (cv2_error "resize: unsupported source")
    end.

(** A colormap of grays. *)
Definition gray_table : colormap_table := fun v => (v, v, v).

(** One red pixel with values in [[0,255]], and a heatmap of zeros. *)
Definition bright_pixel : ndarray Q := {| shape := [1; 1; 3]%nat; data := [255; 0; 0] |}.
Definition cold_heatmap : ndarray Q := {| shape := [2; 2]%nat; data := [0; 0; 0; 0] |}.

(** A store that holds the two. *)
Definition pixel_store : heap := [bright_pixel; cold_heatmap].

(** * More of the sources *)

(** ** Predictions ([src/model_utils.py]) *)

Definition CLASS_NAMES : list string :=
  ["No DR"; "Mild"; "Moderate"; "Severe"; "Proliferative DR"].

(** [l[i]] on a Python list: a negative index counts from the end. *)
Definition list_item {A : Type} (l : list A) (i : Z) : result A :=
  let j := (if i <? 0 then i + Z.of_nat (length l) else i)%Z in
  if (j <? 0)%Z then Error (IndexError "list index out of range")
  else match l !! Z.to_nat j with
       | Some a => Ok a
       | None => Error (IndexError "list index out of range")
       end.

(** [np.expand_dims(a, axis=0)] *)
Definition np_expand_dims0 (a : ndarray Q) : ndarray Q :=
  {| shape := 1%nat :: shape a; data := data a |}.

(** [a[i]] on the first axis of an array. *)
Definition np_index (a : ndarray Q) (i : nat) : result (ndarray Q) :=
  match shape a with
  | [] => Error (IndexError "too many indices for array: array is 0-dimensional")
  | d :: rest =>
      if (i <? d)%nat
      then Ok {| shape := rest;
                 data := take (size_of rest) (drop (i * size_of rest) (data a)) |}
      else Error (IndexError "index is out of bounds for axis 0")
  end.

(** [np.argmax(a)]: the first index of the maximum of the elements. *)
Fixpoint np_argmax_from (best_i : nat) (best : Q) (i : nat) (l : list Q) : nat :=
  match l with
  | [] => best_i
  | x :: l' =>
      if negb (Qle_bool x best) then np_argmax_from i x (S i) l'
      else np_argmax_from best_i best (S i) l'
  end.

Definition np_argmax (a : ndarray Q) : result nat :=
  match data a with
  | [] => Error (ValueError "attempt to get argmax of an empty sequence")
  | x :: l => Ok (np_argmax_from 0 x 1 l)
  end.

(** [v[i]] for a vector [v] and an index that [np.argmax] returned.
    Arrays of another rank are left out: the classifier returns one row
    of probabilities per image. *)
Definition np_vector_item (v : ndarray Q) (i : nat) : result Q :=
  match shape v with
  | [_] =>
      match data v !! i with
      | Some x => Ok x
      | None => Error (IndexError "index is out of bounds for axis 0")
      end
  | _ => Error (ValueError "not a vector of probabilities")
  end.

(** The dictionary that [predict_single] returns, a field per key. *)
Module Prediction.
Record t : Type := make {
  predicted_class : Z;
  predicted_label : string;
  confidence : Q;
  probabilities : ndarray Q
}.
End Prediction.

(** [model.predict(x, verbose=0)]: the probabilities, one row per image.
    Keras raises [ValueError] when no row comes back, which is when the
    batch holds no image. *)
Definition model_predict (model : Model) (x : ndarray Q) : result (ndarray Q) :=
  let batch_outputs := model_output model x in
  match shape batch_outputs with
  | O :: _ => Error (ValueError "Unexpected result of `predict_function` (Empty batch_outputs).")
  | _ => Ok batch_outputs
  end.

Definition predict_single (model : Model) (image : ndarray Q) : result Prediction.t :=
  (* Add batch dimension if needed *)
  let image := if (length (shape image) =? 3)%nat then np_expand_dims0 image else image in
  (* Get predictions *)
  batch_outputs <- model_predict model image ;;
  probabilities <- np_index batch_outputs 0 ;;
  predicted_class <- np_argmax probabilities ;;
  confidence <- np_vector_item probabilities predicted_class ;;
  predicted_label <- list_item CLASS_NAMES (Z.of_nat predicted_class) ;;
  Ok {| Prediction.predicted_class := Z.of_nat predicted_class;
        Prediction.predicted_label := predicted_label;
        Prediction.confidence := confidence;
        Prediction.probabilities := probabilities |}.

(** The dictionaries of [predict_batch]: the probabilities are keyed by
    class name. *)
Module BatchPrediction.
Record t : Type := make {
  predicted_class : Z;
  predicted_label : string;
  confidence : Q;
  probabilities : gmap string Q
}.
End BatchPrediction.

(** [{CLASS_NAMES[j]: float(row[j]) for j in range(len(CLASS_NAMES))}] *)
Fixpoint class_probabilities (row : ndarray Q) (js : list nat) (acc : gmap string Q)
  : result (gmap string Q) :=
  match js with
  | [] => Ok acc
  | j :: js' =>
      name <- list_item CLASS_NAMES (Z.of_nat j) ;;
      p <- np_vector_item row j ;;
      class_probabilities row js' (<[name := p]> acc)
  end.

Definition predict_batch_item (probabilities : ndarray Q) (i : nat)
  : result BatchPrediction.t :=
  row <- np_index probabilities i ;;
  predicted_class <- np_argmax row ;;
  confidence <- np_vector_item row predicted_class ;;
  predicted_label <- list_item CLASS_NAMES (Z.of_nat predicted_class) ;;
  probs <- class_probabilities row (seq 0 (length CLASS_NAMES)) ∅ ;;
  Ok {| BatchPrediction.predicted_class := Z.of_nat predicted_class;
        BatchPrediction.predicted_label := predicted_label;
        BatchPrediction.confidence := confidence;
        BatchPrediction.probabilities := probs |}.

(** The loop of lines 80-91 over [range(len(images))]. *)
Fixpoint predict_batch_loop (probabilities : ndarray Q) (indices : list nat)
  : result (list BatchPrediction.t) :=
  match indices with
  | [] => Ok []
  | i :: indices' =>
      prediction <- predict_batch_item probabilities i ;;
      predictions <- predict_batch_loop probabilities indices' ;;
      Ok (prediction :: predictions)
  end.

(** [len(images)] of an array without axes is a [TypeError]; [exn] has no
    such constructor and the message keeps the name. *)
Definition predict_batch (model : Model) (images : ndarray Q)
  : result (list BatchPrediction.t) :=
  (* Get predictions *)
  probabilities <- model_predict model images ;;
  n <- match shape images with
       | [] => Error (ValueError "TypeError: len() of unsized object")
       | d :: _ => Ok d
       end ;;
  predict_batch_loop probabilities (seq 0 n).

Definition get_confidence_level (confidence : Q) : string :=
  if Qle_bool (9 # 10) confidence then "Very High"
  else if Qle_bool (75 # 100) confidence then "High"
  else if Qle_bool (6 # 10) confidence then "Medium"
  else "Low".

Definition interpret_explanations (confidence_pct : Z) : gmap Z string :=
  <[0%Z := "Good news! The screening tool did not find signs of eye disease. The computer is "
           +:+ pretty confidence_pct +:+ "% sure about this result."]>
  (<[1%Z := "The screening found early signs of eye disease. The computer is "
           +:+ pretty confidence_pct +:+ "% sure. This means your eyes need to be checked again soon."]>
  (<[2%Z := "The screening found signs of eye disease that need attention. The computer is "
           +:+ pretty confidence_pct +:+ "% sure. An eye doctor should examine your eyes within a few months."]>
  (<[3%Z := "The screening found serious signs of eye disease. The computer is "
           +:+ pretty confidence_pct +:+ "% sure. You need to see an eye doctor soon for treatment."]>
  (<[4%Z := "The screening found advanced eye disease. The computer is "
           +:+ pretty confidence_pct +:+ "% sure. It's very important to see an eye doctor right away for treatment."]>
   ∅)))).

Definition double_check_sentence : string :=
  " Because the computer is less sure about this result, a nurse or doctor should double-check it.".

Definition interpret_prediction_simple (prediction : Prediction.t) : result string :=
  let predicted_class := Prediction.predicted_class prediction in
  let confidence := Prediction.confidence prediction in
  (* Convert confidence to percentage *)
  let confidence_pct := Qtrunc (confidence * 100) in
  let explanations := interpret_explanations confidence_pct in
  class0 <- dict_item explanations 0 ;;
  let explanation := dict_get explanations predicted_class class0 in
  (* Add confidence warning if needed *)
  Ok (if negb (Qle_bool (7 # 10) confidence)
      then explanation +:+ double_check_sentence
      else explanation).

(** The order of the confidence levels, lowest first. *)
Definition confidence_rank (level : string) : nat :=
  if String.eqb level "Very High" then 3
  else if String.eqb level "High" then 2
  else if String.eqb level "Medium" then 1
  else 0.

(** The batch that [predict_single] hands to the classifier. *)
Definition as_batch (image : ndarray Q) : ndarray Q :=
  if (length (shape image) =? 3)%nat then np_expand_dims0 image else image.

(** What an entry of [predict_batch] says about row [i] of the
    probabilities. *)
Definition batch_item_spec (probabilities : ndarray Q) (i : nat) (p : BatchPrediction.t) : Prop :=
  exists row k,
    np_index probabilities i = Ok row /\
    first_max (data row) k (BatchPrediction.confidence p) /\
    BatchPrediction.predicted_class p = Z.of_nat k /\
    CLASS_NAMES !! k = Some (BatchPrediction.predicted_label p) /\
    forall j name, CLASS_NAMES !! j = Some name ->
                   BatchPrediction.probabilities p !! name = data row !! j.

(** A classifier with a sixth class, and one with three classes. *)
Definition six_class_model : Model := {|
  layers := [ {| layer_name := "conv"; output_shape := [None; Some 2; Some 2; Some 1]%nat |};
              {| layer_name := "dense"; output_shape := [None; Some 6%nat] |} ];
  layer_output := fun _ _ => {| shape := [1; 2; 2; 1]%nat; data := [1; 2; 3; 4] |};
  model_output := fun _ => {| shape := [1; 6]%nat;
                              data := [1 # 10; 1 # 10; 1 # 10; 1 # 10; 1 # 10; 5 # 10] |};
  output_gradient := fun _ _ _ => Some (full [1; 2; 2; 1]%nat 1)
|}.

Definition three_class_model : Model := {|
  layers := [ {| layer_name := "conv"; output_shape := [None; Some 2; Some 2; Some 1]%nat |};
              {| layer_name := "dense"; output_shape := [None; Some 3%nat] |} ];
  layer_output := fun _ _ => {| shape := [1; 2; 2; 1]%nat; data := [1; 2; 3; 4] |};
  model_output := fun _ => {| shape := [1; 3]%nat; data := [2 # 10; 5 # 10; 3 # 10] |};
  output_gradient := fun _ _ _ => Some (full [1; 2; 2; 1]%nat 1)
|}.

(** Five classes and the same probabilities for every image: one row per
    image of the batch. *)
Definition batch_model : Model := {|
  layers := [ {| layer_name := "conv"; output_shape := [None; Some 2; Some 2; Some 1]%nat |};
              {| layer_name := "dense"; output_shape := [None; Some 5%nat] |} ];
  layer_output := fun _ x => full [hd 0%nat (shape x); 2; 2; 1]%nat 1;
  model_output := fun x =>
    {| shape := [hd 0%nat (shape x); 5%nat];
       data := flat_map (fun _ => [1 # 10; 2 # 10; 2 # 10; 4 # 10; 1 # 10])
                        (seq 0 (hd 0%nat (shape x))) |};
  output_gradient := fun _ x _ => Some (full [hd 0%nat (shape x); 2; 2; 1]%nat 1)
|}.

(** ** More on the overlay *)

(** The entries of a colormap are bytes, and the values of an image lie
    between 0 and 255. *)
Definition byte_table (colormap : colormap_table) : Prop :=
  forall v, let '(b, g, r) := colormap v in
            (0 <= b <= 255)%Z /\ (0 <= g <= 255)%Z /\ (0 <= r <= 255)%Z.

Definition pixel_range (lo hi : Q) (a : ndarray Q) : Prop :=
  Forall (fun x => lo <= x /\ x <= hi) (data a).

(** ** The colours of the confidence chart ([generate_confidence_chart]) *)

(** [max(l)]: the first of the greatest elements. *)
Fixpoint py_max_from (best : Q) (l : list Q) : Q :=
  match l with
  | [] => best
  | x :: l' => if negb (Qle_bool x best) then py_max_from x l' else py_max_from best l'
  end.

Definition py_max (l : list Q) : result Q :=
  match l with
  | [] => Error (ValueError "max() arg is an empty sequence")
  | x :: l' => Ok (py_max_from x l')
  end.

(** A list comprehension whose body may raise. *)
Fixpoint comprehension {A B : Type} (f : A -> result B) (l : list A) : result (list B) :=
  match l with
  | [] => Ok []
  | a :: l' =>
      b <- f a ;;
      bs <- comprehension f l' ;;
      Ok (b :: bs)
  end.

(** Lines 205-216 of [generate_confidence_chart]: the probabilities, given
    by class name or as a sequence, in percent, and the colour of each
    bar.  What follows in the source draws them. *)
Definition chart_percentages (probabilities : gmap string Q + list Q)
    (class_names : list string) : result (list Q) :=
  probs <- match probabilities with
           | inl d => comprehension (fun name => match d !! name with
                                                 | Some p => Ok p
                                                 | None => Error (KeyError name)
                                                 end) class_names
           | inr l => Ok l
           end ;;
  (* Convert to percentages *)
  Ok (map (fun p => p * 100) probs).

Definition chart_colors (probabilities : gmap string Q + list Q)
    (class_names : list string) : result (list string) :=
  probs_pct <- chart_percentages probabilities class_names ;;
  comprehension (fun p => m <- py_max probs_pct ;;
                          Ok (if Qeq_bool p m then "green" else "lightblue")) probs_pct.

(** ** Images and patients ([src/data_utils.py]) *)

(** [s.endswith(suffix)] and [s.startswith(prefix)] *)
Definition ends_with (s suffix : string) : bool :=
  (String.length suffix <=? String.length s)%nat &&
  String.eqb (String.substring (String.length s - String.length suffix)
                               (String.length suffix) s) suffix.

Definition starts_with (s pre : string) : bool := String.prefix pre s.

(** [os.path.join(a, b)] of [posixpath] *)
Definition os_path_join (a b : string) : string :=
  if starts_with b "/" then b
  else if String.eqb a "" || ends_with a "/" then a +:+ b
  else a +:+ "/" +:+ b.

(** [s.replace(old, '')] for a non-empty [old]: the occurrences of [old]
    are dropped from left to right, without a second pass.  [skip] counts
    the characters of an occurrence still to drop. *)
Fixpoint str_remove (old : string) (skip : nat) (s : string) : string :=
  match s with
  | EmptyString => EmptyString
  | String c s' =>
      match skip with
      | S k => str_remove old k s'
      | O =>
          if String.prefix old s then str_remove old (String.length old - 1) s'
          else String c (str_remove old 0 s')
      end
  end.

(** What the file system and the image library answer: whether a path
    exists, and the bytes of the image at a path once converted to RGB
    and resized ([None] when the file is no image). *)
Record Files : Type := {
  path_exists : string -> bool;
  read_rgb : string -> nat * nat -> option (ndarray Q)
}.

Inductive load_error : Type :=
| FileNotFoundError (msg : string)
| UnidentifiedImageError (path : string).

Inductive loaded (A : Type) : Type :=
| Loaded (a : A)
| LoadError (e : load_error).

Arguments Loaded {A} a.
Arguments LoadError {A} e.

(** The name of the file of an image (lines 60-63). *)
Definition image_file (image_id image_dir : string) (add_png : bool) : string :=
  let image_id := if add_png && negb (ends_with image_id ".png")
                  then image_id +:+ ".png" else image_id in
  os_path_join image_dir image_id.

Definition load_image (files : Files) (image_id image_dir : string)
    (target_size : nat * nat) (add_png : bool) : loaded (ndarray Q) :=
  let image_path := image_file image_id image_dir add_png in
  if negb (path_exists files image_path)
  then LoadError (FileNotFoundError ("Image not found: " +:+ image_path))
  else
    (* Load image, resize *)
    match read_rgb files image_path target_size with
    | None => LoadError (UnidentifiedImageError image_path)
    | Some image =>
        (* Convert to numpy array and normalize *)
        Loaded (np_div image 255)
    end.

(** [np.array(images)] for a list of arrays: the arrays are stacked along
    a new first axis; no array gives an empty vector. *)
Definition np_stack (images : list (ndarray Q)) : result (ndarray Q) :=
  match images with
  | [] => Ok {| shape := [0%nat]; data := [] |}
  | first :: _ =>
      if forallb (fun a => bool_decide (shape a = shape first)) images
      then Ok {| shape := length images :: shape first;
                 data := flat_map data images |}
      else Error (ValueError "setting an array element with a sequence: inhomogeneous shape")
  end.

(** The loop of lines 97-103: a missing file is reported and skipped, any
    other failure ends the call. *)
Fixpoint load_batch_loop (files : Files) (image_ids : list string) (image_dir : string)
    (target_size : nat * nat) : loaded (list (ndarray Q)) :=
  match image_ids with
  | [] => Loaded []
  | image_id :: rest =>
      match load_image files image_id image_dir target_size true with
      | Loaded img =>
          match load_batch_loop files rest image_dir target_size with
          | Loaded images => Loaded (img :: images)
          | LoadError e => LoadError e
          end
      | LoadError (FileNotFoundError _) => load_batch_loop files rest image_dir target_size
      | LoadError e => LoadError e
      end
  end.

Definition load_batch_images (files : Files) (image_ids : list string) (image_dir : string)
    (target_size : nat * nat) : loaded (result (ndarray Q)) :=
  match load_batch_loop files image_ids image_dir target_size with
  | Loaded images => Loaded (np_stack images)
  | LoadError e => LoadError e
  end.

Definition DIAGNOSIS_LABELS : gmap Z string :=
  <[0%Z := "No DR"]> (<[1%Z := "Mild"]> (<[2%Z := "Moderate"]>
  (<[3%Z := "Severe"]> (<[4%Z := "Proliferative DR"]> ∅)))).

Definition DIAGNOSIS_DESCRIPTIONS : gmap Z string :=
  <[0%Z := "No signs of eye disease"]> (<[1%Z := "Mild eye disease detected"]>
  (<[2%Z := "Moderate eye disease detected"]> (<[3%Z := "Severe eye disease detected"]>
  (<[4%Z := "Advanced eye disease detected"]> ∅)))).

(** A row of the patient table. *)
Module Row.
Record t : Type := make {
  id_code : string;
  age : Z;
  gender : string;
  diagnosis : Z
}.
End Row.

(** The dictionary that [get_patient_info] returns. *)
Module PatientInfo.
Record t : Type := make {
  id : string;
  age : Z;
  gender : string;
  diagnosis : Z;
  diagnosis_label : string;
  diagnosis_description : string
}.
End PatientInfo.

Definition get_patient_info (patient_id : string) (df : list Row.t)
  : result (option PatientInfo.t) :=
  (* Remove .png if present *)
  let patient_id := str_remove ".png" 0 patient_id in
  let patient_row := List.filter (fun r => String.eqb (Row.id_code r) patient_id) df in
  match patient_row with
  | [] => Ok None
  | patient_row :: _ =>
      label <- dict_item DIAGNOSIS_LABELS (Row.diagnosis patient_row) ;;
      description <- dict_item DIAGNOSIS_DESCRIPTIONS (Row.diagnosis patient_row) ;;
      Ok (Some {| PatientInfo.id := Row.id_code patient_row;
                  PatientInfo.age := Row.age patient_row;
                  PatientInfo.gender := Row.gender patient_row;
                  PatientInfo.diagnosis := Row.diagnosis patient_row;
                  PatientInfo.diagnosis_label := label;
                  PatientInfo.diagnosis_description := description |})
  end.

(** The image that [load_image] returns for an id whose file is there and
    readable. *)
Definition loaded_image (files : Files) (image_dir : string) (target_size : nat * nat)
    (image_id : string) : ndarray Q :=
  match read_rgb files (image_file image_id image_dir true) target_size with
  | Some image => np_div image 255
  | None => full [] 0
  end.

Definition found_ids (files : Files) (image_dir : string) (image_ids : list string)
  : list string :=
  List.filter (fun image_id => path_exists files (image_file image_id image_dir true)) image_ids.

(** ** More concrete inputs *)

(** A colormap of bytes: blue rises and green falls with the value. *)
Definition byte_ramp : colormap_table :=
  fun v => let b := Z.max 0 (Z.min 255 v) in (b, (255 - b)%Z, 0%Z).

(** A single-channel image of 2 by 2 pixels, and a vector. *)
Definition gray_image : ndarray Q := {| shape := [2; 2]%nat; data := [0; 1 # 2; 1; 1 # 4] |}.
Definition flat_image : ndarray Q := {| shape := [3%nat]; data := [0; 1 # 2; 1] |}.

(** A directory that holds [a.png] and [c.png], every file a white image;
    and the same directory with a [c.png] that is no image. *)
Definition two_files : Files := {|
  path_exists := fun path => String.eqb path "img/a.png" || String.eqb path "img/c.png";
  read_rgb := fun _ size => Some (full [snd size; fst size; 3%nat] 255)
|}.

Definition broken_file : Files := {|
  path_exists := fun path => String.eqb path "img/a.png" || String.eqb path "img/c.png";
  read_rgb := fun path size => if String.eqb path "img/c.png" then None
                               else Some (full [snd size; fst size; 3%nat] 255)
|}.

(** ** The explanation as HTML ([src/html_generator.py]) *)

(** The methods of [str] whose answer depends on the character tables of
    Unicode. *)
Record StrMethods : Type := {
  str_strip : string -> string;
  str_isupper : string -> bool;
  str_lower : string -> string
}.

(** Strings are the bytes of their UTF-8 encoding.  A character is a
    byte that continues none, with the bytes that continue it. *)
Definition is_continuation (c : Ascii.ascii) : bool :=
  match c with
  | Ascii.Ascii _ _ _ _ _ _ b6 b7 => b7 && negb b6
  end.

(** [len(s)] *)
Fixpoint str_len (s : string) : nat :=
  match s with
  | EmptyString => 0
  | String c s' => if is_continuation c then str_len s' else S (str_len s')
  end.

Fixpoint drop_continuation (s : string) : string :=
  match s with
  | EmptyString => EmptyString
  | String c s' => if is_continuation c then drop_continuation s' else s
  end.

Fixpoint take_continuation (s : string) : string :=
  match s with
  | EmptyString => EmptyString
  | String c s' => if is_continuation c then String c (take_continuation s') else EmptyString
  end.

(** [s[0]] and [s[1:]] of a string that is not empty. *)
Definition str_first (s : string) : string :=
  match s with
  | EmptyString => EmptyString
  | String c s' => String c (take_continuation s')
  end.

Definition str_rest (s : string) : string :=
  match s with
  | EmptyString => EmptyString
  | String _ s' => drop_continuation s'
  end.

(** [needle in s] *)
Fixpoint str_contains (needle s : string) : bool :=
  String.prefix needle s ||
  match s with
  | EmptyString => false
  | String _ s' => str_contains needle s'
  end.

(** [s.split('\n')] *)
Fixpoint split_lines (s : string) : list string :=
  match s with
  | EmptyString => [EmptyString]
  | String c s' =>
      if Ascii.eqb c (Ascii.ascii_of_nat 10) then EmptyString :: split_lines s'
      else match split_lines s' with
           | line :: lines => String c line :: lines
           | [] => [String c EmptyString]
           end
  end.

(** What [html += ...] appends, a constructor per statement; [html] is
    kept as the list of the pieces appended so far and is their
    concatenation. *)
Inductive piece : Type :=
| ListClose
| ListOpen
| SectionOpen (line : string)
| ListItem (icon content : string)
| Paragraph (class line : string)
| SectionClose.

Definition quote : string := String (Ascii.ascii_of_nat 34) EmptyString.

Definition render (p : piece) : string :=
  match p with
  | ListClose => "</ul>" +:+ newline
  | ListOpen => "<ul class=" +:+ quote +:+ "explanation-list" +:+ quote +:+ ">" +:+ newline
  | SectionOpen line =>
      "<div class=" +:+ quote +:+ "explanation-section" +:+ quote +:+ "><h3 class="
        +:+ quote +:+ "section-header" +:+ quote +:+ ">" +:+ line +:+ "</h3>" +:+ newline
  | ListItem icon content =>
      "<li><span class=" +:+ quote +:+ "list-icon" +:+ quote +:+ ">" +:+ icon
        +:+ "</span> " +:+ content +:+ "</li>" +:+ newline
  | Paragraph class line =>
      "<p class=" +:+ quote +:+ class +:+ quote +:+ ">" +:+ line +:+ "</p>" +:+ newline
  | SectionClose => "</div>" +:+ newline
  end.

Record format_state : Type := {
  html : list piece;
  current_section : option string;
  in_list : bool
}.

Definition emit (st : format_state) (p : piece) : format_state :=
  {| html := html st ++ [p]; current_section := current_section st; in_list := in_list st |}.

Definition set_in_list (st : format_state) (b : bool) : format_state :=
  {| html := html st; current_section := current_section st; in_list := b |}.

Definition set_section (st : format_state) (line : string) : format_state :=
  {| html := html st; current_section := Some line; in_list := in_list st |}.

(** [if in_list: html += "</ul>\n"; in_list = False] *)
Definition close_list (st : format_state) : format_state :=
  if in_list st then set_in_list (emit st ListClose) false else st.

Definition is_section_header (u : StrMethods) (line : string) : bool :=
  str_isupper u line && (3 <? str_len line)%nat && negb (String.prefix "•" line).

Definition is_bullet (line : string) : bool :=
  String.prefix "•" line || String.prefix "✓" line || String.prefix "⚠" line.

Definition is_separator (line : string) : bool :=
  String.prefix "=" line || String.prefix "-" line.

Definition paragraph_class (u : StrMethods) (line : string) : string :=
  if str_contains "✓" line || str_contains "Good News" line then "positive-result"
  else if str_contains "⚠" line || str_contains "Warning" line || str_contains "Detected" line
  then "warning-result"
  else if str_contains "confident" (str_lower u line) then "confidence-text"
  else "explanation-paragraph".

(** The body of the loop over the lines. *)
Definition format_line (u : StrMethods) (st : format_state) (line : string) : format_state :=
  let line := str_strip u line in
  if String.eqb line "" then st
  (* Main title *)
  else if String.eqb line "EYE SCREENING REPORT" then st
  (* Section headers *)
  else if is_section_header u line then
    let st := close_list st in
    if is_separator line then st
    else set_section (emit st (SectionOpen line)) line
  (* Bullet points *)
  else if is_bullet line then
    let st := if negb (in_list st) then set_in_list (emit st ListOpen) true else st in
    let icon := str_first line in
    let content := str_strip u (str_rest line) in
    emit st (ListItem icon content)
  (* Regular paragraphs *)
  else if negb (String.eqb line "") && negb (String.prefix "=" line)
          && negb (String.prefix "-" line) then
    let st := close_list st in
    emit st (Paragraph (paragraph_class u line) line)
  else st.

(** [if current_section:] *)
Definition truthy (s : option string) : bool :=
  match s with
  | Some line => negb (String.eqb line "")
  | None => false
  end.

Definition format_pieces (u : StrMethods) (explanation_text : string) : list piece :=
  let lines := split_lines explanation_text in
  let st := fold_left (format_line u) lines
              {| html := []; current_section := None; in_list := false |} in
  let st := close_list st in
  let st := if truthy (current_section st) then emit st SectionClose else st in
  html st.

Definition format_explanation_text_to_html (u : StrMethods) (explanation_text : string)
  : string :=
  String.concat "" (map render (format_pieces u explanation_text)).

(** The lines that open a section. *)
Definition opens_section (u : StrMethods) (raw : string) : bool :=
  let line := str_strip u raw in
  negb (String.eqb line "") && negb (String.eqb line "EYE SCREENING REPORT")
  && is_section_header u line && negb (is_separator line).

(** Reading the pieces from left to right, inside a list or not: a list
    is opened outside and closed inside, items occur inside and the rest
    outside.  The answer is where the reading ends, if it gets there. *)
Fixpoint scan_lists (inside : bool) (ps : list piece) : option bool :=
  match ps with
  | [] => Some inside
  | p :: ps' =>
      match p, inside with
      | ListOpen, false => scan_lists true ps'
      | ListClose, true => scan_lists false ps'
      | ListItem _ _, true => scan_lists true ps'
      | SectionOpen _, false | Paragraph _ _, false | SectionClose, false =>
          scan_lists false ps'
      | _, _ => None
      end
  end.

Definition is_section_open (p : piece) : bool :=
  match p with SectionOpen _ => true | _ => false end.

Definition is_section_close (p : piece) : bool :=
  match p with SectionClose => true | _ => false end.

Definition count_open (ps : list piece) : nat := length (List.filter is_section_open ps).
Definition count_close (ps : list piece) : nat := length (List.filter is_section_close ps).

(** Sections opened so far: as many as lines that open one; none closed;
    [current_section] is set once one is open. *)
Definition sections_agree (n : nat) (st : format_state) : Prop :=
  count_open (html st) = n /\ count_close (html st) = 0%nat /\
  truthy (current_section st) = negb (n =? 0)%nat.

(** The pieces so far read well and end inside a list exactly when
    [in_list] says so. *)
Definition lists_agree (st : format_state) : Prop :=
  scan_lists false (html st) = Some (in_list st).

(** ASCII text: strip drops blanks at both ends, a string is upper case
    when it has a capital and no small letter. *)
Definition ascii_blank (c : Ascii.ascii) : bool :=
  let n := Ascii.nat_of_ascii c in (n =? 32)%nat || ((9 <=? n) && (n <=? 13))%nat.

Fixpoint lstrip (s : string) : string :=
  match s with
  | EmptyString => EmptyString
  | String c s' => if ascii_blank c then lstrip s' else s
  end.

Fixpoint rstrip (s : string) : string :=
  match s with
  | EmptyString => EmptyString
  | String c s' =>
      match rstrip s' with
      | EmptyString => if ascii_blank c then EmptyString else String c EmptyString
      | t => String c t
      end
  end.

Fixpoint has_char (f : nat -> bool) (s : string) : bool :=
  match s with
  | EmptyString => false
  | String c s' => f (Ascii.nat_of_ascii c) || has_char f s'
  end.

Fixpoint map_chars (f : nat -> nat) (s : string) : string :=
  match s with
  | EmptyString => EmptyString
  | String c s' => String (Ascii.ascii_of_nat (f (Ascii.nat_of_ascii c))) (map_chars f s')
  end.

Definition ascii_methods : StrMethods := {|
  str_strip := fun s => rstrip (lstrip s);
  str_isupper := fun s => has_char (fun n => (65 <=? n) && (n <=? 90))%nat s
                          && negb (has_char (fun n => (97 <=? n) && (n <=? 122))%nat s);
  str_lower := map_chars (fun n => if ((65 <=? n) && (n <=? 90))%nat then (n + 32)%nat else n)
|}.

(** A text of blank lines and the title. *)
Definition blank_text : string :=
  "   " +:+ newline +:+ newline +:+ "  EYE SCREENING REPORT  " +:+ newline.

(** * Properties *)

(** ** Normalization of the heatmap *)

Lemma Qsign_pos (q : Q) : 0 < q -> Qsign q = Gt.
Proof.
  unfold Qlt, Qsign. simpl. intros H. apply Z.compare_gt_iff. lia.
Qed.

Lemma Qsign_zero (q : Q) : q == 0 -> Qsign q = Eq.
Proof.
  unfold Qeq, Qsign. simpl. intros H. apply Z.compare_eq_iff. lia.
Qed.

Lemma reduce_max_shape (l : list fp) :
  match fold_right fmax NInf l with
  | Fin m => Forall (fun x => x = NInf \/ exists q, x = Fin q /\ q <= m) l /\ In (Fin m) l
  | NInf => Forall (fun x => x = NInf) l
  | _ => True
  end.
Proof.
  induction l as [|x l IH]; simpl.
  - constructor.
  - destruct (fold_right fmax NInf l) as [b| | |] eqn:E, x as [a| | |]; simpl; auto.
    + destruct IH as [IHall IHin].
      destruct (Qle_bool a b) eqn:Hab.
      * apply Qle_bool_iff in Hab. split; [constructor; eauto | auto].
      * assert (b < a) by (apply Qnot_le_lt; intros Hle; apply Qle_bool_iff in Hle; congruence).
        split; [constructor|auto].
        -- right. exists a. split; [reflexivity | apply Qle_refl].
        -- eapply Forall_impl; [exact IHall|]. intros y [->|[q [-> Hq]]]; [auto|].
           right. exists q. split; [reflexivity | lra].
    + destruct IH as [IHall IHin]. split; [constructor; auto | auto].
    + split; [constructor|auto].
      * right. exists a. split; [reflexivity|apply Qle_refl].
      * eapply Forall_impl; [exact IH|]. intros y ->. auto.
Qed.

Lemma normalize_elem_bound (x : fp) (m : Q) :
  0 < m -> (x = NInf \/ exists q, x = Fin q /\ q <= m) ->
  in_unit (fdiv (fmax x (Fin 0)) (Fin m)).
Proof.
  intros Hm [->|[q [-> Hq]]]; simpl.
  - rewrite (Qsign_pos m Hm); simpl. split.
    + apply Qle_shift_div_l; [exact Hm | lra].
    + apply Qle_shift_div_r; [exact Hm | lra].
  - destruct (Qle_bool q 0) eqn:Hq0; simpl; rewrite (Qsign_pos m Hm); simpl.
    + split; [apply Qle_shift_div_l | apply Qle_shift_div_r]; try exact Hm; lra.
    + assert (0 < q) by (apply Qnot_le_lt; intros Hle; apply Qle_bool_iff in Hle; congruence).
      split; [apply Qle_shift_div_l | apply Qle_shift_div_r]; try exact Hm; lra.
Qed.

Lemma normalize_elem_max (m : Q) :
  0 < m -> fp_is 1 (fdiv (fmax (Fin m) (Fin 0)) (Fin m)).
Proof.
  intros Hm. simpl.
  destruct (Qle_bool m 0) eqn:Hm0.
  - apply Qle_bool_iff in Hm0. lra.
  - simpl. rewrite (Qsign_pos m Hm). simpl. field. lra.
Qed.

Lemma normalize_heatmap_bound (heatmap : tensor) (m : Q) :
  tf_reduce_max heatmap = Fin m -> 0 < m ->
  shape (normalize_heatmap heatmap) = shape heatmap /\
  Forall in_unit (data (normalize_heatmap heatmap)) /\
  Exists (fp_is 1) (data (normalize_heatmap heatmap)).
Proof.
  intros Hmax Hm. unfold normalize_heatmap. rewrite Hmax.
  unfold tf_reduce_max in Hmax.
  pose proof (reduce_max_shape (data heatmap)) as Hs. rewrite Hmax in Hs.
  destruct Hs as [Hall Hin]. simpl. split; [reflexivity|]. split.
  - rewrite map_map. apply List.Forall_map.
    eapply Forall_impl; [exact Hall|]. intros x Hx. apply normalize_elem_bound; assumption.
  - rewrite map_map. apply List.Exists_exists. exists (fdiv (fmax (Fin m) (Fin 0)) (Fin m)). split.
    + apply (in_map (fun x => fdiv (fmax x (Fin 0)) (Fin m))) in Hin. exact Hin.
    + apply normalize_elem_max. exact Hm.
Qed.

(** A maximum of zero: the heatmap is not empty and line 58 makes every
    element of it NaN. *)
Lemma normalize_heatmap_zero_max (heatmap : tensor) (m : Q) :
  tf_reduce_max heatmap = Fin m -> m == 0 ->
  Forall (fun x => x = NaN) (data (normalize_heatmap heatmap)) /\
  data heatmap <> [].
Proof.
  intros Hmax Hm. unfold normalize_heatmap. rewrite Hmax.
  unfold tf_reduce_max in Hmax.
  pose proof (reduce_max_shape (data heatmap)) as Hs. rewrite Hmax in Hs.
  destruct Hs as [Hall Hin]. simpl. split.
  - rewrite map_map. apply List.Forall_map.
    eapply Forall_impl; [exact Hall|]. intros x [->|[q [-> Hq]]]; simpl.
    + rewrite (Qsign_zero m Hm). reflexivity.
    + destruct (Qle_bool q 0) eqn:Hq0; simpl; rewrite (Qsign_zero m Hm).
      * reflexivity.
      * exfalso. assert (0 < q) by (apply Qnot_le_lt; intros Hle; apply Qle_bool_iff in Hle; congruence). lra.
  - intros E. rewrite E in Hin. destruct Hin.
Qed.

(** A strictly negative maximum: every element is clipped to zero and
    stays zero. *)
Lemma normalize_heatmap_negative_max (heatmap : tensor) (m : Q) :
  tf_reduce_max heatmap = Fin m -> m < 0 ->
  Forall (fp_is 0) (data (normalize_heatmap heatmap)).
Proof.
  intros Hmax Hm. unfold normalize_heatmap. rewrite Hmax.
  unfold tf_reduce_max in Hmax.
  pose proof (reduce_max_shape (data heatmap)) as Hs. rewrite Hmax in Hs.
  destruct Hs as [Hall _]. simpl.
  rewrite map_map. apply List.Forall_map.
  assert (Hsign : Qsign m = Lt).
  { unfold Qsign. unfold Qlt in Hm. simpl in Hm. apply Z.compare_lt_iff. lia. }
  eapply Forall_impl; [exact Hall|]. intros x [->|[q [-> Hq]]]; simpl.
  - rewrite Hsign. simpl. field. lra.
  - assert (Hq0 : Qle_bool q 0 = true) by (apply Qle_bool_iff; lra).
    rewrite Hq0. simpl. rewrite Hsign. simpl. field. lra.
Qed.

(** C2.  When the weighted feature sum has a strictly positive maximum,
    [get_gradcam_heatmap] returns a heatmap of the same shape, every
    element of which lies in [[0,1]] and one of which is exactly 1. *)
Theorem gradcam_normalization_bound
    (model : Model) (image : ndarray Q) (pred_class : option Z)
    (last_conv_layer_name : option string) (conv_outputs grads raw : tensor) (m : Q) :
  grad_model_outputs model image pred_class last_conv_layer_name = Ok (conv_outputs, grads) ->
  weighted_feature_sum conv_outputs grads = Ok raw ->
  tf_reduce_max raw = Fin m -> 0 < m ->
  exists heatmap,
    get_gradcam_heatmap model image pred_class last_conv_layer_name = Ok heatmap /\
    shape heatmap = shape raw /\
    Forall in_unit (data heatmap) /\
    Exists (fp_is 1) (data heatmap).
Proof.
  intros Hout Hsum Hmax Hm.
  exists (normalize_heatmap raw). split.
  - unfold get_gradcam_heatmap. rewrite Hout. simpl. rewrite Hsum. reflexivity.
  - apply (normalize_heatmap_bound raw m Hmax Hm).
Qed.

Lemma gradcam_normalization_bound_witness :
  exists heatmap,
    get_gradcam_heatmap tiny_model small_image None None = Ok heatmap /\
    shape heatmap = [2; 2]%nat /\
    Forall in_unit (data heatmap) /\
    Exists (fp_is 1) (data heatmap).
Proof.
  apply (gradcam_normalization_bound tiny_model small_image None None
           (as_tensor {| shape := [1; 2; 2; 1]%nat; data := [1; 2; 3; 4] |})
           (as_tensor (full [1; 2; 2; 1]%nat 1))
           {| shape := [2; 2]%nat;
              data := [Fin (4 # 4); Fin (8 # 4); Fin (12 # 4); Fin (16 # 4)] |}
           (16 # 4)); reflexivity.
Defined.

(** ** The degenerate heatmap and the scenario of the specification *)

Lemma forallb_fp_is (q : Q) (l : list fp) :
  forallb (fp_isb q) l = true <-> Forall (fp_is q) l.
Proof.
  rewrite forallb_forall, List.Forall_forall.
  split; intros H x Hx; specialize (H x Hx); destruct x; simpl in *;
    try discriminate; try contradiction; apply Qeq_bool_iff; exact H.
Qed.

Lemma forallb_fp_nonpos (l : list fp) :
  forallb fp_nonposb l = true -> Forall fp_nonpos l.
Proof.
  rewrite forallb_forall, List.Forall_forall.
  intros H x Hx. specialize (H x Hx). destruct x; simpl in *; try discriminate.
  apply Qle_bool_iff. exact H.
Qed.

Lemma uniformb_spec (s : list nat) (q : Q) (t : tensor) :
  uniformb s q t = true ->
  shape t = s /\ length (data t) = size_of s /\ Forall (fp_is q) (data t).
Proof.
  unfold uniformb. intros H.
  apply andb_prop in H as [H H3]. apply andb_prop in H as [H1 H2].
  apply bool_decide_eq_true in H1. apply Nat.eqb_eq in H2.
  apply forallb_fp_is in H3. auto.
Qed.

Lemma result_check {A : Type} (r : result A) (chk : A -> bool) :
  match r with Ok a => chk a | Error _ => false end = true ->
  exists a, r = Ok a /\ chk a = true.
Proof.
  destruct r as [a|e]; [eauto | discriminate].
Qed.

(** C1.  A feature map of ones whose class score does not react to it:
    the gradient is zero, the channel importance vector has no positive
    entry, the clipped weighted sum is zero everywhere, and the heatmap
    that [get_gradcam_heatmap] returns is NaN at every pixel: line 58
    divides zero by a maximum of zero. *)
Theorem degenerate_heatmap_is_nan :
  (exists civ, pooled_gradients (as_tensor (full [1; 2; 2; 2]%nat 0)) = Ok civ /\
               Forall fp_nonpos (data civ)) /\
  (exists raw, weighted_feature_sum (as_tensor (full [1; 2; 2; 2]%nat 1))
                                    (as_tensor (full [1; 2; 2; 2]%nat 0)) = Ok raw /\
               Forall (fp_is 0) (data (tf_maximum raw (Fin 0)))) /\
  get_gradcam_heatmap saturated_model small_image None None
    = Ok {| shape := [2; 2]%nat; data := [NaN; NaN; NaN; NaN] |}.
Proof.
  split; [|split].
  - destruct (result_check (pooled_gradients (as_tensor (full [1; 2; 2; 2]%nat 0)))
                (fun civ => forallb fp_nonposb (data civ))) as [civ H]; [vm_compute; reflexivity|].
    exists civ. destruct H as [H1 H2]. split; [exact H1 | apply forallb_fp_nonpos; exact H2].
  - destruct (result_check (weighted_feature_sum (as_tensor (full [1; 2; 2; 2]%nat 1))
                                                 (as_tensor (full [1; 2; 2; 2]%nat 0)))
                (fun raw => forallb (fp_isb 0) (data (tf_maximum raw (Fin 0))))) as [raw H];
      [vm_compute; reflexivity|].
    exists raw. destruct H as [H1 H2]. split; [exact H1 | apply forallb_fp_is; exact H2].
  - vm_compute. reflexivity.
Qed.

(** C4, as the code has it.  A gradient of 0.5 everywhere pools to a
    channel importance vector of 0.5 everywhere.  For an all-ones feature
    map of shape (7,7,32) and that vector, the per-pixel dot product is
    32 * 0.5 = 16 at every pixel, and after clipping and division by the
    maximum the heatmap is 7 by 7 and exactly 1 everywhere.  The same
    holds for the whole call on a classifier with five classes and such a
    layer. *)
Theorem scenario_uniform_heatmap :
  (exists civ,
     pooled_gradients (as_tensor (full [1; 7; 7; 32]%nat (1 # 2))) = Ok civ /\
     shape civ = [32%nat] /\ length (data civ) = 32%nat /\ Forall (fp_is (1 # 2)) (data civ)) /\
  (exists raw,
     channel_weighted_sum (full [1; 7; 7; 32]%nat (Fin 1)) (full [32%nat] (Fin (1 # 2))) = Ok raw /\
     (shape raw = [7; 7]%nat /\ length (data raw) = 49%nat /\ Forall (fp_is 16) (data raw)) /\
     (shape (normalize_heatmap raw) = [7; 7]%nat /\
      length (data (normalize_heatmap raw)) = 49%nat /\
      Forall (fp_is 1) (data (normalize_heatmap raw)))) /\
  (exists heatmap,
     get_gradcam_heatmap scenario_model small_image None None = Ok heatmap /\
     shape heatmap = [7; 7]%nat /\ length (data heatmap) = 49%nat /\
     Forall (fp_is 1) (data heatmap)).
Proof.
  split; [|split].
  - destruct (result_check (pooled_gradients (as_tensor (full [1; 7; 7; 32]%nat (1 # 2))))
                (uniformb [32%nat] (1 # 2))) as [civ [Hc Hchk]]; [vm_compute; reflexivity|].
    exists civ. split; [exact Hc|]. apply uniformb_spec. exact Hchk.
  - destruct (result_check
                (channel_weighted_sum (full [1; 7; 7; 32]%nat (Fin 1)) (full [32%nat] (Fin (1 # 2))))
                (fun raw => uniformb [7; 7]%nat 16 raw && uniformb [7; 7]%nat 1 (normalize_heatmap raw)))
      as [raw [Hraw Hchk]]; [vm_compute; reflexivity|].
    apply andb_prop in Hchk as [H16 H1].
    exists raw. split; [exact Hraw|]. split; apply uniformb_spec; assumption.
  - destruct (result_check (get_gradcam_heatmap scenario_model small_image None None)
                (uniformb [7; 7]%nat 1)) as [heatmap [Hh Hchk]]; [vm_compute; reflexivity|].
    exists heatmap. split; [exact Hh|]. apply uniformb_spec. exact Hchk.
Qed.

(** C4, as the specification has it, fails: the raw heatmap of the
    scenario is not 112 at every pixel. *)
Lemma scenario_raw_heatmap_not_112 :
  ~ (exists raw,
       channel_weighted_sum (full [1; 7; 7; 32]%nat (Fin 1)) (full [32%nat] (Fin (1 # 2))) = Ok raw /\
       Forall (fp_is 112) (data raw)).
Proof.
  intros [raw [Hraw H112]].
  apply forallb_fp_is in H112.
  assert (Hc : match channel_weighted_sum (full [1; 7; 7; 32]%nat (Fin 1)) (full [32%nat] (Fin (1 # 2)))
               with Ok t => forallb (fp_isb 112) (data t) | Error _ => false end = false)
    by (vm_compute; reflexivity).
  rewrite Hraw in Hc. congruence.
Qed.

(** ** The target class *)

Lemma Qle_bool_false (a b : Q) : Qle_bool a b = false -> b < a.
Proof.
  intros H. apply Qnot_le_lt. intros Hle. apply Qle_bool_iff in Hle. congruence.
Qed.

Lemma argmax_from_first_max (rest pre : list Q) (best_i : nat) (best : Q) :
  first_max pre best_i best ->
  exists q, first_max (pre ++ rest)
              (argmax_from best_i (Fin best) (length pre) (map Fin rest)) q.
Proof.
  revert pre best_i best.
  induction rest as [|x rest IH]; intros pre best_i best [Hat Hmax]; simpl.
  - exists best. rewrite app_nil_r. split; assumption.
  - replace (pre ++ x :: rest) with ((pre ++ [x]) ++ rest) by (rewrite <- app_assoc; reflexivity).
    replace (S (length pre)) with (length (pre ++ [x])) by (rewrite length_app; simpl; lia).
    destruct (Qle_bool x best) eqn:Hx; simpl.
    + apply Qle_bool_iff in Hx. apply IH. split.
      * apply lookup_app_l_Some. exact Hat.
      * intros j pj Hj.
        destruct (decide (j < length pre)%nat) as [Hlt|Hge].
        -- rewrite lookup_app_l in Hj by exact Hlt. apply Hmax. exact Hj.
        -- rewrite lookup_app_r in Hj by lia.
           destruct (j - length pre)%nat eqn:Ej; simpl in Hj; [|discriminate].
           injection Hj as <-. split; [exact Hx|].
           intros Hji. apply lookup_lt_Some in Hat. lia.
    + apply Qle_bool_false in Hx. apply IH. split.
      * rewrite lookup_app_r by lia. rewrite Nat.sub_diag. reflexivity.
      * intros j pj Hj.
        destruct (decide (j < length pre)%nat) as [Hlt|Hge].
        -- rewrite lookup_app_l in Hj by exact Hlt.
           destruct (Hmax j pj Hj) as [Hle _]. split; intros; lra.
        -- rewrite lookup_app_r in Hj by lia.
           destruct (j - length pre)%nat eqn:Ej; simpl in Hj; [|discriminate].
           injection Hj as <-. split; [apply Qle_refl|]. intros. lia.
Qed.

Lemma tf_argmax_first_max (s : list nat) (x : Q) (l : list Q) :
  exists i q, tf_argmax {| shape := s; data := map Fin (x :: l) |} = Ok i /\
              first_max (x :: l) i q.
Proof.
  destruct (argmax_from_first_max l [x] 0 x) as [q Hq].
  - split; [reflexivity|]. intros [|j] pj Hj; simpl in Hj; [|discriminate].
    injection Hj as <-. split; [apply Qle_refl | lia].
  - eexists; exists q. split; [reflexivity|]. exact Hq.
Qed.

Lemma tf_index0_first_row (a : ndarray Q) (b : nat) (rest : list nat) :
  shape a = S b :: rest ->
  tf_index0 (as_tensor a) = Ok {| shape := rest; data := map Fin (first_row a) |}.
Proof.
  intros Hshape. unfold tf_index0, first_row, as_tensor. simpl.
  rewrite Hshape. simpl. rewrite firstn_map. reflexivity.
Qed.

(** The column of a class index that is within the row. *)
Lemma tf_column_nat (a : ndarray Q) (d n i : nat) :
  shape a = [d; n] -> (i < n)%nat -> tf_column (as_tensor a) (Z.of_nat i) = Ok i.
Proof.
  intros Hs Hi. unfold tf_column, as_tensor. cbn [shape]. rewrite Hs.
  destruct (Z.of_nat i <? 0)%Z eqn:Hneg; [apply Z.ltb_lt in Hneg; lia|].
  assert (Hin : ((0 <=? Z.of_nat i) && (Z.of_nat i <? Z.of_nat n))%Z = true).
  { apply andb_true_intro. split; [apply Z.leb_le | apply Z.ltb_lt]; lia. }
  rewrite Hin, Nat2Z.id. reflexivity.
Qed.

(** Once the target class and its column are known, the call is the
    lookup of the layer followed by the heatmap of that layer and
    column. *)
Lemma gradcam_heatmap_of_class (model : Model) (image : ndarray Q) (pred_class : option Z)
    (name : option string) (c : Z) (k : nat) :
  target_class (as_tensor (model_output model image)) pred_class = Ok c ->
  tf_column (as_tensor (model_output model image)) c = Ok k ->
  get_gradcam_heatmap model image pred_class name
  = (layer <- get_layer model (find_last_conv_layer model name) ;;
     class_heatmap model image (layer_name layer) k).
Proof.
  intros Htc Hcol. unfold get_gradcam_heatmap, grad_model_outputs.
  destruct (get_layer model (find_last_conv_layer model name)) as [layer|e]; cbn [bind];
    [|reflexivity].
  rewrite Htc. cbn [bind]. rewrite Hcol. cbn [bind]. unfold class_heatmap.
  destruct (output_gradient model (layer_name layer) image k) as [grads|]; reflexivity.
Qed.

(** C5.  Without a target class, the class [get_gradcam_heatmap] works
    with is the index of the maximum of the probabilities of the image;
    among equal maxima it is the first one.  The heatmap that comes back
    is the one of the gradient of that class with respect to the layer
    looked up, and the call is the call with that class given. *)
Theorem argmax_fallback (model : Model) (image : ndarray Q) (b n : nat) :
  shape (model_output model image) = [S b; S n] ->
  well_shaped (model_output model image) ->
  exists i q,
    target_class (as_tensor (model_output model image)) None = Ok (Z.of_nat i) /\
    first_max (first_row (model_output model image)) i q /\
    forall last_conv_layer_name,
      get_gradcam_heatmap model image None last_conv_layer_name
      = (layer <- get_layer model (find_last_conv_layer model last_conv_layer_name) ;;
         class_heatmap model image (layer_name layer) i) /\
      get_gradcam_heatmap model image None last_conv_layer_name =
      get_gradcam_heatmap model image (Some (Z.of_nat i)) last_conv_layer_name.
Proof.
  intros Hshape Hwf.
  unfold well_shaped in Hwf. rewrite Hshape in Hwf. simpl in Hwf.
  assert (Hrow : exists x l, first_row (model_output model image) = x :: l).
  { unfold first_row. rewrite Hshape. simpl.
    destruct (data (model_output model image)) as [|x l]; [simpl in Hwf; lia|].
    simpl. eauto. }
  destruct Hrow as [x [l Hrow]].
  destruct (tf_argmax_first_max [S n] x l) as [i [q [Harg Hmax]]].
  assert (Htc : target_class (as_tensor (model_output model image)) None = Ok (Z.of_nat i)).
  { unfold target_class. rewrite (tf_index0_first_row _ b [S n] Hshape).
    simpl. rewrite Hrow, Harg. reflexivity. }
  assert (Hi : (i < S n)%nat).
  { destruct Hmax as [Hat _]. apply lookup_lt_Some in Hat. rewrite <- Hrow in Hat.
    unfold first_row in Hat. rewrite Hshape in Hat. simpl in Hat.
    rewrite length_take in Hat. lia. }
  pose proof (tf_column_nat _ (S b) (S n) i Hshape Hi) as Hcol.
  exists i, q. split; [exact Htc|]. split.
  - rewrite Hrow. exact Hmax.
  - intros name. split.
    + apply (gradcam_heatmap_of_class model image None name (Z.of_nat i) i Htc Hcol).
    + rewrite (gradcam_heatmap_of_class model image None name (Z.of_nat i) i Htc Hcol).
      rewrite (gradcam_heatmap_of_class model image (Some (Z.of_nat i)) name (Z.of_nat i) i
                 eq_refl Hcol).
      reflexivity.
Qed.

Lemma argmax_fallback_witness :
  exists i q,
    target_class (as_tensor (model_output two_peak_model small_image)) None = Ok (Z.of_nat i) /\
    first_max (first_row (model_output two_peak_model small_image)) i q /\
    forall last_conv_layer_name,
      get_gradcam_heatmap two_peak_model small_image None last_conv_layer_name
      = (layer <- get_layer two_peak_model
                    (find_last_conv_layer two_peak_model last_conv_layer_name) ;;
         class_heatmap two_peak_model small_image (layer_name layer) i) /\
      get_gradcam_heatmap two_peak_model small_image None last_conv_layer_name =
      get_gradcam_heatmap two_peak_model small_image (Some (Z.of_nat i)) last_conv_layer_name.
Proof.
  apply (argmax_fallback two_peak_model small_image 0%nat 2%nat); reflexivity.
Defined.

(** ** The layer search *)

Lemma find_all_false {A : Type} (f : A -> bool) (l : list A) :
  Forall (fun x => f x = false) l -> find f l = None.
Proof.
  induction 1 as [|x l Hx _ IH]; simpl; [reflexivity|]. rewrite Hx. exact IH.
Qed.

Lemma find_last_conv_layer_none (model : Model) :
  no_four_axis_layer model -> find_last_conv_layer model None = None.
Proof.
  intros H. unfold find_last_conv_layer.
  rewrite find_all_false; [reflexivity|].
  apply List.Forall_rev. eapply Forall_impl; [exact H|].
  intros layer Hl. simpl in Hl. apply Nat.eqb_neq. exact Hl.
Qed.

(** C3, as the code has it.  When no layer of the classifier has an output
    of four axes and no layer name is given, [get_gradcam_heatmap] fails,
    whatever the image and the target class, with the [ValueError] of
    [model.get_layer] called without a name. *)
Theorem no_conv_layer_lookup_error (model : Model) (image : ndarray Q) (pred_class : option Z) :
  no_four_axis_layer model ->
  get_gradcam_heatmap model image pred_class None
    = Error (ValueError "Provide either a layer name or layer index.").
Proof.
  intros H. unfold get_gradcam_heatmap, grad_model_outputs.
  rewrite (find_last_conv_layer_none model H). reflexivity.
Qed.

Lemma no_conv_layer_lookup_error_witness :
  no_four_axis_layer dense_model /\
  get_gradcam_heatmap dense_model small_image None None
    = Error (ValueError "Provide either a layer name or layer index.").
Proof.
  assert (H : no_four_axis_layer dense_model)
    by (unfold no_four_axis_layer; simpl; repeat constructor; simpl; lia).
  split; [exact H | apply (no_conv_layer_lookup_error dense_model small_image None H)].
Defined.

(** C3, as the specification has it, fails: on a classifier of dense
    layers only the failure is not [LayerNotFound]. *)
Lemma no_conv_layer_not_LayerNotFound :
  no_four_axis_layer dense_model /\
  get_gradcam_heatmap dense_model small_image None None <> Error LayerNotFound.
Proof.
  split.
  - unfold no_four_axis_layer; simpl; repeat constructor; simpl; lia.
  - vm_compute. discriminate.
Qed.

(** ** Running the overlay in the store *)

Section StoreSteps.

Context {B : Type}.

Lemma deref_step (r : ref) (a : ndarray Q) (k : ndarray Q -> Py B) (h : heap) :
  h !! r = Some a -> py_bind (deref r) k h = k a h.
Proof.
  intros H. unfold py_bind, deref. rewrite H. reflexivity.
Qed.

Lemma lift_step {A : Type} (r : result A) (k : A -> Py B) (h : heap) :
  py_bind (py_lift r) k h = match r with Ok a => k a h | Error e => (Error e, h) end.
Proof.
  unfold py_bind, py_lift. destruct r; reflexivity.
Qed.

Lemma ret_step {A : Type} (a : A) (k : A -> Py B) (h : heap) :
  py_bind (py_ret a) k h = k a h.
Proof. reflexivity. Qed.

Lemma call1_step (f : ndarray Q -> result (ndarray Q)) (r : ref) (a : ndarray Q)
    (k : ref -> Py B) (h : heap) :
  h !! r = Some a ->
  py_bind (call1 f r) k h
  = match f a with Ok b => k (length h) (h ++ [b]) | Error e => (Error e, h) end.
Proof.
  intros H. unfold call1, py_bind, deref, py_lift, alloc. rewrite H.
  destruct (f a); reflexivity.
Qed.

Lemma call2_step (f : ndarray Q -> ndarray Q -> result (ndarray Q)) (r1 r2 : ref)
    (a1 a2 : ndarray Q) (k : ref -> Py B) (h : heap) :
  h !! r1 = Some a1 -> h !! r2 = Some a2 ->
  py_bind (call2 f r1 r2) k h
  = match f a1 a2 with Ok b => k (length h) (h ++ [b]) | Error e => (Error e, h) end.
Proof.
  intros H1 H2. unfold call2, py_bind, deref, py_lift, alloc. rewrite H1, H2.
  destruct (f a1 a2); reflexivity.
Qed.

End StoreSteps.

Lemma lookup_snoc (h : heap) (a : ndarray Q) : (h ++ [a]) !! length h = Some a.
Proof. apply list_lookup_middle. reflexivity. Qed.

Ltac store_lookup :=
  solve [ repeat first [ assumption | apply lookup_snoc | apply lookup_app_l_Some ] ].

Lemma overlay_heatmap_value (cv2_resize : resize_fn) (h : heap) (image heatmap : ref)
    (img hm : ndarray Q) (alpha : Q) (colormap : colormap_table) :
  h !! image = Some img -> h !! heatmap = Some hm ->
  returned (overlay_heatmap cv2_resize image heatmap alpha colormap h)
  = overlay_value cv2_resize img hm alpha colormap.
Proof.
  intros Himg Hhm. unfold overlay_heatmap, overlay_value, colormap_rendering, normalized_image.
  rewrite (deref_step image img) by store_lookup.
  rewrite lift_step. destruct (tuple_index (shape img) 1) as [width|e]; [|reflexivity].
  rewrite lift_step. destruct (tuple_index (shape img) 0) as [height|e]; [|reflexivity].
  cbn [bind].
  rewrite (call1_step _ heatmap hm) by store_lookup.
  destruct (cv2_resize hm width height) as [resized|e]; [|reflexivity]. cbn [bind].
  rewrite (call1_step _ _ resized) by store_lookup.
  rewrite (call1_step _ _ (np_rmul 255 resized)) by store_lookup.
  rewrite (call1_step _ _ (np_uint8 (np_rmul 255 resized))) by store_lookup.
  destruct (cv2_applyColorMap (np_uint8 (np_rmul 255 resized)) colormap) as [bgr|e];
    [|reflexivity]. cbn [bind].
  rewrite (call1_step _ _ bgr) by store_lookup.
  destruct (cv2_cvtColor_BGR2RGB bgr) as [rgb|e]; [|reflexivity]. cbn [bind].
  rewrite (call1_step _ _ rgb) by store_lookup.
  rewrite (deref_step image img) by store_lookup.
  rewrite lift_step. destruct (np_max img) as [image_max|e]; [|reflexivity]. cbn [bind].
  destruct (negb (Qle_bool image_max 1)).
  - rewrite (call1_step _ image img) by store_lookup.
    rewrite (call1_step _ _ (np_div rgb 255)) by store_lookup.
    rewrite (call1_step _ _ (np_div img 255)) by store_lookup.
    rewrite (call2_step _ _ _ (np_mul (np_div rgb 255) alpha)
                              (np_mul (np_div img 255) (1 - alpha))) by store_lookup.
    destruct (np_add _ _) as [out|e]; [|reflexivity].
    unfold py_ret, returned. rewrite lookup_snoc. reflexivity.
  - rewrite ret_step.
    rewrite (call1_step _ _ (np_div rgb 255)) by store_lookup.
    rewrite (call1_step _ image img) by store_lookup.
    rewrite (call2_step _ _ _ (np_mul (np_div rgb 255) alpha)
                              (np_mul img (1 - alpha))) by store_lookup.
    destruct (np_add _ _) as [out|e]; [|reflexivity].
    unfold py_ret, returned. rewrite lookup_snoc. reflexivity.
Qed.

Section Frame.

Lemma extends_ret {A : Type} (a : A) : extends_heap (py_ret a).
Proof. intros h. exists []. simpl. rewrite app_nil_r. reflexivity. Qed.

Lemma extends_lift {A : Type} (r : result A) : extends_heap (py_lift r).
Proof. intros h. exists []. simpl. rewrite app_nil_r. reflexivity. Qed.

Lemma extends_deref (r : ref) : extends_heap (deref r).
Proof.
  intros h. exists []. unfold deref. destruct (h !! r); simpl; rewrite app_nil_r; reflexivity.
Qed.

Lemma extends_alloc (a : ndarray Q) : extends_heap (alloc a).
Proof. intros h. exists [a]. reflexivity. Qed.

Lemma extends_bind {A B : Type} (m : Py A) (k : A -> Py B) :
  extends_heap m -> (forall a, extends_heap (k a)) -> extends_heap (py_bind m k).
Proof.
  intros Hm Hk h. unfold py_bind.
  destruct (Hm h) as [f1 H1]. destruct (m h) as [[a|e] h1]; simpl in H1; subst h1.
  - destruct (Hk a (h ++ f1)) as [f2 H2]. exists (f1 ++ f2). rewrite H2, app_assoc. reflexivity.
  - exists f1. reflexivity.
Qed.

Lemma extends_call1 (f : ndarray Q -> result (ndarray Q)) (r : ref) : extends_heap (call1 f r).
Proof.
  unfold call1. apply extends_bind; [apply extends_deref|]. intros a.
  apply extends_bind; [apply extends_lift|]. intros b. apply extends_alloc.
Qed.

Lemma extends_call2 (f : ndarray Q -> ndarray Q -> result (ndarray Q)) (r1 r2 : ref) :
  extends_heap (call2 f r1 r2).
Proof.
  unfold call2. apply extends_bind; [apply extends_deref|]. intros a.
  apply extends_bind; [apply extends_deref|]. intros b.
  apply extends_bind; [apply extends_lift|]. intros c. apply extends_alloc.
Qed.

End Frame.

Create HintDb frame.
#[local] Hint Resolve extends_ret extends_lift extends_deref extends_alloc
  extends_call1 extends_call2 : frame.

Ltac frame_steps :=
  repeat first
    [ apply extends_bind; [|intros ?]
    | match goal with |- extends_heap (if ?c then _ else _) => destruct c end
    | solve [auto with frame] ].

Lemma overlay_heatmap_extends (cv2_resize : resize_fn) (image heatmap : ref) (alpha : Q)
    (colormap : colormap_table) :
  extends_heap (overlay_heatmap cv2_resize image heatmap alpha colormap).
Proof.
  unfold overlay_heatmap. frame_steps.
Qed.

(** C10.  [overlay_heatmap] writes to no array it was given: after the
    call, failed or not, the image and the heatmap, and every other array
    of the store, hold what they held before. *)
Theorem overlay_heatmap_preserves_arguments (cv2_resize : resize_fn) (h : heap)
    (image heatmap : ref) (img hm : ndarray Q) (alpha : Q) (colormap : colormap_table) :
  h !! image = Some img -> h !! heatmap = Some hm ->
  let h' := snd (overlay_heatmap cv2_resize image heatmap alpha colormap h) in
  h' !! image = Some img /\ h' !! heatmap = Some hm /\
  forall (r : ref) (a : ndarray Q), h !! r = Some a -> h' !! r = Some a.
Proof.
  intros Himg Hhm h'.
  destruct (overlay_heatmap_extends cv2_resize image heatmap alpha colormap h) as [fresh Hf].
  subst h'. rewrite Hf.
  repeat split; intros; apply lookup_app_l_Some; assumption.
Qed.

Lemma length_flat_map_const {A B : Type} (f : A -> list B) (n : nat) (l : list A) :
  (forall a, length (f a) = n) -> length (flat_map f l) = (length l * n)%nat.
Proof.
  intros Hf. induction l as [|a l IH]; simpl; [reflexivity|].
  rewrite length_app, Hf, IH. reflexivity.
Qed.

Lemma nearest_resize_contract : resize_contract nearest_resize.
Proof.
  intros src w h sh sw Hs _ Hsh Hsw Hw Hh. unfold nearest_resize. rewrite Hs.
  apply Nat.ltb_lt in Hsh, Hsw, Hw, Hh. rewrite Hsh, Hsw, Hw, Hh. simpl.
  eexists. split; [reflexivity|]. split; [reflexivity|].
  unfold well_shaped. simpl.
  rewrite (length_flat_map_const _ w) by (intros; rewrite length_map, length_seq; reflexivity).
  rewrite length_seq. lia.
Qed.

Lemma cold_heatmap_2d : heatmap_2d cold_heatmap.
Proof.
  exists 2%nat, 2%nat. repeat split; try reflexivity; lia.
Qed.

Lemma bright_pixel_rgb : rgb_image bright_pixel 1%nat 1%nat.
Proof.
  repeat split; try reflexivity; lia.
Qed.

Lemma overlay_heatmap_preserves_arguments_witness :
  let h' := snd (overlay_heatmap nearest_resize 0%nat 1%nat (4 # 10) gray_table pixel_store) in
  h' !! 0%nat = Some bright_pixel /\ h' !! 1%nat = Some cold_heatmap /\
  forall (r : ref) (a : ndarray Q), pixel_store !! r = Some a -> h' !! r = Some a.
Proof.
  apply (overlay_heatmap_preserves_arguments nearest_resize pixel_store 0%nat 1%nat
           bright_pixel cold_heatmap (4 # 10) gray_table); reflexivity.
Defined.

(** ** The value of the overlay *)

Section Broadcast.

Lemma pad_shape_same (s : list nat) : pad_shape (length s) s = s.
Proof. unfold pad_shape. rewrite Nat.sub_diag. reflexivity. Qed.

Lemma broadcast_dims_same (s : list nat) : broadcast_dims s s = Some s.
Proof.
  induction s as [|a s IH]; simpl; [reflexivity|].
  rewrite IH, Nat.eqb_refl. reflexivity.
Qed.

Lemma np_broadcast_shapes_same (s : list nat) : np_broadcast_shapes s s = Some s.
Proof.
  unfold np_broadcast_shapes. rewrite Nat.max_id, pad_shape_same. apply broadcast_dims_same.
Qed.

(** Cutting a list into [a] pieces of [k] elements and joining what [F]
    makes of them gives the list back when [F] keeps such pieces. *)
Lemma chunks_join (F : list Q -> list Q) (k a : nat) (d : list Q) :
  (forall c, length c = k -> F c = c) ->
  length d = (a * k)%nat ->
  flat_map (fun i => F (take k (drop (i * k) d))) (seq 0 a) = d.
Proof.
  intros HF. revert d. induction a as [|a IH]; intros d Hd.
  - destruct d; [reflexivity | discriminate].
  - rewrite Nat.mul_succ_l in Hd.
    rewrite <- cons_seq, <- seq_shift. cbn [flat_map]. rewrite Nat.mul_0_l, drop_0.
    rewrite HF by (rewrite length_take; lia).
    transitivity (take k d ++ drop k d); [|apply take_drop]. f_equal.
    rewrite List.flat_map_concat_map, List.map_map, <- List.flat_map_concat_map.
    transitivity (flat_map (fun i => F (take k (drop (i * k) (drop k d)))) (seq 0 a));
      [|apply IH; rewrite length_drop; lia].
    apply List.flat_map_ext. intros i.
    rewrite drop_drop. do 3 f_equal; lia.
Qed.

Lemma broadcast_data_same (s : list nat) (d : list Q) :
  length d = size_of s -> broadcast_data s s d = d.
Proof.
  revert d. induction s as [|a s IH]; intros d Hd; simpl; [reflexivity|].
  rewrite Nat.eqb_refl. apply chunks_join; [exact IH | exact Hd].
Qed.

Lemma np_add_same_shape (a b : ndarray Q) :
  shape b = shape a -> well_shaped a -> well_shaped b ->
  np_add a b = Ok {| shape := shape a; data := zip_with Qplus (data a) (data b) |}.
Proof.
  intros Hs Ha Hb. unfold np_add. rewrite Hs, np_broadcast_shapes_same, pad_shape_same.
  rewrite !broadcast_data_same; [reflexivity | |].
  - rewrite <- Hs. exact Hb.
  - exact Ha.
Qed.

End Broadcast.

Section OverlayValue.

Variable cv2_resize : resize_fn.
Hypothesis cv2_resize_ok : resize_contract cv2_resize.

Lemma swap_channels_triples (colormap : colormap_table) (l : list Q) :
  swap_channels (flat_map (fun v => let '(b, g, r) := colormap (Qtrunc v) in
                                    [inject_Z b; inject_Z g; inject_Z r]) l)
  = flat_map (fun v => let '(b, g, r) := colormap (Qtrunc v) in
                       [inject_Z r; inject_Z g; inject_Z b]) l.
Proof.
  induction l as [|v l IH]; simpl; [reflexivity|].
  destruct (colormap (Qtrunc v)) as [[b g] r]. simpl. rewrite IH. reflexivity.
Qed.

Lemma length_triples (colormap : colormap_table) (l : list Q) :
  length (flat_map (fun v => let '(b, g, r) := colormap (Qtrunc v) in
                             [inject_Z r; inject_Z g; inject_Z b]) l)
  = (3 * length l)%nat.
Proof.
  induction l as [|v l IH]; simpl; [reflexivity|].
  destruct (colormap (Qtrunc v)) as [[b g] r]. simpl. rewrite IH. lia.
Qed.

Lemma colormap_rendering_rgb (resized : ndarray Q) (colormap : colormap_table) (h w : nat) :
  shape resized = [h; w] -> well_shaped resized ->
  exists rendering,
    colormap_rendering resized colormap = Ok rendering /\
    shape rendering = [h; w; 3%nat] /\ well_shaped rendering.
Proof.
  intros Hs Hw. unfold colormap_rendering, cv2_applyColorMap. simpl. rewrite Hs. simpl.
  eexists. split; [reflexivity|]. split; [reflexivity|].
  unfold well_shaped in *. simpl. rewrite Hs in Hw. simpl in Hw.
  rewrite length_map, swap_channels_triples, length_triples, !length_map, Hw. lia.
Qed.

Lemma np_max_ok (a : ndarray Q) :
  data a <> [] ->
  exists m, np_max a = Ok m /\ In m (data a) /\ Forall (fun x => x <= m) (data a).
Proof.
  unfold np_max. destruct (data a) as [|x l]; [congruence|]. intros _.
  eexists. split; [reflexivity|].
  induction l as [|y l [IHin IHall]]; simpl.
  - split; [auto|]. constructor; [apply Qle_refl | constructor].
  - set (m := fold_right (fun y m => if Qle_bool m y then y else m) x l) in *.
    inversion IHall as [|? ? Hx Hl]; subst.
    destruct (Qle_bool m y) eqn:Hmy.
    + apply Qle_bool_iff in Hmy. split; [auto|].
      constructor; [lra|]. constructor; [apply Qle_refl|].
      eapply Forall_impl; [exact Hl|]. simpl. intros; lra.
    + apply Qle_bool_false in Hmy. split; [destruct IHin; auto|].
      constructor; [exact Hx|]. constructor; [lra | exact Hl].
Qed.

Lemma rgb_image_nonempty (img : ndarray Q) (h w : nat) :
  rgb_image img h w -> data img <> [].
Proof.
  intros (Hs & Hw & Hh & Hwd) E. unfold well_shaped in Hw. rewrite Hs, E in Hw.
  simpl in Hw. nia.
Qed.

Lemma normalized_image_rgb (img : ndarray Q) (h w : nat) :
  rgb_image img h w ->
  exists image_max normalized,
    np_max img = Ok image_max /\
    normalized_image img = Ok normalized /\
    normalized = (if negb (Qle_bool image_max 1) then np_div img 255 else img) /\
    shape normalized = [h; w; 3%nat] /\ well_shaped normalized.
Proof.
  intros Hrgb. destruct (np_max_ok img (rgb_image_nonempty img h w Hrgb)) as (m & Hm & _).
  destruct Hrgb as (Hs & Hw & _).
  exists m. eexists. unfold normalized_image. rewrite Hm. cbn [bind].
  split; [reflexivity|]. split; [reflexivity|]. split; [reflexivity|].
  destruct (negb (Qle_bool m 1)); [|auto].
  split; [exact Hs|]. unfold well_shaped in *. simpl. rewrite length_map. exact Hw.
Qed.

Lemma overlay_value_rgb (img hm : ndarray Q) (alpha : Q) (colormap : colormap_table)
    (h w : nat) :
  rgb_image img h w -> heatmap_2d hm ->
  exists resized rendering normalized out,
    cv2_resize hm w h = Ok resized /\
    colormap_rendering resized colormap = Ok rendering /\
    normalized_image img = Ok normalized /\
    overlay_value cv2_resize img hm alpha colormap = Ok out /\
    shape out = [h; w; 3%nat] /\
    shape rendering = [h; w; 3%nat] /\ shape normalized = [h; w; 3%nat] /\
    length (data rendering) = length (data normalized) /\
    data out = zip_with Qplus (map (fun x => x * alpha) (data rendering))
                              (map (fun x => x * (1 - alpha)) (data normalized)).
Proof.
  intros Hrgb (sh & sw & Hhs & Hhw & Hsh & Hsw).
  pose proof Hrgb as (Hs & Hw & Hh & Hwd).
  destruct (cv2_resize_ok hm w h sh sw Hhs Hhw Hsh Hsw Hwd Hh) as (resized & Hrz & Hrs & Hrw).
  destruct (colormap_rendering_rgb resized colormap h w Hrs Hrw) as (rendering & Hcr & Hcs & Hcw).
  destruct (normalized_image_rgb img h w Hrgb) as (mx & normalized & _ & Hn & _ & Hns & Hnw).
  exists resized, rendering, normalized. eexists.
  split; [exact Hrz|]. split; [exact Hcr|]. split; [exact Hn|].
  assert (Hadd : np_add (np_mul rendering alpha) (np_mul normalized (1 - alpha))
                 = Ok {| shape := [h; w; 3%nat];
                         data := zip_with Qplus (map (fun x => x * alpha) (data rendering))
                                   (map (fun x => x * (1 - alpha)) (data normalized)) |}).
  { rewrite np_add_same_shape.
    - simpl. rewrite Hcs. reflexivity.
    - simpl. congruence.
    - unfold well_shaped in *. simpl. rewrite length_map. exact Hcw.
    - unfold well_shaped in *. simpl. rewrite length_map. exact Hnw. }
  split.
  - unfold overlay_value, tuple_index. rewrite Hs. simpl. rewrite Hrz. cbn [bind].
    rewrite Hcr. cbn [bind]. rewrite Hn. cbn [bind]. exact Hadd.
  - split; [reflexivity|]. split; [exact Hcs|]. split; [exact Hns|].
    split; [|reflexivity]. unfold well_shaped in *. rewrite Hcw, Hnw, Hcs, Hns. reflexivity.
Qed.

End OverlayValue.

Section OverlayTheorems.

Variable cv2_resize : resize_fn.
Hypothesis cv2_resize_ok : resize_contract cv2_resize.

Lemma blend_alpha_zero (l1 l2 : list Q) :
  length l1 = length l2 ->
  Forall2 Qeq (zip_with Qplus (map (fun x => x * 0) l1) (map (fun x => x * (1 - 0)) l2)) l2.
Proof.
  revert l2. induction l1 as [|a l1 IH]; intros [|b l2] Hlen; simpl in *;
    try discriminate; constructor.
  - ring.
  - apply IH. lia.
Qed.

Lemma blend_alpha_one (l1 l2 : list Q) :
  length l1 = length l2 ->
  Forall2 Qeq (zip_with Qplus (map (fun x => x * 1) l1) (map (fun x => x * (1 - 1)) l2)) l1.
Proof.
  revert l2. induction l1 as [|a l1 IH]; intros [|b l2] Hlen; simpl in *;
    try discriminate; constructor.
  - ring.
  - apply IH. lia.
Qed.

(** C7.  For an RGB image and a heatmap of any resolution,
    [overlay_heatmap] returns an array with the height and the width of
    the image. *)
Theorem overlay_same_height_width (h : heap) (image heatmap : ref) (img hm : ndarray Q)
    (alpha : Q) (colormap : colormap_table) (height width : nat) :
  h !! image = Some img -> h !! heatmap = Some hm ->
  rgb_image img height width -> heatmap_2d hm ->
  exists out,
    returned (overlay_heatmap cv2_resize image heatmap alpha colormap h) = Ok out /\
    shape out = [height; width; 3%nat] /\
    shape out !! 0%nat = shape img !! 0%nat /\
    shape out !! 1%nat = shape img !! 1%nat.
Proof.
  intros Himg Hhm Hrgb H2d.
  destruct (overlay_value_rgb cv2_resize cv2_resize_ok img hm alpha colormap height width Hrgb H2d)
    as (rz & cmr & nimg & out & _ & _ & _ & Hout & Hs & _).
  exists out. rewrite (overlay_heatmap_value cv2_resize h image heatmap img hm) by assumption.
  split; [exact Hout|]. split; [exact Hs|].
  destruct Hrgb as (Hi & _). rewrite Hs, Hi. split; reflexivity.
Qed.

(** C6, as the code has it.  With [alpha = 0] the overlay is the image
    after lines 86-87: the image itself when no value exceeds 1, and the
    image divided by 255 otherwise.  With [alpha = 1] it is the colormap
    rendering of the resized heatmap, the same for every image of that
    height and width. *)
Theorem overlay_boundary_alphas (hm : ndarray Q) (colormap : colormap_table)
    (height width : nat) :
  heatmap_2d hm -> (0 < height)%nat -> (0 < width)%nat ->
  exists resized rendering,
    cv2_resize hm width height = Ok resized /\
    colormap_rendering resized colormap = Ok rendering /\
    forall (h : heap) (image heatmap : ref) (img : ndarray Q),
      h !! image = Some img -> h !! heatmap = Some hm ->
      rgb_image img height width ->
      (exists out normalized,
         returned (overlay_heatmap cv2_resize image heatmap 0 colormap h) = Ok out /\
         normalized_image img = Ok normalized /\
         array_eq out normalized /\
         (Forall (fun x => x <= 1) (data img) -> normalized = img) /\
         (Exists (fun x => 1 < x) (data img) -> normalized = np_div img 255)) /\
      (exists out,
         returned (overlay_heatmap cv2_resize image heatmap 1 colormap h) = Ok out /\
         array_eq out rendering).
Proof.
  intros H2d Hh Hw.
  pose proof H2d as (sh & sw & Hhs & Hhw & Hsh & Hsw).
  destruct (cv2_resize_ok hm width height sh sw Hhs Hhw Hsh Hsw Hw Hh) as (resized & Hrz & Hrs & Hrw).
  destruct (colormap_rendering_rgb resized colormap height width Hrs Hrw)
    as (rendering & Hcr & Hcs & Hcw).
  exists resized, rendering. split; [exact Hrz|]. split; [exact Hcr|].
  intros h image heatmap img Himg Hhm Hrgb. split.
  - destruct (overlay_value_rgb cv2_resize cv2_resize_ok img hm 0 colormap height width Hrgb H2d)
      as (rz & cmr & nimg & out & _ & _ & Hn & Hout & Hs & _ & Hns & Hlen & Hdata).
    exists out, nimg.
    rewrite (overlay_heatmap_value cv2_resize h image heatmap img hm) by assumption.
    split; [exact Hout|]. split; [exact Hn|]. split.
    { split; [congruence|]. rewrite Hdata. apply blend_alpha_zero. exact Hlen. }
    destruct (normalized_image_rgb img height width Hrgb) as (mx & n' & Hmx & Hn' & Heq & _).
    rewrite Hn in Hn'. injection Hn' as <-.
    destruct (np_max_ok img (rgb_image_nonempty img height width Hrgb)) as (m & Hm & Hin & Hall).
    rewrite Hmx in Hm. injection Hm as <-.
    split.
    + intros Hle. rewrite List.Forall_forall in Hle. specialize (Hle mx Hin).
      apply Qle_bool_iff in Hle. rewrite Hle in Heq. exact Heq.
    + intros Hex. apply List.Exists_exists in Hex as (x & Hx & H1).
      rewrite List.Forall_forall in Hall. specialize (Hall x Hx).
      destruct (Qle_bool mx 1) eqn:E; [apply Qle_bool_iff in E; lra | exact Heq].
  - destruct (overlay_value_rgb cv2_resize cv2_resize_ok img hm 1 colormap height width Hrgb H2d)
      as (rz & cmr & nimg & out & Hrz' & Hcr' & _ & Hout & Hs & Hcs' & _ & Hlen & Hdata).
    rewrite Hrz in Hrz'. injection Hrz' as <-.
    rewrite Hcr in Hcr'. injection Hcr' as <-.
    exists out.
    rewrite (overlay_heatmap_value cv2_resize h image heatmap img hm) by assumption.
    split; [exact Hout|]. split; [congruence|].
    rewrite Hdata. apply blend_alpha_one. exact Hlen.
Qed.

End OverlayTheorems.

Lemma overlay_same_height_width_witness :
  exists out,
    returned (overlay_heatmap nearest_resize 0%nat 1%nat (4 # 10) gray_table pixel_store) = Ok out /\
    shape out = [1; 1; 3]%nat /\
    shape out !! 0%nat = shape bright_pixel !! 0%nat /\
    shape out !! 1%nat = shape bright_pixel !! 1%nat.
Proof.
  apply (overlay_same_height_width nearest_resize nearest_resize_contract pixel_store
           0%nat 1%nat bright_pixel cold_heatmap (4 # 10) gray_table 1%nat 1%nat).
  - reflexivity.
  - reflexivity.
  - exact bright_pixel_rgb.
  - exact cold_heatmap_2d.
Defined.

Lemma overlay_boundary_alphas_witness :
  exists resized rendering,
    nearest_resize cold_heatmap 1%nat 1%nat = Ok resized /\
    colormap_rendering resized gray_table = Ok rendering /\
    forall (h : heap) (image heatmap : ref) (img : ndarray Q),
      h !! image = Some img -> h !! heatmap = Some cold_heatmap ->
      rgb_image img 1%nat 1%nat ->
      (exists out normalized,
         returned (overlay_heatmap nearest_resize image heatmap 0 gray_table h) = Ok out /\
         normalized_image img = Ok normalized /\
         array_eq out normalized /\
         (Forall (fun x => x <= 1) (data img) -> normalized = img) /\
         (Exists (fun x => 1 < x) (data img) -> normalized = np_div img 255)) /\
      (exists out,
         returned (overlay_heatmap nearest_resize image heatmap 1 gray_table h) = Ok out /\
         array_eq out rendering).
Proof.
  apply (overlay_boundary_alphas nearest_resize nearest_resize_contract cold_heatmap gray_table 1%nat 1%nat).
  - exact cold_heatmap_2d.
  - lia.
  - lia.
Defined.

(** C6, as the specification has it, fails: with [alpha = 0] an image with
    values in [[0,255]] does not come back unchanged. *)
Lemma overlay_alpha_zero_rescales_bright_image :
  resize_contract nearest_resize /\ rgb_image bright_pixel 1%nat 1%nat /\ heatmap_2d cold_heatmap /\
  exists out,
    returned (overlay_heatmap nearest_resize 0%nat 1%nat 0 gray_table pixel_store) = Ok out /\
    ~ array_eq out bright_pixel.
Proof.
  split; [exact nearest_resize_contract|]. split; [exact bright_pixel_rgb|].
  split; [exact cold_heatmap_2d|].
  eexists. split; [vm_compute; reflexivity|].
  intros [_ H]. simpl in H.
  inversion H as [|x y l l' Hq _]; subst. vm_compute in Hq. discriminate.
Qed.

(** ** Report texts for a class out of range *)

Lemma class_explanations_out_of_range (c : Z) :
  (c < 0 \/ 4 < c)%Z -> class_explanations !! c = None.
Proof.
  intros H. unfold class_explanations.
  rewrite !lookup_insert_ne by lia. apply lookup_empty.
Qed.

Lemma recommendations_out_of_range (c : Z) :
  (c < 0 \/ 4 < c)%Z -> recommendations !! c = None.
Proof.
  intros H. unfold recommendations.
  rewrite !lookup_insert_ne by lia. apply lookup_empty.
Qed.

(** C9.  For a class index outside 0..4, [explain_prediction_simple] and
    [get_recommendation] raise nothing and return what they return for
    class 0: the class 0 text followed by the confidence sentence, and the
    class 0 recommendation with its confidence note. *)
Theorem out_of_range_class_falls_back (predicted_class : Z) (confidence : Q)
    (heatmap_focus : string) :
  (predicted_class < 0 \/ 4 < predicted_class)%Z ->
  exists text0 entry0,
    class_explanations !! 0%Z = Some text0 /\
    recommendations !! 0%Z = Some entry0 /\
    explain_prediction_simple predicted_class confidence heatmap_focus
      = Ok (text0 +:+ newline +:+ newline +:+ "The computer is "
              +:+ pretty (Qtrunc (confidence * 100)) +:+ "% confident about this finding.") /\
    explain_prediction_simple predicted_class confidence heatmap_focus
      = explain_prediction_simple 0 confidence heatmap_focus /\
    get_recommendation predicted_class confidence
      = Ok (<["note" := confidence_note confidence]> entry0) /\
    get_recommendation predicted_class confidence = get_recommendation 0 confidence.
Proof.
  intros Hrange.
  assert (H0 : exists text0, class_explanations !! 0%Z = Some text0)
    by (eexists; unfold class_explanations; apply lookup_insert_eq).
  assert (R0 : exists entry0, recommendations !! 0%Z = Some entry0)
    by (eexists; unfold recommendations; apply lookup_insert_eq).
  destruct H0 as [text0 H0]. destruct R0 as [entry0 R0].
  exists text0, entry0. split; [exact H0|]. split; [exact R0|].
  unfold explain_prediction_simple, get_recommendation, dict_item, dict_get.
  rewrite H0, R0, (class_explanations_out_of_range _ Hrange),
    (recommendations_out_of_range _ Hrange).
  simpl. repeat split; reflexivity.
Qed.

Lemma out_of_range_class_falls_back_witness :
  exists text0 entry0,
    class_explanations !! 0%Z = Some text0 /\
    recommendations !! 0%Z = Some entry0 /\
    explain_prediction_simple 7 (93 # 100) ""
      = Ok (text0 +:+ newline +:+ newline +:+ "The computer is "
              +:+ pretty (Qtrunc ((93 # 100) * 100)) +:+ "% confident about this finding.") /\
    explain_prediction_simple 7 (93 # 100) "" = explain_prediction_simple 0 (93 # 100) "" /\
    get_recommendation 7 (93 # 100) = Ok (<["note" := confidence_note (93 # 100)]> entry0) /\
    get_recommendation 7 (93 # 100) = get_recommendation 0 (93 # 100).
Proof.
  apply (out_of_range_class_falls_back 7 (93 # 100) ""). right. lia.
Defined.

(** * Properties of the rest of the sources *)

(** ** Predictions *)

Lemma np_argmax_from_tf (l : list Q) (best_i : nat) (best : Q) (i : nat) :
  argmax_from best_i (Fin best) i (map Fin l) = np_argmax_from best_i best i l.
Proof.
  revert best_i best i. induction l as [|x l IH]; intros best_i best i; simpl; [reflexivity|].
  destruct (Qle_bool x best); simpl; apply IH.
Qed.

Lemma np_argmax_tf (a : ndarray Q) (i : nat) :
  tf_argmax (as_tensor a) = Ok i <-> np_argmax a = Ok i.
Proof.
  unfold tf_argmax, np_argmax, as_tensor. simpl.
  destruct (data a) as [|x l]; simpl; [split; discriminate|].
  rewrite np_argmax_from_tf. reflexivity.
Qed.

Lemma np_argmax_first_max (a : ndarray Q) :
  data a <> [] -> exists i q, np_argmax a = Ok i /\ first_max (data a) i q.
Proof.
  intros Hne.
  destruct (data a) as [|x l] eqn:E; [congruence|].
  destruct (tf_argmax_first_max (shape a) x l) as (i & q & Harg & Hmax).
  exists i, q. split; [|exact Hmax].
  apply np_argmax_tf. unfold as_tensor. rewrite E. exact Harg.
Qed.

Lemma first_max_unique (l : list Q) (i j : nat) (p q : Q) :
  first_max l i p -> first_max l j q -> i = j.
Proof.
  intros [Hi Hmi] [Hj Hmj].
  destruct (Nat.lt_trichotomy i j) as [Hlt|[Heq|Hgt]]; [|exact Heq|].
  - destruct (Hmj i p Hi) as [_ H1]. destruct (Hmi j q Hj) as [H2 _]. specialize (H1 Hlt). lra.
  - destruct (Hmi j q Hj) as [_ H1]. destruct (Hmj i p Hi) as [H2 _]. specialize (H1 Hgt). lra.
Qed.

Lemma np_index0_first_row (a : ndarray Q) (b : nat) (rest : list nat) :
  shape a = S b :: rest ->
  np_index a 0 = Ok {| shape := rest; data := first_row a |}.
Proof.
  intros Hs. unfold np_index, first_row. rewrite Hs. simpl. rewrite drop_0. reflexivity.
Qed.

Lemma first_row_length (a : ndarray Q) (b n : nat) :
  shape a = [S b; n] -> well_shaped a -> length (first_row a) = n.
Proof.
  intros Hs Hw. unfold well_shaped in Hw. unfold first_row. rewrite Hs in *. simpl in *.
  rewrite length_take. nia.
Qed.

Lemma list_item_nat {A : Type} (l : list A) (i : nat) :
  list_item l (Z.of_nat i)
  = match l !! i with
    | Some a => Ok a
    | None => Error (IndexError "list index out of range")
    end.
Proof.
  unfold list_item.
  destruct (Z.of_nat i <? 0)%Z eqn:Hneg; [apply Z.ltb_lt in Hneg; lia|].
  rewrite Hneg, Nat2Z.id. reflexivity.
Qed.

Lemma model_predict_rows (model : Model) (x : ndarray Q) (b : nat) (rest : list nat) :
  shape (model_output model x) = S b :: rest ->
  model_predict model x = Ok (model_output model x).
Proof.
  intros Hs. unfold model_predict. rewrite Hs. reflexivity.
Qed.

Lemma model_predict_ok (model : Model) (x out : ndarray Q) :
  model_predict model x = Ok out -> out = model_output model x.
Proof.
  unfold model_predict.
  destruct (shape (model_output model x)) as [|[|d] rest]; intros H;
    first [discriminate | injection H as <-; reflexivity].
Qed.

(** X1.  A higher confidence never gets a lower level. *)
Theorem get_confidence_level_monotone (c1 c2 : Q) :
  c1 <= c2 ->
  (confidence_rank (get_confidence_level c1) <= confidence_rank (get_confidence_level c2))%nat.
Proof.
  intros Hle. unfold get_confidence_level.
  destruct (Qle_bool (9 # 10) c1) eqn:A1; destruct (Qle_bool (9 # 10) c2) eqn:A2;
  destruct (Qle_bool (75 # 100) c1) eqn:B1; destruct (Qle_bool (75 # 100) c2) eqn:B2;
  destruct (Qle_bool (6 # 10) c1) eqn:C1; destruct (Qle_bool (6 # 10) c2) eqn:C2;
  try (vm_compute; lia);
  exfalso;
  repeat match goal with
         | H : Qle_bool _ _ = true |- _ => apply Qle_bool_iff in H
         | H : Qle_bool _ _ = false |- _ => apply Qle_bool_false in H
         end; lra.
Qed.

Lemma get_confidence_level_monotone_witness :
  (confidence_rank (get_confidence_level (65 # 100))
   <= confidence_rank (get_confidence_level (80 # 100)))%nat.
Proof.
  apply (get_confidence_level_monotone (65 # 100) (80 # 100)). vm_compute. discriminate.
Defined.

(** X2.  For a classifier of at most five classes, [predict_single]
    returns the first index of the maximum of the probabilities of the
    image as the class, that maximum as the confidence, the name of the
    class as the label and the whole row as the probabilities. *)
Theorem predict_single_reports_maximum (model : Model) (image : ndarray Q) (b n : nat) :
  shape (model_output model (as_batch image)) = [S b; n] ->
  well_shaped (model_output model (as_batch image)) ->
  (0 < n <= 5)%nat ->
  exists p i q,
    predict_single model image = Ok p /\
    first_max (first_row (model_output model (as_batch image))) i q /\
    Prediction.predicted_class p = Z.of_nat i /\
    Prediction.confidence p = q /\
    CLASS_NAMES !! i = Some (Prediction.predicted_label p) /\
    data (Prediction.probabilities p) = first_row (model_output model (as_batch image)).
Proof.
  intros Hs Hw Hn. unfold predict_single. fold (as_batch image).
  rewrite (model_predict_rows model (as_batch image) b [n] Hs). cbn [bind].
  set (out := model_output model (as_batch image)) in *.
  rewrite (np_index0_first_row out b [n] Hs). cbn [bind].
  pose proof (first_row_length out b n Hs Hw) as Hlen.
  destruct (np_argmax_first_max {| shape := [n]; data := first_row out |}) as (i & q & Harg & Hmax).
  { simpl. intros E. rewrite E in Hlen. simpl in Hlen. lia. }
  simpl in Hmax. rewrite Harg. cbn [bind].
  pose proof Hmax as [Hat _].
  unfold np_vector_item. simpl. rewrite Hat. cbn [bind].
  assert (Hi : (i < 5)%nat) by (apply lookup_lt_Some in Hat; lia).
  rewrite list_item_nat.
  destruct (CLASS_NAMES !! i) as [name|] eqn:Hname.
  - cbn [bind]. eexists; exists i, q. split; [reflexivity|]. simpl. auto.
  - apply lookup_ge_None in Hname. simpl in Hname. lia.
Qed.

Lemma predict_single_reports_maximum_witness :
  exists p i q,
    predict_single scenario_model small_image = Ok p /\
    first_max (first_row (model_output scenario_model (as_batch small_image))) i q /\
    Prediction.predicted_class p = Z.of_nat i /\
    Prediction.confidence p = q /\
    CLASS_NAMES !! i = Some (Prediction.predicted_label p) /\
    data (Prediction.probabilities p)
      = first_row (model_output scenario_model (as_batch small_image)).
Proof.
  apply (predict_single_reports_maximum scenario_model small_image 0%nat 5%nat).
  - reflexivity.
  - reflexivity.
  - lia.
Defined.

(** X3.  When the maximum of the probabilities sits at an index of five or
    more, [predict_single] raises the [IndexError] of the lookup in
    [CLASS_NAMES]. *)
Theorem predict_single_sixth_class (model : Model) (image : ndarray Q) (b n i : nat) (q : Q) :
  shape (model_output model (as_batch image)) = [S b; n] ->
  first_max (first_row (model_output model (as_batch image))) i q ->
  (5 <= i)%nat ->
  predict_single model image = Error (IndexError "list index out of range").
Proof.
  intros Hs Hmax Hi. unfold predict_single. fold (as_batch image).
  rewrite (model_predict_rows model (as_batch image) b [n] Hs). cbn [bind].
  set (out := model_output model (as_batch image)) in *.
  rewrite (np_index0_first_row out b [n] Hs). cbn [bind].
  pose proof Hmax as [Hat _].
  destruct (np_argmax_first_max {| shape := [n]; data := first_row out |}) as (j & p & Harg & Hmax').
  { simpl. intros E. rewrite E in Hat. discriminate. }
  simpl in Hmax'. rewrite (first_max_unique _ _ _ _ _ Hmax' Hmax) in Harg.
  rewrite Harg. cbn [bind]. unfold np_vector_item. simpl. rewrite Hat. cbn [bind].
  rewrite list_item_nat.
  destruct (CLASS_NAMES !! i) as [name|] eqn:Hname; [|reflexivity].
  apply lookup_lt_Some in Hname. simpl in Hname. lia.
Qed.

Lemma predict_single_sixth_class_witness :
  predict_single six_class_model small_image = Error (IndexError "list index out of range").
Proof.
  apply (predict_single_sixth_class six_class_model small_image 0%nat 6%nat 5%nat (5 # 10)).
  - reflexivity.
  - split; [reflexivity|].
    intros j pj Hj.
    do 6 (destruct j as [|j]; [injection Hj as <-; split; [vm_compute; discriminate | intros; try lia; reflexivity]|]).
    discriminate.
  - lia.
Defined.

Lemma tf_index0_np_index (a row : ndarray Q) :
  np_index a 0 = Ok row -> tf_index0 (as_tensor a) = Ok (as_tensor row).
Proof.
  unfold np_index, tf_index0, as_tensor. simpl.
  destruct (shape a) as [|d rest]; [discriminate|].
  destruct d as [|d]; simpl; [discriminate|].
  intros H. injection H as <-. simpl. rewrite drop_0, firstn_map. reflexivity.
Qed.

Lemma np_index_ok (a row : ndarray Q) (i : nat) :
  np_index a i = Ok row ->
  exists d, shape a = d :: shape row /\ (length (data row) <= size_of (shape row))%nat.
Proof.
  unfold np_index. destruct (shape a) as [|d rest]; [discriminate|].
  destruct (i <? d)%nat; [|discriminate]. intros H. injection H as <-.
  exists d. cbn [shape data]. split; [reflexivity|]. rewrite length_take. lia.
Qed.

Lemma np_vector_item_ok (v : ndarray Q) (i : nat) (x : Q) :
  np_vector_item v i = Ok x -> exists n, shape v = [n] /\ (i < length (data v))%nat.
Proof.
  unfold np_vector_item. destruct (shape v) as [|n [|? ?]]; try discriminate.
  destruct (data v !! i) as [y|] eqn:Hy; [|discriminate].
  intros _. exists n. split; [reflexivity|]. apply lookup_lt_Some in Hy. exact Hy.
Qed.

(** X4.  The class that [predict_single] reports for an image is the class
    that [get_gradcam_heatmap] explains when it is given the same batch
    and no target class: the heatmap is the one of the gradient of the
    reported class with respect to the layer looked up. *)
Theorem predict_single_class_is_gradcam_target (model : Model) (image : ndarray Q)
    (p : Prediction.t) :
  predict_single model image = Ok p ->
  exists i,
    Prediction.predicted_class p = Z.of_nat i /\
    target_class (as_tensor (model_output model (as_batch image))) None = Ok (Z.of_nat i) /\
    forall last_conv_layer_name,
      get_gradcam_heatmap model (as_batch image) None last_conv_layer_name
      = (layer <- get_layer model (find_last_conv_layer model last_conv_layer_name) ;;
         class_heatmap model (as_batch image) (layer_name layer) i) /\
      get_gradcam_heatmap model (as_batch image) None last_conv_layer_name
      = get_gradcam_heatmap model (as_batch image) (Some (Prediction.predicted_class p))
          last_conv_layer_name.
Proof.
  unfold predict_single. fold (as_batch image).
  destruct (model_predict model (as_batch image)) as [out|e] eqn:Hout; [|discriminate].
  apply model_predict_ok in Hout. subst out. cbn [bind].
  set (out := model_output model (as_batch image)).
  destruct (np_index out 0) as [row|e] eqn:Hrow; [|discriminate]. cbn [bind].
  destruct (np_argmax row) as [i|e] eqn:Harg; [|discriminate]. cbn [bind].
  destruct (np_vector_item row i) as [c|e] eqn:Hitem; [|discriminate]. cbn [bind].
  destruct (list_item CLASS_NAMES (Z.of_nat i)) as [name|e]; [|discriminate]. cbn [bind].
  intros H. injection H as <-. cbn [Prediction.predicted_class].
  assert (Htc : target_class (as_tensor out) None = Ok (Z.of_nat i)).
  { unfold target_class. rewrite (tf_index0_np_index out row Hrow). cbn [bind].
    apply np_argmax_tf in Harg. rewrite Harg. reflexivity. }
  assert (Hcol : tf_column (as_tensor out) (Z.of_nat i) = Ok i).
  { destruct (np_index_ok out row 0%nat Hrow) as (d & Hs & Hlen).
    destruct (np_vector_item_ok row i c Hitem) as (n & Hn & Hi).
    rewrite Hn in Hs, Hlen. simpl in Hlen.
    apply (tf_column_nat out d n i Hs). lia. }
  exists i. split; [reflexivity|]. split; [exact Htc|].
  intros name'. split.
  - apply (gradcam_heatmap_of_class model (as_batch image) None name' (Z.of_nat i) i Htc Hcol).
  - rewrite (gradcam_heatmap_of_class model (as_batch image) None name' (Z.of_nat i) i Htc Hcol).
    rewrite (gradcam_heatmap_of_class model (as_batch image) (Some (Z.of_nat i)) name'
               (Z.of_nat i) i eq_refl Hcol).
    reflexivity.
Qed.

Lemma predict_single_class_is_gradcam_target_witness :
  exists i,
    2%Z = Z.of_nat i /\
    target_class (as_tensor (model_output scenario_model (as_batch small_image))) None
      = Ok (Z.of_nat i) /\
    forall last_conv_layer_name,
      get_gradcam_heatmap scenario_model (as_batch small_image) None last_conv_layer_name
      = (layer <- get_layer scenario_model
                    (find_last_conv_layer scenario_model last_conv_layer_name) ;;
         class_heatmap scenario_model (as_batch small_image) (layer_name layer) i) /\
      get_gradcam_heatmap scenario_model (as_batch small_image) None last_conv_layer_name
      = get_gradcam_heatmap scenario_model (as_batch small_image) (Some 2%Z)
          last_conv_layer_name.
Proof.
  apply (predict_single_class_is_gradcam_target scenario_model small_image
           {| Prediction.predicted_class := 2;
              Prediction.predicted_label := "Moderate";
              Prediction.confidence := 4 # 10;
              Prediction.probabilities :=
                {| shape := [5%nat]; data := [1 # 10; 2 # 10; 4 # 10; 2 # 10; 1 # 10] |} |}).
  reflexivity.
Defined.

Lemma np_index_row (a : ndarray Q) (b n i : nat) :
  shape a = [b; n] -> well_shaped a -> (i < b)%nat ->
  exists row, np_index a i = Ok row /\ shape row = [n] /\ length (data row) = n.
Proof.
  intros Hs Hw Hi. unfold np_index. rewrite Hs.
  apply Nat.ltb_lt in Hi as Hi'. rewrite Hi'.
  eexists. split; [reflexivity|]. split; [reflexivity|]. simpl.
  unfold well_shaped in Hw. rewrite Hs in Hw. simpl in Hw.
  rewrite length_take, length_drop. nia.
Qed.

Lemma class_name_some (j : nat) :
  (j < 5)%nat -> exists name, list_item CLASS_NAMES (Z.of_nat j) = Ok name /\
                              CLASS_NAMES !! j = Some name.
Proof.
  intros Hj. rewrite list_item_nat.
  destruct (CLASS_NAMES !! j) as [name|] eqn:E; [eauto|].
  apply lookup_ge_None in E. simpl in E. lia.
Qed.

(** The core of [predict_single] and of an item of [predict_batch]: the
    class, the confidence and the label of a row of at most five
    probabilities. *)
Lemma row_prediction (row : ndarray Q) (n : nat) :
  shape row = [n] -> length (data row) = n -> (0 < n <= 5)%nat ->
  exists k q name,
    np_argmax row = Ok k /\ first_max (data row) k q /\
    np_vector_item row k = Ok q /\
    list_item CLASS_NAMES (Z.of_nat k) = Ok name /\ CLASS_NAMES !! k = Some name.
Proof.
  intros Hs Hlen Hn.
  destruct (np_argmax_first_max row) as (k & q & Harg & Hmax).
  { intros E. rewrite E in Hlen. simpl in Hlen. lia. }
  pose proof Hmax as [Hat _].
  destruct (class_name_some k) as (name & Hitem & Hname).
  { apply lookup_lt_Some in Hat. lia. }
  exists k, q, name. split; [exact Harg|]. split; [exact Hmax|].
  split; [|split; assumption].
  unfold np_vector_item. rewrite Hs, Hat. reflexivity.
Qed.

Lemma class_probabilities_five (row : ndarray Q) (r0 r1 r2 r3 r4 : Q) :
  shape row = [5%nat] -> data row = [r0; r1; r2; r3; r4] ->
  exists probs,
    class_probabilities row (seq 0 (length CLASS_NAMES)) ∅ = Ok probs /\
    forall j name, CLASS_NAMES !! j = Some name -> probs !! name = data row !! j.
Proof.
  intros Hs Hd. eexists. split.
  - simpl. unfold np_vector_item. rewrite Hs, Hd. simpl. reflexivity.
  - intros j name Hj. rewrite Hd.
    do 5 (destruct j as [|j]; [injection Hj as <-; reflexivity|]).
    discriminate.
Qed.

Lemma class_probabilities_short (row : ndarray Q) (n : nat) (js : list nat)
    (acc : gmap string Q) :
  shape row = [n] -> length (data row) = n ->
  Forall (fun j => (j < 5)%nat) js -> Exists (fun j => (n <= j)%nat) js ->
  class_probabilities row js acc = Error (IndexError "index is out of bounds for axis 0").
Proof.
  intros Hs Hlen Hall Hex. revert acc.
  induction js as [|j js IH]; intros acc; [inversion Hex|].
  inversion Hall as [|? ? Hj Hjs]; subst. simpl.
  destruct (class_name_some j Hj) as (name & Hitem & _). rewrite Hitem. cbn [bind].
  unfold np_vector_item at 1. rewrite Hs.
  destruct (data row !! j) as [x|] eqn:Hx; [|reflexivity]. cbn [bind].
  apply IH; [exact Hjs|].
  inversion Hex as [? ? Hge|? ? Hrest]; subst; [|exact Hrest].
  apply lookup_lt_Some in Hx. lia.
Qed.

Lemma predict_batch_item_five (probabilities : ndarray Q) (b i : nat) :
  shape probabilities = [b; 5%nat] -> well_shaped probabilities -> (i < b)%nat ->
  exists p, predict_batch_item probabilities i = Ok p /\ batch_item_spec probabilities i p.
Proof.
  intros Hs Hw Hi.
  destruct (np_index_row probabilities b 5 i Hs Hw Hi) as (row & Hrow & Hrs & Hlen).
  destruct (row_prediction row 5 Hrs Hlen ltac:(lia)) as (k & q & name & Harg & Hmax & Hq & Hitem & Hname).
  destruct (data row) as [|r0 [|r1 [|r2 [|r3 [|r4 [|r5 l]]]]]] eqn:Hd; try discriminate.
  destruct (class_probabilities_five row r0 r1 r2 r3 r4 Hrs Hd) as (probs & Hprobs & Hlook).
  unfold predict_batch_item. rewrite Hrow. cbn [bind]. rewrite Harg. cbn [bind].
  rewrite Hq. cbn [bind]. rewrite Hitem. cbn [bind]. rewrite Hprobs. cbn [bind].
  eexists. split; [reflexivity|].
  exists row, k. simpl. rewrite Hd.
  split; [exact Hrow|]. split; [exact Hmax|]. split; [reflexivity|]. split; [exact Hname|].
  intros j name' Hj. rewrite (Hlook j name' Hj), Hd. reflexivity.
Qed.

Lemma predict_batch_loop_five (probabilities : ndarray Q) (b : nat) (indices : list nat) :
  shape probabilities = [b; 5%nat] -> well_shaped probabilities ->
  Forall (fun i => (i < b)%nat) indices ->
  exists predictions,
    predict_batch_loop probabilities indices = Ok predictions /\
    Forall2 (batch_item_spec probabilities) indices predictions.
Proof.
  intros Hs Hw. induction 1 as [|i indices Hi _ IH]; simpl.
  - exists []. split; [reflexivity | constructor].
  - destruct (predict_batch_item_five probabilities b i Hs Hw Hi) as (p & Hp & Hspec).
    destruct IH as (ps & Hps & Hall).
    rewrite Hp. cbn [bind]. rewrite Hps. cbn [bind].
    exists (p :: ps). split; [reflexivity | constructor; assumption].
Qed.

(** X5.  For a classifier of five classes and a batch that is not empty,
    [predict_batch] returns one prediction per image, in order; the
    prediction of image [i] holds the first index of the maximum of row
    [i] as the class, that maximum as the confidence, the name of the
    class as the label, and the probability of every class under its
    name.  For an empty batch it returns no empty list: it raises the
    [ValueError] of [model.predict]. *)
Theorem predict_batch_five_classes (model : Model) (images : ndarray Q) (b : nat)
    (s : list nat) :
  shape images = b :: s ->
  shape (model_output model images) = [b; 5%nat] ->
  well_shaped (model_output model images) ->
  match b with
  | O =>
      predict_batch model images
      = Error (ValueError "Unexpected result of `predict_function` (Empty batch_outputs).")
  | S _ =>
      exists predictions,
        predict_batch model images = Ok predictions /\
        length predictions = b /\
        forall i p, predictions !! i = Some p ->
                    batch_item_spec (model_output model images) i p
  end.
Proof.
  intros Hi Hs Hw. destruct b as [|b'].
  - unfold predict_batch, model_predict. rewrite Hs. reflexivity.
  - unfold predict_batch.
    rewrite (model_predict_rows model images b' [5%nat] Hs). cbn [bind].
    rewrite Hi. cbn [bind].
    destruct (predict_batch_loop_five (model_output model images) (S b') (seq 0 (S b')) Hs Hw)
      as (ps & Hps & Hall).
    { apply List.Forall_forall. intros i Hin. apply in_seq in Hin. lia. }
    exists ps. split; [exact Hps|]. split.
    + apply Forall2_length in Hall. rewrite length_seq in Hall. lia.
    + intros i p Hp.
      destruct (Forall2_lookup_r _ _ _ _ _ Hall Hp) as (j & Hj & Hspec).
      apply lookup_seq in Hj as [-> _]. exact Hspec.
Qed.

Lemma predict_batch_five_classes_witness :
  (exists predictions,
     predict_batch batch_model (full [2; 2; 2; 3]%nat (1 # 2)) = Ok predictions /\
     length predictions = 2%nat /\
     forall i p, predictions !! i = Some p ->
                 batch_item_spec (model_output batch_model (full [2; 2; 2; 3]%nat (1 # 2))) i p) /\
  predict_batch batch_model (full [0; 2; 2; 3]%nat (1 # 2))
  = Error (ValueError "Unexpected result of `predict_function` (Empty batch_outputs).").
Proof.
  split.
  - apply (predict_batch_five_classes batch_model (full [2; 2; 2; 3]%nat (1 # 2))
             2%nat [2; 2; 3]%nat); reflexivity.
  - apply (predict_batch_five_classes batch_model (full [0; 2; 2; 3]%nat (1 # 2))
             0%nat [2; 2; 3]%nat); reflexivity.
Defined.

(** X6.  A classifier of fewer than five classes: [predict_single] answers
    for a batch, [predict_batch] raises [IndexError] on the same batch,
    because it reads five probabilities from every row. *)
Theorem predict_batch_needs_five_classes (model : Model) (images : ndarray Q)
    (b n d0 d1 d2 d3 : nat) :
  shape images = [S d0; d1; d2; d3] ->
  shape (model_output model images) = [S b; n] ->
  well_shaped (model_output model images) ->
  (0 < n < 5)%nat ->
  (exists p, predict_single model images = Ok p) /\
  predict_batch model images = Error (IndexError "index is out of bounds for axis 0").
Proof.
  intros Hi Hs Hw Hn.
  destruct (np_index_row (model_output model images) (S b) n 0 Hs Hw ltac:(lia))
    as (row & Hrow & Hrs & Hlen).
  destruct (row_prediction row n Hrs Hlen ltac:(lia))
    as (k & q & name & Harg & Hmax & Hq & Hitem & Hname).
  split.
  - unfold predict_single. rewrite Hi. simpl length. cbn [Nat.eqb].
    rewrite (model_predict_rows model images b [n] Hs). cbn [bind].
    rewrite Hrow. cbn [bind]. rewrite Harg. cbn [bind]. rewrite Hq. cbn [bind].
    rewrite Hitem. cbn [bind]. eauto.
  - unfold predict_batch.
    rewrite (model_predict_rows model images b [n] Hs). cbn [bind].
    rewrite Hi. cbn [bind]. simpl seq. cbn [predict_batch_loop].
    unfold predict_batch_item. rewrite Hrow. cbn [bind]. rewrite Harg. cbn [bind].
    rewrite Hq. cbn [bind]. rewrite Hitem. cbn [bind].
    rewrite (class_probabilities_short row n _ ∅ Hrs Hlen).
    + reflexivity.
    + apply List.Forall_forall. intros j Hj. apply in_seq in Hj. simpl in Hj. lia.
    + apply List.Exists_exists. exists n. split; [|lia]. apply in_seq. simpl. lia.
Qed.

Lemma predict_batch_needs_five_classes_witness :
  (exists p, predict_single three_class_model small_image = Ok p) /\
  predict_batch three_class_model small_image
    = Error (IndexError "index is out of bounds for axis 0").
Proof.
  apply (predict_batch_needs_five_classes three_class_model small_image
           0%nat 3%nat 0%nat 2%nat 2%nat 3%nat); try reflexivity. lia.
Defined.

Lemma interpret_explanations_out_of_range (pct c : Z) :
  (c < 0 \/ 4 < c)%Z -> interpret_explanations pct !! c = None.
Proof.
  intros H. unfold interpret_explanations.
  rewrite !lookup_insert_ne by lia. apply lookup_empty.
Qed.

(** X7.  [interpret_prediction_simple] on a class outside 0..4 raises
    nothing and gives the class 0 text; the sentence that asks for a
    double check follows it exactly when the confidence is below 0.7. *)
Theorem interpret_prediction_simple_out_of_range (p : Prediction.t) :
  (Prediction.predicted_class p < 0 \/ 4 < Prediction.predicted_class p)%Z ->
  exists text0,
    interpret_explanations (Qtrunc (Prediction.confidence p * 100)) !! 0%Z = Some text0 /\
    (Prediction.confidence p < 7 # 10 ->
     interpret_prediction_simple p = Ok (text0 +:+ double_check_sentence)) /\
    (7 # 10 <= Prediction.confidence p -> interpret_prediction_simple p = Ok text0).
Proof.
  intros Hrange.
  assert (H0 : exists text0,
             interpret_explanations (Qtrunc (Prediction.confidence p * 100)) !! 0%Z = Some text0)
    by (eexists; unfold interpret_explanations; apply lookup_insert_eq).
  destruct H0 as [text0 H0]. exists text0. split; [exact H0|].
  unfold interpret_prediction_simple, dict_item, dict_get.
  rewrite H0, (interpret_explanations_out_of_range _ _ Hrange). cbn [bind default].
  split; intros Hc.
  - destruct (Qle_bool (7 # 10) (Prediction.confidence p)) eqn:E; [|reflexivity].
    apply Qle_bool_iff in E. lra.
  - apply Qle_bool_iff in Hc. rewrite Hc. reflexivity.
Qed.

Lemma interpret_prediction_simple_out_of_range_witness :
  exists text0,
    interpret_explanations (Qtrunc ((65 # 100) * 100)) !! 0%Z = Some text0 /\
    ((65 # 100) < 7 # 10 ->
     interpret_prediction_simple
       {| Prediction.predicted_class := 9; Prediction.predicted_label := "";
          Prediction.confidence := 65 # 100; Prediction.probabilities := full [] 0 |}
     = Ok (text0 +:+ double_check_sentence)) /\
    (7 # 10 <= (65 # 100) ->
     interpret_prediction_simple
       {| Prediction.predicted_class := 9; Prediction.predicted_label := "";
          Prediction.confidence := 65 # 100; Prediction.probabilities := full [] 0 |}
     = Ok text0).
Proof.
  apply (interpret_prediction_simple_out_of_range
           {| Prediction.predicted_class := 9; Prediction.predicted_label := "";
              Prediction.confidence := 65 # 100; Prediction.probabilities := full [] 0 |}).
  right. simpl. lia.
Defined.

Lemma recommendations_entry (k : Z) (class0 : gmap string string) :
  recommendations !! 0%Z = Some class0 ->
  exists nurse patient urgency,
    dict_get recommendations k class0 = recommendation_entry nurse patient urgency.
Proof.
  unfold dict_get, recommendations. rewrite lookup_insert_eq. intros H. injection H as <-.
  rewrite !lookup_insert. rewrite lookup_empty.
  repeat case_decide; simpl; eauto.
Qed.

(** X8.  Whatever the class and the confidence, [get_recommendation]
    raises nothing and returns exactly the four keys nurse, patient,
    urgency and note; the note is the one of the confidence, and the three
    others are those of the entry of the class. *)
Theorem get_recommendation_keys (predicted_class : Z) (confidence : Q) :
  exists r,
    get_recommendation predicted_class confidence = Ok r /\
    dom r = ({["nurse"; "patient"; "urgency"; "note"]} : gset string) /\
    r !! "note" = Some (confidence_note confidence) /\
    forall entry key,
      recommendations !! predicted_class = Some entry -> key <> "note" ->
      r !! key = entry !! key.
Proof.
  assert (R0 : exists entry0, recommendations !! 0%Z = Some entry0)
    by (eexists; unfold recommendations; apply lookup_insert_eq).
  destruct R0 as [entry0 R0].
  destruct (recommendations_entry predicted_class entry0 R0) as (n & p & u & He).
  unfold get_recommendation, dict_item. rewrite R0. cbn [bind]. rewrite He.
  eexists. split; [reflexivity|]. split; [|split].
  - unfold recommendation_entry. rewrite !dom_insert_L, dom_empty_L. set_solver.
  - apply lookup_insert_eq.
  - intros entry key Hentry Hkey. rewrite lookup_insert_ne by congruence.
    unfold dict_get in He. rewrite Hentry in He. simpl in He. rewrite He. reflexivity.
Qed.

(** X9.  The two readings of a confidence disagree in two bands: from 0.75
    up to 0.85 [get_confidence_level] says High while the note of
    [get_recommendation] says medium confidence, and from 0.6 up to 0.7
    the level is Medium while the note says low confidence. *)
Theorem confidence_level_and_note_disagree (predicted_class : Z) (confidence : Q) :
  (75 # 100 <= confidence -> confidence < 85 # 100 ->
   get_confidence_level confidence = "High" /\
   exists r, get_recommendation predicted_class confidence = Ok r /\
             r !! "note" = Some "Medium confidence - consider additional screening") /\
  (6 # 10 <= confidence -> confidence < 7 # 10 ->
   get_confidence_level confidence = "Medium" /\
   exists r, get_recommendation predicted_class confidence = Ok r /\
             r !! "note" = Some "Low confidence - recommend manual review by specialist").
Proof.
  assert (R0 : exists entry0, recommendations !! 0%Z = Some entry0)
    by (eexists; unfold recommendations; apply lookup_insert_eq).
  destruct R0 as [entry0 R0].
  assert (Hnote : exists r, get_recommendation predicted_class confidence = Ok r /\
                            r !! "note" = Some (confidence_note confidence)).
  { unfold get_recommendation, dict_item. rewrite R0. cbn [bind].
    eexists. split; [reflexivity | apply lookup_insert_eq]. }
  destruct Hnote as (r & Hr & Hnote).
  split; intros Hlo Hhi.
  - split.
    + unfold get_confidence_level.
      destruct (Qle_bool (9 # 10) confidence) eqn:A; [apply Qle_bool_iff in A; lra|].
      apply Qle_bool_iff in Hlo. rewrite Hlo. reflexivity.
    + exists r. split; [exact Hr|]. rewrite Hnote. unfold confidence_note.
      destruct (Qle_bool (7 # 10) confidence) eqn:A;
        [|apply Qle_bool_false in A; lra].
      destruct (Qle_bool (85 # 100) confidence) eqn:B; [apply Qle_bool_iff in B; lra|].
      reflexivity.
  - split.
    + unfold get_confidence_level.
      destruct (Qle_bool (9 # 10) confidence) eqn:A; [apply Qle_bool_iff in A; lra|].
      destruct (Qle_bool (75 # 100) confidence) eqn:B; [apply Qle_bool_iff in B; lra|].
      apply Qle_bool_iff in Hlo. rewrite Hlo. reflexivity.
    + exists r. split; [exact Hr|]. rewrite Hnote. unfold confidence_note.
      destruct (Qle_bool (7 # 10) confidence) eqn:A; [apply Qle_bool_iff in A; lra|].
      reflexivity.
Qed.

Lemma confidence_level_and_note_disagree_witness :
  (get_confidence_level (8 # 10) = "High" /\
   exists r, get_recommendation 2 (8 # 10) = Ok r /\
             r !! "note" = Some "Medium confidence - consider additional screening") /\
  (get_confidence_level (65 # 100) = "Medium" /\
   exists r, get_recommendation 2 (65 # 100) = Ok r /\
             r !! "note" = Some "Low confidence - recommend manual review by specialist").
Proof.
  split.
  - apply (confidence_level_and_note_disagree 2 (8 # 10)); vm_compute; congruence.
  - apply (confidence_level_and_note_disagree 2 (65 # 100)); vm_compute; congruence.
Defined.

(** ** The layer and the shape of the heatmap *)

Lemma find_app_none {A : Type} (f : A -> bool) (l1 l2 : list A) :
  Forall (fun x => f x = false) l1 -> find f (l1 ++ l2) = find f l2.
Proof.
  induction 1 as [|x l Hx _ IH]; simpl; [reflexivity|]. rewrite Hx. exact IH.
Qed.

(** X10.  Without a layer name, [get_gradcam_heatmap] instruments the last
    layer of the classifier whose output has four axes (layer names being
    unique, as Keras has them): the heatmap is made of the activations of
    that layer and of the gradient of the target class with respect to
    them, and the call is the call with the name of that layer given. *)
Theorem last_four_axis_layer_is_instrumented (model : Model) (before after : list Layer)
    (layer : Layer) (image : ndarray Q) (pred_class : option Z) :
  layers model = before ++ layer :: after ->
  length (output_shape layer) = 4%nat ->
  Forall (fun l => length (output_shape l) <> 4%nat) after ->
  NoDup (map layer_name (layers model)) ->
  find_last_conv_layer model None = Some (layer_name layer) /\
  get_layer model (find_last_conv_layer model None) = Ok layer /\
  get_gradcam_heatmap model image pred_class None
  = (c <- target_class (as_tensor (model_output model image)) pred_class ;;
     k <- tf_column (as_tensor (model_output model image)) c ;;
     class_heatmap model image (layer_name layer) k) /\
  get_gradcam_heatmap model image pred_class None
  = get_gradcam_heatmap model image pred_class (Some (layer_name layer)).
Proof.
  intros Hl H4 Hafter Hnodup.
  assert (Hfind : find_last_conv_layer model None = Some (layer_name layer)).
  { unfold find_last_conv_layer. rewrite Hl, rev_app_distr. simpl. rewrite <- app_assoc.
    rewrite find_app_none.
    - simpl. rewrite H4. reflexivity.
    - apply List.Forall_rev. eapply Forall_impl; [exact Hafter|].
      intros l Hne. simpl in Hne. apply Nat.eqb_neq. exact Hne. }
  assert (Hget : get_layer model (Some (layer_name layer)) = Ok layer).
  { unfold get_layer. rewrite Hl. rewrite find_app_none.
    - simpl. rewrite String.eqb_refl. reflexivity.
    - rewrite Hl, map_app in Hnodup. simpl in Hnodup.
      apply NoDup_app in Hnodup as (_ & Hdisj & _).
      apply List.Forall_forall. intros l Hin.
      apply String.eqb_neq. intros Heq.
      apply (Hdisj (layer_name l)).
      + apply list_elem_of_In. apply in_map. exact Hin.
      + rewrite Heq. apply list_elem_of_here. }
  split; [exact Hfind|]. split; [rewrite Hfind; exact Hget|]. split.
  - unfold get_gradcam_heatmap, grad_model_outputs. rewrite Hfind, Hget. cbn [bind].
    destruct (target_class (as_tensor (model_output model image)) pred_class) as [c|e];
      cbn [bind]; [|reflexivity].
    destruct (tf_column (as_tensor (model_output model image)) c) as [k|e];
      cbn [bind]; [|reflexivity].
    unfold class_heatmap.
    destruct (output_gradient model (layer_name layer) image k) as [grads|]; reflexivity.
  - unfold get_gradcam_heatmap, grad_model_outputs. rewrite Hfind. reflexivity.
Qed.

Lemma last_four_axis_layer_is_instrumented_witness :
  find_last_conv_layer two_peak_model None = Some "conv2" /\
  get_layer two_peak_model (find_last_conv_layer two_peak_model None)
    = Ok {| layer_name := "conv2"; output_shape := [None; Some 2; Some 2; Some 1]%nat |} /\
  get_gradcam_heatmap two_peak_model small_image (Some 1%Z) None
  = (c <- target_class (as_tensor (model_output two_peak_model small_image)) (Some 1%Z) ;;
     k <- tf_column (as_tensor (model_output two_peak_model small_image)) c ;;
     class_heatmap two_peak_model small_image "conv2" k) /\
  get_gradcam_heatmap two_peak_model small_image (Some 1%Z) None
  = get_gradcam_heatmap two_peak_model small_image (Some 1%Z) (Some "conv2").
Proof.
  apply (last_four_axis_layer_is_instrumented two_peak_model
           [ {| layer_name := "conv1"; output_shape := [None; Some 2; Some 2; Some 1]%nat |} ]
           [ {| layer_name := "dense"; output_shape := [None; Some 3%nat] |} ]
           {| layer_name := "conv2"; output_shape := [None; Some 2; Some 2; Some 1]%nat |}
           small_image (Some 1%Z)).
  - reflexivity.
  - reflexivity.
  - repeat constructor; simpl; lia.
  - apply (bool_decide_unpack _). vm_compute. exact I.
Defined.

(** X11.  A layer name that no layer of the classifier bears makes
    [get_gradcam_heatmap] raise the [ValueError] of [model.get_layer]; the
    search for a four-axis layer is not tried instead. *)
Theorem unknown_layer_name_error (model : Model) (image : ndarray Q) (pred_class : option Z)
    (name : string) :
  Forall (fun l => layer_name l <> name) (layers model) ->
  get_gradcam_heatmap model image pred_class (Some name)
  = Error (ValueError ("No such layer: " +:+ name)).
Proof.
  intros Hall. unfold get_gradcam_heatmap, grad_model_outputs, find_last_conv_layer, get_layer.
  rewrite find_all_false; [reflexivity|].
  eapply Forall_impl; [exact Hall|]. intros l Hne. simpl in Hne. apply String.eqb_neq. exact Hne.
Qed.

Lemma unknown_layer_name_error_witness :
  get_gradcam_heatmap scenario_model small_image None (Some "block5_conv3")
  = Error (ValueError ("No such layer: " +:+ "block5_conv3")).
Proof.
  apply (unknown_layer_name_error scenario_model small_image None "block5_conv3").
  repeat constructor; simpl; discriminate.
Defined.

Lemma length_flat_map_seq {A : Type} (f : nat -> list A) (n m : nat) :
  (forall i, length (f i) = m) -> length (flat_map f (seq 0 n)) = (n * m)%nat.
Proof.
  intros Hf. rewrite (length_flat_map_const f m) by exact Hf. rewrite length_seq. reflexivity.
Qed.

Lemma weighted_feature_sum_shape (conv_outputs grads : tensor) (b h w c : nat) :
  shape conv_outputs = [S b; h; w; c] -> shape grads = [S b; h; w; c] ->
  exists raw,
    weighted_feature_sum conv_outputs grads = Ok raw /\
    shape raw = filter (fun d => negb (d =? 1)%nat) [h; w] /\
    length (data raw) = (h * w)%nat.
Proof.
  intros Hc Hg.
  unfold weighted_feature_sum, pooled_gradients, tf_reduce_mean_012. rewrite Hg. cbn [bind].
  unfold channel_weighted_sum, tf_index0. rewrite Hc. cbn [bind].
  unfold tf_matmul, tf_newaxis. cbn [shape data rev app].
  cbn [size_of fold_right]. rewrite Nat.eqb_refl. cbn [bind].
  eexists. split; [reflexivity|]. split.
  - unfold tf_squeeze. cbn [shape filter]. cbn [app filter Nat.eqb negb].
    destruct (negb (h =? 1)%nat), (negb (w =? 1)%nat); reflexivity.
  - unfold tf_squeeze. cbn [data].
    rewrite (length_flat_map_seq _ _ 1%nat) by (intros; reflexivity). lia.
Qed.

(** X12.  For a feature map of [h] by [w] pixels, [get_gradcam_heatmap]
    returns [h * w] values; the shape is [h] by [w] when both exceed one,
    and every axis of size one is dropped: a feature map of a single pixel
    gives a scalar. *)
Theorem gradcam_heatmap_shape (model : Model) (image : ndarray Q) (pred_class : option Z)
    (name : option string) (conv_outputs grads : tensor) (b h w c : nat) :
  grad_model_outputs model image pred_class name = Ok (conv_outputs, grads) ->
  shape conv_outputs = [S b; h; w; c] -> shape grads = [S b; h; w; c] ->
  exists heatmap,
    get_gradcam_heatmap model image pred_class name = Ok heatmap /\
    length (data heatmap) = (h * w)%nat /\
    shape heatmap = filter (fun d => negb (d =? 1)%nat) [h; w] /\
    ((1 < h)%nat -> (1 < w)%nat -> shape heatmap = [h; w]) /\
    (h = 1%nat -> w = 1%nat -> shape heatmap = []).
Proof.
  intros Hout Hc Hg.
  destruct (weighted_feature_sum_shape conv_outputs grads b h w c Hc Hg) as (raw & Hraw & Hs & Hlen).
  exists (normalize_heatmap raw). split.
  { unfold get_gradcam_heatmap. rewrite Hout. cbn [bind]. rewrite Hraw. reflexivity. }
  unfold normalize_heatmap, tf_div, tf_maximum. cbn [shape data].
  split; [rewrite !length_map; exact Hlen|]. split; [exact Hs|]. split.
  - intros Hh Hw. rewrite Hs. cbn [filter list_filter].
    destruct (Nat.eqb_spec h 1); [lia|]. destruct (Nat.eqb_spec w 1); [lia|]. reflexivity.
  - intros -> ->. rewrite Hs. reflexivity.
Qed.

Lemma gradcam_heatmap_shape_witness :
  exists heatmap,
    get_gradcam_heatmap tiny_model small_image None None = Ok heatmap /\
    length (data heatmap) = (2 * 2)%nat /\
    shape heatmap = filter (fun d => negb (d =? 1)%nat) [2; 2]%nat /\
    ((1 < 2)%nat -> (1 < 2)%nat -> shape heatmap = [2; 2]%nat) /\
    (2%nat = 1%nat -> 2%nat = 1%nat -> shape heatmap = []).
Proof.
  apply (gradcam_heatmap_shape tiny_model small_image None None
           (as_tensor {| shape := [1; 2; 2; 1]%nat; data := [1; 2; 3; 4] |})
           (as_tensor (full [1; 2; 2; 1]%nat 1)) 0%nat 2%nat 2%nat 1%nat); reflexivity.
Defined.

(** ** More on the overlay *)

Section OverlayRange.

Variable cv2_resize : resize_fn.
Hypothesis cv2_resize_ok : resize_contract cv2_resize.

Lemma byte_over_255 (z : Z) : (0 <= z <= 255)%Z -> 0 <= inject_Z z / 255 /\ inject_Z z / 255 <= 1.
Proof.
  intros [Hlo Hhi].
  assert (H0 : 0 <= inject_Z z) by (unfold Qle; simpl; lia).
  assert (H1 : inject_Z z <= 255) by (unfold Qle; simpl; lia).
  split; [apply Qle_shift_div_l | apply Qle_shift_div_r]; lra.
Qed.

Lemma colormap_rendering_range (resized rendering : ndarray Q) (colormap : colormap_table) :
  byte_table colormap ->
  colormap_rendering resized colormap = Ok rendering ->
  pixel_range 0 1 rendering.
Proof.
  intros Hbytes. unfold colormap_rendering, cv2_applyColorMap. simpl.
  destruct (shape resized) as [|h [|w [|]]]; try discriminate. cbn [bind].
  unfold cv2_cvtColor_BGR2RGB. cbn [shape data bind].
  intros H. injection H as <-. unfold pixel_range. cbn [data np_div].
  rewrite swap_channels_triples. apply List.Forall_map.
  induction (map (fun x => inject_Z (Qtrunc x mod 256)) (map (fun x => 255 * x) (data resized)))
    as [|v l IH]; simpl; [constructor|].
  pose proof (Hbytes (Qtrunc v)) as Hv.
  destruct (colormap (Qtrunc v)) as [[b g] r]. destruct Hv as (Hb & Hg & Hr). simpl.
  repeat (constructor; [apply byte_over_255; assumption|]). exact IH.
Qed.

Lemma normalized_image_range (img normalized : ndarray Q) :
  pixel_range 0 255 img ->
  normalized_image img = Ok normalized ->
  pixel_range 0 1 normalized.
Proof.
  intros Hrange. unfold normalized_image.
  destruct (np_max img) as [m|e] eqn:Hm; [|discriminate]. cbn [bind].
  intros H. injection H as <-.
  destruct (Qle_bool m 1) eqn:Hle; simpl.
  - apply Qle_bool_iff in Hle.
    destruct (np_max_ok img) as (m' & Hm' & _ & Hall).
    { intros E. unfold np_max in Hm. rewrite E in Hm. discriminate. }
    rewrite Hm in Hm'. injection Hm' as <-.
    unfold pixel_range in *. rewrite List.Forall_forall in *.
    intros x Hx. destruct (Hrange x Hx). specialize (Hall x Hx). split; lra.
  - unfold pixel_range in *. cbn [data np_div]. apply List.Forall_map.
    eapply Forall_impl; [exact Hrange|]. simpl. intros x [Hlo Hhi].
    split; [apply Qle_shift_div_l | apply Qle_shift_div_r]; lra.
Qed.

Lemma blend_range (alpha : Q) (l1 l2 : list Q) :
  0 <= alpha -> alpha <= 1 ->
  Forall (fun x => 0 <= x /\ x <= 1) l1 -> Forall (fun x => 0 <= x /\ x <= 1) l2 ->
  Forall (fun x => 0 <= x /\ x <= 1)
         (zip_with Qplus (map (fun x => x * alpha) l1) (map (fun x => x * (1 - alpha)) l2)).
Proof.
  intros Ha0 Ha1 H1. revert l2. induction H1 as [|c l1 [Hc0 Hc1] _ IH]; intros l2 H2; simpl.
  - constructor.
  - destruct H2 as [|i l2 [Hi0 Hi1] H2]; simpl; constructor.
    + assert (0 <= c * alpha) by (apply Qmult_le_0_compat; assumption).
      assert (0 <= i * (1 - alpha)) by (apply Qmult_le_0_compat; lra).
      assert (c * alpha <= 1 * alpha) by (apply Qmult_le_compat_r; assumption).
      assert (i * (1 - alpha) <= 1 * (1 - alpha)) by (apply Qmult_le_compat_r; lra).
      split; lra.
    + apply IH. exact H2.
Qed.

(** X13.  For an RGB image with values from 0 to 255, a transparency from
    0 to 1 and a colormap of bytes, every value of the overlay lies
    between 0 and 1. *)
Theorem overlay_values_in_unit_interval (h : heap) (image heatmap : ref) (img hm : ndarray Q)
    (alpha : Q) (colormap : colormap_table) (height width : nat) :
  h !! image = Some img -> h !! heatmap = Some hm ->
  rgb_image img height width -> heatmap_2d hm ->
  pixel_range 0 255 img -> byte_table colormap ->
  0 <= alpha -> alpha <= 1 ->
  exists out,
    returned (overlay_heatmap cv2_resize image heatmap alpha colormap h) = Ok out /\
    pixel_range 0 1 out.
Proof.
  intros Himg Hhm Hrgb H2d Hrange Hbytes Ha0 Ha1.
  destruct (overlay_value_rgb cv2_resize cv2_resize_ok img hm alpha colormap height width Hrgb H2d)
    as (rz & cmr & nimg & out & _ & Hcr & Hn & Hout & _ & _ & _ & _ & Hdata).
  exists out. rewrite (overlay_heatmap_value cv2_resize h image heatmap img hm) by assumption.
  split; [exact Hout|]. unfold pixel_range. rewrite Hdata.
  apply blend_range; try assumption.
  - apply (colormap_rendering_range rz cmr colormap Hbytes Hcr).
  - apply (normalized_image_range img nimg Hrange Hn).
Qed.

Lemma broadcast_gray_fails (height width : nat) :
  width <> 1%nat -> width <> 3%nat ->
  np_broadcast_shapes [height; width; 3%nat] [height; width] = None.
Proof.
  intros H1 H3. unfold np_broadcast_shapes, pad_shape. cbn [length Nat.max Nat.sub replicate app].
  destruct width as [|[|[|[|width]]]]; try congruence; reflexivity.
Qed.

(** X15.  A single-channel image of [h] rows and [w] columns, [w] neither
    1 nor 3, makes [overlay_heatmap] raise the [ValueError] of the
    blending: the rendering has three channels and the image does not
    broadcast against it. *)
Theorem overlay_gray_image_error (h : heap) (image heatmap : ref) (img hm : ndarray Q)
    (alpha : Q) (colormap : colormap_table) (height width : nat) :
  h !! image = Some img -> h !! heatmap = Some hm ->
  shape img = [height; width] -> well_shaped img ->
  (0 < height)%nat -> (0 < width)%nat -> width <> 1%nat -> width <> 3%nat ->
  heatmap_2d hm ->
  returned (overlay_heatmap cv2_resize image heatmap alpha colormap h)
  = Error (ValueError "operands could not be broadcast together").
Proof.
  intros Himg Hhm Hs Hw Hh Hwd Hw1 Hw3 (sh & sw & Hhs & Hhw & Hsh & Hsw).
  rewrite (overlay_heatmap_value cv2_resize h image heatmap img hm) by assumption.
  destruct (cv2_resize_ok hm width height sh sw Hhs Hhw Hsh Hsw Hwd Hh) as (rz & Hrz & Hrs & Hrw).
  destruct (colormap_rendering_rgb rz colormap height width Hrs Hrw) as (cmr & Hcr & Hcs & _).
  destruct (np_max_ok img) as (m & Hm & _).
  { intros E. unfold well_shaped in Hw. rewrite Hs, E in Hw. simpl in Hw. nia. }
  unfold overlay_value, tuple_index. rewrite Hs. simpl. rewrite Hrz. cbn [bind].
  rewrite Hcr. cbn [bind]. unfold normalized_image. rewrite Hm. cbn [bind].
  unfold np_add. cbn [shape np_mul].
  replace (shape (if negb (Qle_bool m 1) then np_div img 255 else img)) with [height; width]
    by (destruct (negb (Qle_bool m 1)); simpl; congruence).
  rewrite Hcs, (broadcast_gray_fails height width Hw1 Hw3). reflexivity.
Qed.

End OverlayRange.

(** X14.  An image with fewer than two axes makes [overlay_heatmap] raise
    [IndexError] before anything is computed: no array is created. *)
Theorem overlay_flat_image_error (cv2_resize : resize_fn) (h : heap) (image heatmap : ref)
    (img : ndarray Q) (alpha : Q) (colormap : colormap_table) :
  h !! image = Some img -> (length (shape img) < 2)%nat ->
  overlay_heatmap cv2_resize image heatmap alpha colormap h
  = (Error (IndexError "tuple index out of range"), h).
Proof.
  intros Himg Hlen. unfold overlay_heatmap.
  rewrite (deref_step image img) by exact Himg. rewrite lift_step.
  destruct (shape img) as [|d [|d' s]]; simpl in Hlen; try lia; reflexivity.
Qed.

(** ** The confidence chart *)

Lemma py_max_from_spec (l : list Q) (best : Q) :
  In (py_max_from best l) (best :: l) /\
  Forall (fun y => y <= py_max_from best l) (best :: l).
Proof.
  revert best. induction l as [|x l IH]; intros best; simpl.
  - split; [auto|]. constructor; [apply Qle_refl | constructor].
  - destruct (Qle_bool x best) eqn:Hx; simpl.
    + apply Qle_bool_iff in Hx. destruct (IH best) as [Hin Hall].
      inversion Hall as [|? ? Hb Hl]; subst.
      split; [destruct Hin; auto|].
      constructor; [exact Hb|]. constructor; [lra | exact Hl].
    + apply Qle_bool_false in Hx. destruct (IH x) as [Hin Hall].
      inversion Hall as [|? ? Hb Hl]; subst.
      split; [destruct Hin; auto|].
      constructor; [lra|]. constructor; [exact Hb | exact Hl].
Qed.

Lemma comprehension_total {A B : Type} (f : A -> B) (l : list A) :
  comprehension (fun a => Ok (f a)) l = Ok (map f l).
Proof.
  induction l as [|a l IH]; simpl; [reflexivity|]. rewrite IH. reflexivity.
Qed.

(** X16.  For probabilities given as a sequence that is not empty, the
    chart has one colour per probability; a bar is green exactly when no
    probability exceeds its own, so the bar of the class that the first
    maximum picks is green, as is every bar that ties with it. *)
Theorem chart_colors_mark_maximum (probs : list Q) (class_names : list string) :
  probs <> [] ->
  exists colors,
    chart_colors (inr probs) class_names = Ok colors /\
    length colors = length probs /\
    (forall i p, probs !! i = Some p ->
       (Forall (fun q => q <= p) probs -> colors !! i = Some "green") /\
       (Exists (fun q => p < q) probs -> colors !! i = Some "lightblue")) /\
    (forall k q, first_max probs k q -> colors !! k = Some "green").
Proof.
  intros Hne. unfold chart_colors, chart_percentages. cbn [bind].
  destruct probs as [|x l] eqn:E; [congruence|]. rewrite <- E in *. clear Hne.
  set (pct := map (fun p => p * 100) probs).
  assert (Hm : exists m, py_max pct = Ok m /\ In m pct /\ Forall (fun y => y <= m) pct).
  { unfold pct. rewrite E. simpl. eexists. split; [reflexivity|].
    apply (py_max_from_spec (map (fun p => p * 100) l) (x * 100)). }
  destruct Hm as (m & Hm & Hin & Hall). rewrite Hm. cbn [bind].
  rewrite comprehension_total. eexists. split; [reflexivity|].
  assert (Hgreen : forall i p, probs !! i = Some p -> Forall (fun q => q <= p) probs ->
            map (fun p0 => if Qeq_bool p0 m then "green" else "lightblue") pct !! i = Some "green").
  { intros i p Hp Hmax. unfold pct.
    change (map (fun p0 => if Qeq_bool p0 m then "green" else "lightblue")
                (map (fun p0 => p0 * 100) probs))
      with ((fun p0 => if Qeq_bool p0 m then "green" else "lightblue") <$>
            ((fun p0 => p0 * 100) <$> probs)).
    rewrite !list_lookup_fmap, Hp.
    change (Some (if Qeq_bool (p * 100) m then "green" else "lightblue") = Some "green").
    assert (Heq : p * 100 == m).
    { apply Qle_antisym.
      - rewrite List.Forall_forall in Hall. apply Hall. unfold pct.
        apply in_map_iff. exists p. split; [reflexivity|].
        apply list_elem_of_In. apply list_elem_of_lookup. eauto.
      - unfold pct in Hin. apply in_map_iff in Hin as (q & <- & Hq).
        rewrite List.Forall_forall in Hmax. specialize (Hmax q Hq). lra. }
    apply Qeq_bool_iff in Heq. rewrite Heq. reflexivity. }
  split; [unfold pct; rewrite !length_map; reflexivity|]. split.
  - intros i p Hp. split; [apply Hgreen; exact Hp|].
    intros Hex. apply List.Exists_exists in Hex as (q & Hq & Hlt).
    change (map (fun p0 => if Qeq_bool p0 m then "green" else "lightblue") pct)
      with ((fun p0 => if Qeq_bool p0 m then "green" else "lightblue") <$>
            ((fun p0 => p0 * 100) <$> probs)).
    rewrite !list_lookup_fmap, Hp.
    change (Some (if Qeq_bool (p * 100) m then "green" else "lightblue") = Some "lightblue").
    destruct (Qeq_bool (p * 100) m) eqn:Heq; [|reflexivity].
    apply Qeq_bool_iff in Heq.
    rewrite List.Forall_forall in Hall.
    assert (q * 100 <= m) by (apply Hall; unfold pct; apply in_map_iff; eauto).
    lra.
  - intros k q [Hk Hmax]. apply (Hgreen k q Hk).
    apply List.Forall_forall. intros y Hy.
    apply list_elem_of_In, list_elem_of_lookup in Hy as [j Hj].
    apply (Hmax j y Hj).
Qed.

Lemma chart_colors_mark_maximum_witness :
  exists colors,
    chart_colors (inr [1 # 10; 4 # 10; 4 # 10; 1 # 10]) CLASS_NAMES = Ok colors /\
    length colors = length [1 # 10; 4 # 10; 4 # 10; 1 # 10] /\
    (forall i p, [1 # 10; 4 # 10; 4 # 10; 1 # 10] !! i = Some p ->
       (Forall (fun q => q <= p) [1 # 10; 4 # 10; 4 # 10; 1 # 10] -> colors !! i = Some "green") /\
       (Exists (fun q => p < q) [1 # 10; 4 # 10; 4 # 10; 1 # 10] -> colors !! i = Some "lightblue")) /\
    (forall k q, first_max [1 # 10; 4 # 10; 4 # 10; 1 # 10] k q -> colors !! k = Some "green").
Proof.
  apply (chart_colors_mark_maximum [1 # 10; 4 # 10; 4 # 10; 1 # 10] CLASS_NAMES). discriminate.
Defined.

(** ** Images and patients *)

Lemma string_length_app (s t : string) :
  String.length (s +:+ t) = (String.length s + String.length t)%nat.
Proof.
  induction s as [|c s IH]; simpl; [reflexivity|]. rewrite IH. reflexivity.
Qed.

Lemma substring_app_skip (s t : string) (n : nat) :
  String.substring (String.length s) n (s +:+ t) = String.substring 0 n t.
Proof.
  induction s as [|c s IH]; simpl; [reflexivity | exact IH].
Qed.

Lemma ends_with_app (s suffix : string) : ends_with (s +:+ suffix) suffix = true.
Proof.
  unfold ends_with. rewrite string_length_app.
  replace (String.length s + String.length suffix - String.length suffix)%nat
    with (String.length s) by lia.
  rewrite substring_app_skip.
  apply andb_true_intro. split; [apply Nat.leb_le; lia|].
  apply String.eqb_eq. clear s.
  induction suffix as [|c t IH]; simpl; [reflexivity|]. rewrite IH. reflexivity.
Qed.

Lemma prefix_empty (s : string) : String.prefix "" s = true.
Proof. destruct s; reflexivity. Qed.

Lemma append_cons (c : Ascii.ascii) (s t : string) :
  String c s +:+ t = String c (s +:+ t).
Proof. reflexivity. Qed.

(** What follows a name that is not empty adds its length to the path. *)
Lemma os_path_join_length (a b t : string) :
  b <> EmptyString ->
  String.length (os_path_join a (b +:+ t))
  = (String.length (os_path_join a b) + String.length t)%nat.
Proof.
  intros Hb. destruct b as [|c b]; [congruence|].
  unfold os_path_join, starts_with. rewrite append_cons. cbn [String.prefix].
  rewrite !prefix_empty.
  destruct (Ascii.ascii_dec _ c).
  - cbn [String.length]. rewrite string_length_app. reflexivity.
  - destruct (String.eqb a "" || ends_with a "/");
      rewrite <- ?append_cons, !string_length_app; lia.
Qed.

(** X17.  An image id and the same id followed by [.png] name the same
    file exactly when the id does not end in [.png] already; [load_image]
    then gives the same result for both, and for the id with the suffix
    whether a suffix is asked for or not. *)
Theorem load_image_png_suffix (files : Files) (image_id image_dir : string)
    (target_size : nat * nat) :
  (image_file (image_id +:+ ".png") image_dir true = image_file image_id image_dir true
   <-> ends_with image_id ".png" = false) /\
  (ends_with image_id ".png" = false ->
   load_image files (image_id +:+ ".png") image_dir target_size true
     = load_image files image_id image_dir target_size true /\
   load_image files (image_id +:+ ".png") image_dir target_size false
     = load_image files image_id image_dir target_size true).
Proof.
  assert (H1 : ends_with image_id ".png" = false ->
               image_file (image_id +:+ ".png") image_dir true
               = image_file image_id image_dir true).
  { intros Hno. unfold image_file. rewrite ends_with_app, Hno. reflexivity. }
  split; [split; [|exact H1]|].
  - intros Hsame. destruct (ends_with image_id ".png") eqn:Hends; [|reflexivity].
    exfalso. unfold image_file in Hsame. rewrite ends_with_app, Hends in Hsame.
    cbn [andb negb] in Hsame.
    assert (Hne : image_id <> EmptyString).
    { intros ->. vm_compute in Hends. discriminate. }
    apply (f_equal String.length) in Hsame.
    rewrite (os_path_join_length image_dir image_id ".png" Hne) in Hsame.
    simpl in Hsame. lia.
  - intros Hno. unfold load_image. rewrite (H1 Hno).
    assert (H2 : image_file (image_id +:+ ".png") image_dir false
                 = image_file image_id image_dir true).
    { unfold image_file. rewrite Hno. reflexivity. }
    rewrite H2. split; reflexivity.
Qed.

Lemma load_batch_loop_found (files : Files) (image_ids : list string) (image_dir : string)
    (target_size : nat * nat) :
  (forall path, path_exists files path = true ->
                exists image, read_rgb files path target_size = Some image) ->
  load_batch_loop files image_ids image_dir target_size
  = Loaded (map (loaded_image files image_dir target_size)
                (found_ids files image_dir image_ids)).
Proof.
  intros Hread. induction image_ids as [|image_id rest IH]; simpl; [reflexivity|].
  unfold load_image, found_ids. simpl.
  destruct (path_exists files (image_file image_id image_dir true)) eqn:Hex; simpl.
  - destruct (Hread _ Hex) as [image Himage]. rewrite Himage, IH.
    unfold loaded_image at 2. rewrite Himage. reflexivity.
  - exact IH.
Qed.

(** X18.  When every file that is there is a readable image,
    [load_batch_images] returns the images of the ids whose file exists,
    in the order of the ids, and leaves the others out without an error:
    the batch has as many rows as files were found, and when none was
    found it is an empty vector, not an empty batch of images. *)
Theorem load_batch_images_skips_missing (files : Files) (image_ids : list string)
    (image_dir : string) (width height : nat) :
  (forall path, path_exists files path = true ->
                exists image, read_rgb files path (width, height) = Some image /\
                              shape image = [height; width; 3%nat]) ->
  let found := found_ids files image_dir image_ids in
  exists batch,
    load_batch_images files image_ids image_dir (width, height) = Loaded (Ok batch) /\
    data batch = flat_map (fun image_id => data (loaded_image files image_dir (width, height) image_id))
                          found /\
    (length found <= length image_ids)%nat /\
    (found = [] -> shape batch = [0%nat]) /\
    (found <> [] -> shape batch = [length found; height; width; 3%nat]).
Proof.
  intros Hread found. unfold load_batch_images.
  rewrite load_batch_loop_found
    by (intros path Hp; destruct (Hread path Hp) as (image & Hi & _); eauto).
  fold found.
  assert (Hshape : forall image_id, In image_id found ->
            shape (loaded_image files image_dir (width, height) image_id)
            = [height; width; 3%nat]).
  { intros image_id Hin. unfold found, found_ids in Hin. apply filter_In in Hin as [_ Hex].
    destruct (Hread _ Hex) as (image & Hi & Hs). unfold loaded_image. rewrite Hi. exact Hs. }
  assert (Hlen : (length found <= length image_ids)%nat).
  { unfold found, found_ids. clear. induction image_ids as [|a l IH]; simpl; [lia|].
    destruct (path_exists files (image_file a image_dir true)); simpl; lia. }
  destruct found as [|first rest] eqn:E.
  - simpl. eexists. split; [reflexivity|]. simpl. repeat split; auto. congruence.
  - unfold np_stack. cbn [map].
    assert (Hall : forallb (fun a => bool_decide
                      (shape a = shape (loaded_image files image_dir (width, height) first)))
                     (loaded_image files image_dir (width, height) first
                      :: map (loaded_image files image_dir (width, height)) rest) = true).
    { apply forallb_forall. intros a Ha. apply bool_decide_eq_true.
      change (In a (map (loaded_image files image_dir (width, height)) (first :: rest))) in Ha.
      apply in_map_iff in Ha as (image_id & <- & Hin).
      rewrite (Hshape image_id Hin), (Hshape first); [reflexivity | left; reflexivity]. }
    rewrite Hall. eexists. split; [reflexivity|]. cbn [data shape].
    split; [rewrite List.flat_map_concat_map, List.flat_map_concat_map; simpl;
            rewrite List.map_map; reflexivity|].
    split; [exact Hlen|]. split; [discriminate|]. intros _.
    rewrite (Hshape first) by (left; reflexivity). simpl. rewrite length_map. reflexivity.
Qed.

(** X19.  Only a missing file is skipped: a file that is there but is no
    readable image ends [load_batch_images] with the error of the image
    library, whatever comes after it. *)
Theorem load_batch_images_unreadable (files : Files) (before after : list string)
    (image_id image_dir : string) (target_size : nat * nat) :
  Forall (fun i => path_exists files (image_file i image_dir true) = true ->
                   exists image, read_rgb files (image_file i image_dir true) target_size
                                 = Some image) before ->
  path_exists files (image_file image_id image_dir true) = true ->
  read_rgb files (image_file image_id image_dir true) target_size = None ->
  load_batch_images files (before ++ image_id :: after) image_dir target_size
  = LoadError (UnidentifiedImageError (image_file image_id image_dir true)).
Proof.
  intros Hbefore Hex Hread. unfold load_batch_images.
  assert (Hloop : load_batch_loop files (before ++ image_id :: after) image_dir target_size
                  = LoadError (UnidentifiedImageError (image_file image_id image_dir true))).
  { induction Hbefore as [|i before Hi _ IH]; simpl.
    - unfold load_image. rewrite Hex, Hread. reflexivity.
    - unfold load_image at 1.
      destruct (path_exists files (image_file i image_dir true)) eqn:Hp; simpl.
      + destruct (Hi eq_refl) as [image Himage]. rewrite Himage, IH. reflexivity.
      + exact IH. }
  rewrite Hloop. reflexivity.
Qed.

Lemma filter_first_match {A : Type} (f : A -> bool) (before after : list A) (x : A) :
  Forall (fun y => f y = false) before -> f x = true ->
  List.filter f (before ++ x :: after) = x :: List.filter f after.
Proof.
  intros Hb Hx. induction Hb as [|y before Hy _ IH]; simpl.
  - rewrite Hx. reflexivity.
  - rewrite Hy. exact IH.
Qed.

Lemma filter_nil_iff {A : Type} (f : A -> bool) (l : list A) :
  List.filter f l = [] <-> Forall (fun y => f y = false) l.
Proof.
  induction l as [|y l IH]; simpl.
  - split; [constructor | reflexivity].
  - destruct (f y) eqn:Hy.
    + split; [discriminate|]. intros H. inversion H; congruence.
    + rewrite IH. split; [intros H; constructor; assumption | intros H; inversion H; assumption].
Qed.

(** X20.  [get_patient_info] returns [None] exactly when no row of the
    table bears the id (with every [.png] taken out of it). *)
Theorem get_patient_info_none (patient_id : string) (df : list Row.t) :
  get_patient_info patient_id df = Ok None <->
  Forall (fun r => Row.id_code r <> str_remove ".png" 0 patient_id) df.
Proof.
  unfold get_patient_info.
  set (clean := str_remove ".png" 0 patient_id).
  assert (Hiff : List.filter (fun r => String.eqb (Row.id_code r) clean) df = [] <->
                 Forall (fun r => Row.id_code r <> clean) df).
  { rewrite filter_nil_iff. split; intros H; (eapply Forall_impl; [exact H|]); simpl;
      intros r Hr; apply String.eqb_neq; exact Hr. }
  destruct (List.filter (fun r => String.eqb (Row.id_code r) clean) df) as [|row rest] eqn:E.
  - split; [intros _; apply Hiff; reflexivity | reflexivity].
  - split.
    + destruct (dict_item DIAGNOSIS_LABELS (Row.diagnosis row)); [|discriminate]. cbn [bind].
      destruct (dict_item DIAGNOSIS_DESCRIPTIONS (Row.diagnosis row)); discriminate.
    + intros H. apply Hiff in H. discriminate.
Qed.

Lemma diagnosis_tables (d : Z) :
  (0 <= d <= 4)%Z ->
  exists label description,
    DIAGNOSIS_LABELS !! d = Some label /\
    DIAGNOSIS_DESCRIPTIONS !! d = Some description /\
    CLASS_NAMES !! Z.to_nat d = Some label.
Proof.
  intros Hd.
  assert (Hc : (d = 0 \/ d = 1 \/ d = 2 \/ d = 3 \/ d = 4)%Z) by lia.
  destruct Hc as [->|[->|[->|[->| ->]]]]; eexists; eexists;
    (split; [reflexivity|]; split; reflexivity).
Qed.

Lemma diagnosis_labels_out_of_range (d : Z) :
  (d < 0 \/ 4 < d)%Z -> DIAGNOSIS_LABELS !! d = None.
Proof.
  intros H. unfold DIAGNOSIS_LABELS. rewrite !lookup_insert_ne by lia. apply lookup_empty.
Qed.

(** X21.  When several rows bear the id, [get_patient_info] answers from
    the first.  Its diagnosis, if within 0..4, comes back with the label
    and the description of the tables, the label being the one
    [predict_single] uses for that class; a diagnosis outside 0..4 raises
    [KeyError]. *)
Theorem get_patient_info_first_match (patient_id : string) (before after : list Row.t)
    (row : Row.t) :
  Forall (fun r => Row.id_code r <> str_remove ".png" 0 patient_id) before ->
  Row.id_code row = str_remove ".png" 0 patient_id ->
  ((0 <= Row.diagnosis row <= 4)%Z ->
   exists info,
     get_patient_info patient_id (before ++ row :: after) = Ok (Some info) /\
     PatientInfo.id info = Row.id_code row /\
     PatientInfo.age info = Row.age row /\
     PatientInfo.gender info = Row.gender row /\
     PatientInfo.diagnosis info = Row.diagnosis row /\
     DIAGNOSIS_LABELS !! Row.diagnosis row = Some (PatientInfo.diagnosis_label info) /\
     DIAGNOSIS_DESCRIPTIONS !! Row.diagnosis row
       = Some (PatientInfo.diagnosis_description info) /\
     CLASS_NAMES !! Z.to_nat (Row.diagnosis row) = Some (PatientInfo.diagnosis_label info)) /\
  ((Row.diagnosis row < 0 \/ 4 < Row.diagnosis row)%Z ->
   get_patient_info patient_id (before ++ row :: after)
   = Error (KeyError (pretty (Row.diagnosis row)))).
Proof.
  intros Hbefore Hid. unfold get_patient_info.
  rewrite filter_first_match.
  - split.
    + intros Hd. destruct (diagnosis_tables _ Hd) as (label & description & Hl & Hdesc & Hc).
      unfold dict_item. rewrite Hl, Hdesc. cbn [bind].
      eexists. split; [reflexivity|]. simpl. auto 10.
    + intros Hd. unfold dict_item. rewrite (diagnosis_labels_out_of_range _ Hd). reflexivity.
  - eapply Forall_impl; [exact Hbefore|]. simpl. intros r Hr. apply String.eqb_neq. exact Hr.
  - apply String.eqb_eq. exact Hid.
Qed.

Lemma prefix_png_app (s t : string) :
  String.prefix ".png" s = true ->
  (4 <= String.length s)%nat /\ String.prefix ".png" (s +:+ t) = true.
Proof.
  destruct s as [|c1 [|c2 [|c3 [|c4 s]]]]; rewrite ?append_cons;
    cbn [String.prefix String.length];
    repeat match goal with
           | |- context [Ascii.ascii_dec ?a ?b] => destruct (Ascii.ascii_dec a b)
           end; try discriminate.
  intros _. split; [simpl; lia | apply prefix_empty].
Qed.

Lemma prefix_png_not_straddling (s : string) :
  s <> EmptyString -> String.prefix ".png" s = false ->
  String.prefix ".png" (s +:+ ".png") = false.
Proof.
  destruct s as [|c1 [|c2 [|c3 [|c4 s]]]]; rewrite ?append_cons;
    change ("" +:+ ".png") with ".png";
    cbn [String.prefix]; try congruence; intros _;
    repeat match goal with
           | |- context [Ascii.ascii_dec ?a ?b] => destruct (Ascii.ascii_dec a b)
           end; subst; rewrite ?prefix_empty; try reflexivity; try discriminate; try congruence.
Qed.

(** Dropping [.png] from a string that ends with it is dropping it from
    what comes before. *)
Lemma str_remove_png_app (s : string) (skip : nat) :
  (skip <= String.length s)%nat ->
  str_remove ".png" skip (s +:+ ".png") = str_remove ".png" skip s.
Proof.
  revert skip. induction s as [|c s IH]; intros skip Hskip.
  - simpl in Hskip. replace skip with 0%nat by lia. reflexivity.
  - destruct skip as [|k].
    + rewrite ?append_cons; cbn [str_remove].
      destruct (String.prefix ".png" (String c s)) eqn:Hp.
      * destruct (prefix_png_app (String c s) ".png" Hp) as [Hlen Hp'].
        change (String c s +:+ ".png") with (String c (s +:+ ".png")) in Hp'.
        rewrite Hp'. apply IH. simpl in *. lia.
      * pose proof (prefix_png_not_straddling (String c s) ltac:(discriminate) Hp) as Hp'.
        change (String c s +:+ ".png") with (String c (s +:+ ".png")) in Hp'.
        rewrite Hp'. rewrite IH by lia. reflexivity.
    + rewrite ?append_cons; cbn [str_remove]. apply IH. simpl in Hskip. lia.
Qed.

(** X22.  A patient id and the same id followed by [.png] find the same
    patient. *)
Theorem get_patient_info_png_suffix (patient_id : string) (df : list Row.t) :
  get_patient_info (patient_id +:+ ".png") df = get_patient_info patient_id df.
Proof.
  unfold get_patient_info. rewrite str_remove_png_app by lia. reflexivity.
Qed.

Lemma byte_ramp_bytes : byte_table byte_ramp.
Proof.
  intros v. unfold byte_ramp. simpl. lia.
Qed.

Lemma overlay_values_in_unit_interval_witness :
  exists out,
    returned (overlay_heatmap nearest_resize 0%nat 1%nat (4 # 10) byte_ramp pixel_store) = Ok out /\
    pixel_range 0 1 out.
Proof.
  apply (overlay_values_in_unit_interval nearest_resize nearest_resize_contract pixel_store
           0%nat 1%nat bright_pixel cold_heatmap (4 # 10) byte_ramp 1%nat 1%nat).
  - reflexivity.
  - reflexivity.
  - exact bright_pixel_rgb.
  - exact cold_heatmap_2d.
  - unfold pixel_range. simpl. repeat constructor; vm_compute; discriminate.
  - exact byte_ramp_bytes.
  - vm_compute. discriminate.
  - vm_compute. discriminate.
Defined.

Lemma overlay_flat_image_error_witness :
  overlay_heatmap nearest_resize 0%nat 1%nat (4 # 10) byte_ramp [flat_image; cold_heatmap]
  = (Error (IndexError "tuple index out of range"), [flat_image; cold_heatmap]).
Proof.
  apply (overlay_flat_image_error nearest_resize [flat_image; cold_heatmap] 0%nat 1%nat
           flat_image (4 # 10) byte_ramp).
  - reflexivity.
  - simpl. lia.
Defined.

Lemma overlay_gray_image_error_witness :
  returned (overlay_heatmap nearest_resize 0%nat 1%nat (4 # 10) byte_ramp
              [gray_image; cold_heatmap])
  = Error (ValueError "operands could not be broadcast together").
Proof.
  apply (overlay_gray_image_error nearest_resize nearest_resize_contract
           [gray_image; cold_heatmap] 0%nat 1%nat gray_image cold_heatmap (4 # 10) byte_ramp
           2%nat 2%nat); try reflexivity; try lia.
  exact cold_heatmap_2d.
Defined.

Lemma load_image_png_suffix_witness :
  image_file ("a" +:+ ".png") "img" true = image_file "a" "img" true /\
  load_image two_files ("a" +:+ ".png") "img" (320%nat, 320%nat) true
    = load_image two_files "a" "img" (320%nat, 320%nat) true /\
  load_image two_files ("a" +:+ ".png") "img" (320%nat, 320%nat) false
    = load_image two_files "a" "img" (320%nat, 320%nat) true.
Proof.
  destruct (load_image_png_suffix two_files "a" "img" (320%nat, 320%nat)) as [Hfile Hload].
  split.
  - apply Hfile. reflexivity.
  - apply Hload. reflexivity.
Defined.

Lemma load_batch_images_skips_missing_witness :
  let found := found_ids two_files "img" ["a"; "b"; "c"] in
  exists batch,
    load_batch_images two_files ["a"; "b"; "c"] "img" (2%nat, 1%nat) = Loaded (Ok batch) /\
    data batch = flat_map (fun image_id => data (loaded_image two_files "img" (2%nat, 1%nat) image_id))
                          found /\
    (length found <= length ["a"; "b"; "c"])%nat /\
    (found = [] -> shape batch = [0%nat]) /\
    (found <> [] -> shape batch = [length found; 1; 2; 3]%nat).
Proof.
  apply (load_batch_images_skips_missing two_files ["a"; "b"; "c"] "img" 2%nat 1%nat).
  intros path _. eexists. split; reflexivity.
Defined.

Lemma load_batch_images_unreadable_witness :
  load_batch_images broken_file (["a"; "b"] ++ "c" :: ["a"]) "img" (2%nat, 1%nat)
  = LoadError (UnidentifiedImageError (image_file "c" "img" true)).
Proof.
  apply (load_batch_images_unreadable broken_file ["a"; "b"] ["a"] "c" "img" (2%nat, 1%nat)).
  - repeat constructor; intros _; eexists; reflexivity.
  - reflexivity.
  - reflexivity.
Defined.

Lemma get_patient_info_first_match_witness :
  ((0 <= Row.diagnosis (Row.make "b2" 61 "F" 3) <= 4)%Z ->
   exists info,
     get_patient_info "b2.png" ([Row.make "a1" 50 "M" 2] ++ Row.make "b2" 61 "F" 3
                                 :: [Row.make "b2" 62 "F" 1; Row.make "c3" 47 "F" 7])
       = Ok (Some info) /\
     PatientInfo.id info = Row.id_code (Row.make "b2" 61 "F" 3) /\
     PatientInfo.age info = Row.age (Row.make "b2" 61 "F" 3) /\
     PatientInfo.gender info = Row.gender (Row.make "b2" 61 "F" 3) /\
     PatientInfo.diagnosis info = Row.diagnosis (Row.make "b2" 61 "F" 3) /\
     DIAGNOSIS_LABELS !! Row.diagnosis (Row.make "b2" 61 "F" 3)
       = Some (PatientInfo.diagnosis_label info) /\
     DIAGNOSIS_DESCRIPTIONS !! Row.diagnosis (Row.make "b2" 61 "F" 3)
       = Some (PatientInfo.diagnosis_description info) /\
     CLASS_NAMES !! Z.to_nat (Row.diagnosis (Row.make "b2" 61 "F" 3))
       = Some (PatientInfo.diagnosis_label info)) /\
  ((Row.diagnosis (Row.make "b2" 61 "F" 3) < 0 \/ 4 < Row.diagnosis (Row.make "b2" 61 "F" 3))%Z ->
   get_patient_info "b2.png" ([Row.make "a1" 50 "M" 2] ++ Row.make "b2" 61 "F" 3
                               :: [Row.make "b2" 62 "F" 1; Row.make "c3" 47 "F" 7])
   = Error (KeyError (pretty (Row.diagnosis (Row.make "b2" 61 "F" 3))))).
Proof.
  apply (get_patient_info_first_match "b2.png" [Row.make "a1" 50 "M" 2]
           [Row.make "b2" 62 "F" 1; Row.make "c3" 47 "F" 7] (Row.make "b2" 61 "F" 3)).
  - repeat constructor. simpl. discriminate.
  - reflexivity.
Defined.

(** ** The explanation as HTML *)

Section FormatExplanation.

Variable u : StrMethods.

Lemma scan_lists_app (ps qs : list piece) (inside : bool) :
  scan_lists inside (ps ++ qs)
  = match scan_lists inside ps with
    | Some after => scan_lists after qs
    | None => None
    end.
Proof.
  revert inside. induction ps as [|p ps IH]; intros inside; simpl; [reflexivity|].
  destruct p, inside; try reflexivity; apply IH.
Qed.

Lemma close_list_agree (st : format_state) :
  lists_agree st -> lists_agree (close_list st) /\ in_list (close_list st) = false.
Proof.
  unfold lists_agree, close_list. intros H.
  destruct (in_list st) eqn:E; simpl.
  - rewrite scan_lists_app, H. split; reflexivity.
  - rewrite E. split; [exact H | reflexivity].
Qed.

Lemma emit_outside_agree (st : format_state) (p : piece) :
  lists_agree st -> in_list st = false ->
  scan_lists false [p] = Some false ->
  lists_agree (emit st p).
Proof.
  unfold lists_agree. intros H E Hp. simpl. rewrite scan_lists_app, H, E. exact Hp.
Qed.

Lemma format_line_agree (st : format_state) (line : string) :
  lists_agree st -> lists_agree (format_line u st line).
Proof.
  intros H. unfold format_line.
  destruct (String.eqb (str_strip u line) ""); [exact H|].
  destruct (String.eqb (str_strip u line) "EYE SCREENING REPORT"); [exact H|].
  destruct (is_section_header u (str_strip u line)).
  - destruct (close_list_agree st H) as [Hc Hf].
    destruct (is_separator (str_strip u line)); [exact Hc|].
    unfold set_section, lists_agree. simpl.
    apply (emit_outside_agree _ (SectionOpen (str_strip u line)) Hc Hf). reflexivity.
  - destruct (is_bullet (str_strip u line)).
    + unfold lists_agree in *. destruct (in_list st) eqn:E; simpl.
      * rewrite scan_lists_app, H, E. reflexivity.
      * rewrite !scan_lists_app, H. reflexivity.
    + cbn [negb andb].
      destruct (negb (String.prefix "=" (str_strip u line))
                && negb (String.prefix "-" (str_strip u line))); [|exact H].
      destruct (close_list_agree st H) as [Hc Hf].
      apply (emit_outside_agree _ _ Hc Hf). reflexivity.
Qed.

Lemma fold_format_line_agree (lines : list string) (st : format_state) :
  lists_agree st -> lists_agree (fold_left (format_line u) lines st).
Proof.
  revert st. induction lines as [|line lines IH]; intros st H; simpl; [exact H|].
  apply IH, format_line_agree, H.
Qed.

(** X23.  Whatever the text, the list markup that the function itself
    writes is well formed: it writes an item only after it opened a list
    that it has not closed since, it opens a list only outside one and
    closes one only inside, it writes headers, paragraphs and the closing
    [div] outside, and it has closed the last list when it returns.  This
    is about the pieces the function appends, not about tags that stand in
    the text: the lines are copied as they are. *)
Theorem format_explanation_lists_balanced (explanation_text : string) :
  scan_lists false (format_pieces u explanation_text) = Some false.
Proof.
  unfold format_pieces.
  set (st := fold_left (format_line u) (split_lines explanation_text) _).
  assert (H : lists_agree st) by (apply fold_format_line_agree; reflexivity).
  destruct (close_list_agree st H) as [Hc Hf].
  destruct (truthy (current_section (close_list st))).
  - pose proof (emit_outside_agree _ SectionClose Hc Hf eq_refl) as He.
    unfold lists_agree in He. simpl in He. rewrite Hf in He. exact He.
  - unfold lists_agree in Hc. rewrite Hf in Hc. exact Hc.
Qed.

Lemma count_open_app (ps qs : list piece) :
  count_open (ps ++ qs) = (count_open ps + count_open qs)%nat.
Proof. unfold count_open. rewrite List.filter_app, length_app. reflexivity. Qed.

Lemma count_close_app (ps qs : list piece) :
  count_close (ps ++ qs) = (count_close ps + count_close qs)%nat.
Proof. unfold count_close. rewrite List.filter_app, length_app. reflexivity. Qed.

Lemma emit_other_sections (n : nat) (st : format_state) (p : piece) :
  is_section_open p = false -> is_section_close p = false ->
  sections_agree n st -> sections_agree n (emit st p).
Proof.
  intros Ho Hc (H1 & H2 & H3). unfold sections_agree. simpl.
  rewrite count_open_app, count_close_app, H1, H2.
  unfold count_open, count_close. simpl. rewrite Ho, Hc. simpl.
  repeat split; [lia | exact H3].
Qed.

Lemma close_list_sections (n : nat) (st : format_state) :
  sections_agree n st -> sections_agree n (close_list st).
Proof.
  intros H. unfold close_list. destruct (in_list st); [|exact H].
  apply (emit_other_sections n st ListClose) in H; [|reflexivity|reflexivity].
  exact H.
Qed.

Lemma format_line_sections (n : nat) (st : format_state) (line : string) :
  sections_agree n st ->
  sections_agree (n + (if opens_section u line then 1 else 0)) (format_line u st line).
Proof.
  intros H. unfold format_line, opens_section.
  destruct (String.eqb (str_strip u line) "") eqn:Hempty; simpl.
  { rewrite Nat.add_0_r. exact H. }
  destruct (String.eqb (str_strip u line) "EYE SCREENING REPORT"); simpl.
  { rewrite Nat.add_0_r. exact H. }
  destruct (is_section_header u (str_strip u line)); simpl.
  - apply close_list_sections in H.
    destruct (is_separator (str_strip u line)); simpl.
    + rewrite Nat.add_0_r. exact H.
    + destruct H as (H1 & H2 & H3). unfold sections_agree. simpl.
      rewrite count_open_app, count_close_app, H1, H2, Hempty.
      replace (n + 1 =? 0)%nat with false by (symmetry; apply Nat.eqb_neq; lia).
      repeat split.
  - rewrite Nat.add_0_r.
    destruct (is_bullet (str_strip u line)).
    + apply emit_other_sections; [reflexivity|reflexivity|].
      destruct (negb (in_list st)); [|exact H].
      apply (emit_other_sections n st ListOpen) in H; [|reflexivity|reflexivity]. exact H.
    + destruct (negb (String.prefix "=" (str_strip u line))
                && negb (String.prefix "-" (str_strip u line))); [|exact H].
      apply emit_other_sections; [reflexivity|reflexivity|].
      apply close_list_sections, H.
Qed.

Lemma fold_format_line_sections (lines : list string) (n : nat) (st : format_state) :
  sections_agree n st ->
  sections_agree (n + length (List.filter (opens_section u) lines))
                 (fold_left (format_line u) lines st).
Proof.
  revert n st. induction lines as [|line lines IH]; intros n st H; simpl.
  - rewrite Nat.add_0_r. exact H.
  - apply (format_line_sections n st line) in H. apply IH in H.
    destruct (opens_section u line); simpl in *.
    + replace (n + S (length (List.filter (opens_section u) lines)))%nat
        with (n + 1 + length (List.filter (opens_section u) lines))%nat by lia. exact H.
    + rewrite Nat.add_0_r in H. exact H.
Qed.

(** X24.  Every line that is a section header opens a [div], and a single
    closing [div] is written at the very end, and only if a section was
    opened: a text with two or more headers leaves sections unclosed. *)
Theorem format_explanation_sections (explanation_text : string) :
  let ps := format_pieces u explanation_text in
  let headers := length (List.filter (opens_section u) (split_lines explanation_text)) in
  count_open ps = headers /\
  count_close ps = (if (headers =? 0)%nat then 0 else 1)%nat /\
  (headers <> 0%nat -> last ps = Some SectionClose) /\
  ((2 <= headers)%nat -> (count_close ps < count_open ps)%nat).
Proof.
  intros ps headers. subst ps. unfold format_pieces.
  set (st := fold_left (format_line u) (split_lines explanation_text) _).
  assert (H : sections_agree headers st).
  { apply (fold_format_line_sections (split_lines explanation_text) 0).
    repeat split. }
  apply close_list_sections in H. destruct H as (H1 & H2 & H3).
  rewrite H3.
  destruct (headers =? 0)%nat eqn:E; simpl.
  - apply Nat.eqb_eq in E. rewrite H1, H2.
    repeat split; try lia; intros; congruence.
  - apply Nat.eqb_neq in E. rewrite count_open_app, count_close_app, H1, H2.
    unfold count_open, count_close. simpl.
    repeat split; try lia; intros _; apply last_snoc.
Qed.

(** X25.  A text of blank lines, the empty text included, and of title
    lines gives the empty HTML. *)
Theorem format_explanation_blank (explanation_text : string) :
  Forall (fun line => str_strip u line = "" \/ str_strip u line = "EYE SCREENING REPORT")
         (split_lines explanation_text) ->
  format_explanation_text_to_html u explanation_text = "".
Proof.
  intros Hall. unfold format_explanation_text_to_html, format_pieces.
  assert (Hfold : forall lines st,
             Forall (fun line => str_strip u line = ""
                                 \/ str_strip u line = "EYE SCREENING REPORT") lines ->
             fold_left (format_line u) lines st = st).
  { induction lines as [|line lines IH]; intros st Hl; simpl; [reflexivity|].
    inversion Hl as [|? ? Hline Hrest]; subst.
    replace (format_line u st line) with st; [apply IH, Hrest|].
    unfold format_line. destruct Hline as [-> | ->]; reflexivity. }
  rewrite Hfold by exact Hall. reflexivity.
Qed.

End FormatExplanation.

Lemma format_explanation_blank_witness :
  format_explanation_text_to_html ascii_methods blank_text = "".
Proof.
  apply (format_explanation_blank ascii_methods blank_text).
  vm_compute.
  repeat (constructor; [first [left; reflexivity | right; reflexivity]|]).
  constructor.
Defined.

